(** * FBOSS port synchronisation and telemetry: a shallow embedding

    The development follows the layout of the sources:
    - [MirrorState] : fboss/agent/state/Mirror.h (MirrorTunnel comparison);
    - [WedgeI2C]    : fboss/lib/usb/BaseWedgeI2CBus.cpp (module presence probe);
    - [Cfg]         : the switch-state types both port layers read;
    - [SaiPort]     : SaiPortManager (handle registry and reverse index);
    - [Bcm]         : BcmPort (enable, program, speed and interface mode,
                      mirror rebinding);
    - [BcmStats]    : BcmPort::updateStats (snapshots, non-pause discards);
    - [StatsSync]   : publication of the snapshot under the read-write lock.

    Stateful C++ is rendered with explicit state passing in a small
    state-and-outcome monad; calls that leave an object are appended to a
    log so that ordering properties can be stated on the log. *)

From Stdlib Require Import ZArith Lia Bool List.
From stdpp Require Import base option list gmap strings.

Set Default Proof Using "Type".

(** ** Outcomes of C++ calls

    A call either returns, throws an exception, or hits a fatal check
    ([CHECK], [XLOG(FATAL)]), which terminates the process. *)

Inductive outcome (E A : Type) : Type :=
| Returns (a : A)
| Throws (e : E)
| Fatal (msg : string).
Arguments Returns {E A} a.
Arguments Throws {E A} e.
Arguments Fatal {E A} msg.

Definition is_throws {E A} (o : outcome E A) : bool :=
  match o with Throws _ => true | _ => false end.

(** State-and-outcome monad: the state is threaded through, and is kept
    as it was at the point of a throw (no roll-back, as in the C++). *)
Definition M (S E A : Type) : Type := S -> outcome E A * S.

Definition retM {S E A} (a : A) : M S E A := fun s => (Returns a, s).

Definition bindM {S E A B} (m : M S E A) (k : A -> M S E B) : M S E B :=
  fun s =>
    match m s with
    | (Returns a, s') => k a s'
    | (Throws e, s') => (Throws e, s')
    | (Fatal msg, s') => (Fatal msg, s')
    end.

Definition throwM {S E A} (e : E) : M S E A := fun s => (Throws e, s).
Definition fatalM {S E A} (msg : string) : M S E A := fun s => (Fatal msg, s).
Definition getM {S E} : M S E S := fun s => (Returns s, s).
Definition modifyM {S E} (f : S -> S) : M S E unit := fun s => (Returns tt, f s).

Declare Scope cpp_scope.
Delimit Scope cpp_scope with cpp.
Notation "'do' x <- c1 ; c2" := (bindM c1 (fun x => c2))
  (at level 10, x name, c1 at level 100, c2 at level 200) : cpp_scope.
Notation "'run' c1 ; c2" := (bindM c1 (fun _ => c2))
  (at level 10, c1 at level 100, c2 at level 200) : cpp_scope.

(** [for (auto x : xs) body(x)] *)
Fixpoint forM {S E A} (xs : list A) (body : A -> M S E unit) : M S E unit :=
  match xs with
  | [] => retM tt
  | x :: rest => bindM (body x) (fun _ => forM rest body)
  end.

Lemma bind_returns_inversion {S E A B} (m : M S E A) (k : A -> M S E B) s b s' :
  bindM m k s = (Returns b, s') ->
  exists a s1, m s = (Returns a, s1) /\ k a s1 = (Returns b, s').
Proof.
  unfold bindM. destruct (m s) as [[a|e|msg] s1]; intros H; try discriminate. eauto.
Qed.

(** ** Mirror.h *)

Module MirrorState.

(** The comparison operators the members of [MirrorTunnel] provide. *)
Class Cmp (A : Type) := {
  eqb_of : A -> A -> bool;
  ltb_of : A -> A -> bool;
  eqb_of_refl : forall a, eqb_of a a = true;
  ltb_of_irrefl : forall a, ltb_of a a = false
}.

(** Unsigned machine integers ([uint8_t], [uint16_t], [uint32_t]) and the
    48-bit value of a [folly::MacAddress]. *)
#[export] Program Instance Cmp_Z : Cmp Z := {
  eqb_of := Z.eqb;
  ltb_of := Z.ltb
}.
Next Obligation. intros a. apply Z.eqb_refl. Qed.
Next Obligation. intros a. apply Z.ltb_irrefl. Qed.

(** [folly::IPAddress]: empty, or a v4 or v6 address given by its value. *)
Inductive IPAddress : Type :=
| IPEmpty
| IPv4 (a : Z)
| IPv6 (a : Z).

Definition ip_eqb (x y : IPAddress) : bool :=
  match x, y with
  | IPEmpty, IPEmpty => true
  | IPv4 a, IPv4 b => Z.eqb a b
  | IPv6 a, IPv6 b => Z.eqb a b
  | _, _ => false
  end.

Definition ip_ltb (x y : IPAddress) : bool :=
  match x, y with
  | IPEmpty, IPEmpty => false
  | IPEmpty, _ => true
  | _, IPEmpty => false
  | IPv4 a, IPv4 b => Z.ltb a b
  | IPv4 _, IPv6 _ => true
  | IPv6 _, IPv4 _ => false
  | IPv6 a, IPv6 b => Z.ltb a b
  end.

#[export] Program Instance Cmp_IP : Cmp IPAddress := {
  eqb_of := ip_eqb;
  ltb_of := ip_ltb
}.
Next Obligation. intros [|a|a]; simpl; auto using Z.eqb_refl. Qed.
Next Obligation. intros [|a|a]; simpl; auto using Z.ltb_irrefl. Qed.

Abbreviation MacAddress := Z.

Record TunnelUdpPorts := mkTunnelUdpPorts {
  udpSrcPort : Z;
  udpDstPort : Z
}.

Record MirrorTunnel := mkMirrorTunnel {
  srcIp : IPAddress;
  dstIp : IPAddress;
  srcMac : MacAddress;
  dstMac : MacAddress;
  udpPorts : option TunnelUdpPorts;
  ttl : Z;
  greProtocol : Z
}.

Definition kTTL : Z := 255.
Definition kProto : Z := 0x88be.

Definition with_udpPorts (t : MirrorTunnel) (u : option TunnelUdpPorts) : MirrorTunnel :=
  mkMirrorTunnel (srcIp t) (dstIp t) (srcMac t) (dstMac t) u (ttl t) (greProtocol t).

(** [MirrorTunnel::operator==] *)
Definition tunnel_eq (l r : MirrorTunnel) : bool :=
  eqb_of (srcIp l) (srcIp r) && eqb_of (dstIp l) (dstIp r) &&
  eqb_of (srcMac l) (srcMac r) && eqb_of (dstMac l) (dstMac r) &&
  eqb_of (ttl l) (ttl r) && eqb_of (greProtocol l) (greProtocol r).

(** One position of the lexicographic [operator<] of [std::tuple]:
    [a < b || (!(b < a) && rest)]. *)
Definition tie_lt {A} `{Cmp A} (a b : A) (rest : bool) : bool :=
  ltb_of a b || (negb (ltb_of b a) && rest).

(** [MirrorTunnel::operator<], over
    [std::tie(srcIp, dstIp, srcMac, dstMac, ttl, greProtocol)]. *)
Definition tunnel_lt (l r : MirrorTunnel) : bool :=
  tie_lt (srcIp l) (srcIp r)
   (tie_lt (dstIp l) (dstIp r)
     (tie_lt (srcMac l) (srcMac r)
       (tie_lt (dstMac l) (dstMac r)
         (tie_lt (ttl l) (ttl r)
           (tie_lt (greProtocol l) (greProtocol r) false))))).

Lemma tie_lt_same {A} `{Cmp A} (a : A) (rest : bool) : tie_lt a a rest = rest.
Proof. unfold tie_lt. rewrite ltb_of_irrefl. reflexivity. Qed.

Lemma tunnel_eq_refl_upto_udp (t : MirrorTunnel) (u v : option TunnelUdpPorts) :
  tunnel_eq (with_udpPorts t u) (with_udpPorts t v) = true.
Proof.
  unfold tunnel_eq, with_udpPorts.
  cbn [srcIp dstIp srcMac dstMac ttl greProtocol].
  rewrite !eqb_of_refl. reflexivity.
Qed.

Lemma tunnel_lt_irrefl_upto_udp (t : MirrorTunnel) (u v : option TunnelUdpPorts) :
  tunnel_lt (with_udpPorts t u) (with_udpPorts t v) = false.
Proof.
  unfold tunnel_lt, with_udpPorts.
  cbn [srcIp dstIp srcMac dstMac ttl greProtocol].
  rewrite !tie_lt_same. reflexivity.
Qed.

Example tunnel_udp_ignored_example :
  let a := mkMirrorTunnel (IPv4 167772161) (IPv4 167772162) 1 2
             (Some (mkTunnelUdpPorts 6343 6344)) kTTL kProto in
  let b := mkMirrorTunnel (IPv4 167772161) (IPv4 167772162) 1 2 None kTTL kProto in
  udpPorts a <> udpPorts b /\ tunnel_eq a b = true /\
  tunnel_lt a b = false /\ tunnel_lt b a = false.
Proof. repeat split; discriminate. Qed.

(** C10. [MirrorTunnel::operator==] and [operator<] ignore [udpPorts]: two
    tunnels that agree on every field except (possibly) [udpPorts] compare
    equal, and neither is less than the other. *)
Theorem mirror_tunnel_compare_ignores_udpPorts :
  forall (l r : MirrorTunnel),
    with_udpPorts l None = with_udpPorts r None ->
    tunnel_eq l r = true /\ tunnel_lt l r = false /\ tunnel_lt r l = false.
Proof.
  intros [a b c d u e f] [a' b' c' d' u' e' f'] Heq.
  unfold with_udpPorts in Heq; simpl in Heq.
  injection Heq as -> -> -> -> -> ->.
  pose (t := mkMirrorTunnel a' b' c' d' None e' f').
  change (mkMirrorTunnel a' b' c' d' u e' f') with (with_udpPorts t u).
  change (mkMirrorTunnel a' b' c' d' u' e' f') with (with_udpPorts t u').
  auto using tunnel_eq_refl_upto_udp, tunnel_lt_irrefl_upto_udp.
Qed.

Lemma mirror_tunnel_compare_ignores_udpPorts_witness :
  let a := mkMirrorTunnel (IPv4 167772161) (IPv6 1) 1 2
             (Some (mkTunnelUdpPorts 6343 6344)) kTTL kProto in
  let b := mkMirrorTunnel (IPv4 167772161) (IPv6 1) 1 2
             (Some (mkTunnelUdpPorts 1 2)) kTTL kProto in
  tunnel_eq a b = true /\ tunnel_lt a b = false /\ tunnel_lt b a = false.
Proof.
  intros a b.
  apply (mirror_tunnel_compare_ignores_udpPorts a b).
  reflexivity.
Defined.

End MirrorState.

(** ** BaseWedgeI2CBus.cpp *)

Module WedgeI2C.

Local Open Scope Z_scope.
Local Open Scope cpp_scope.

(** The only exception the CP2112 device and the bus raise: [UsbError] and
    its subclasses derive from [I2cError]. *)
Inductive I2cError : Type := mkI2cError (what : string).

(** Operations issued to the CP2112 device ([dev_]). *)
Inductive DevOp : Type :=
| DevWriteByte (address value : Z)
| DevRead (address : Z) (len : Z)
| DevWrite (address : Z) (data : list Z).

Record Bus := mkBus {
  selectedPort_ : Z;
  devLog : list DevOp
}.

Inductive ModulePresence : Type := PRESENT | ABSENT | UNKNOWN.

Definition uint8 (z : Z) : Z := z mod 256.
Definition uint32 (z : Z) : Z := z mod 4294967296.
Definition size_t (z : Z) : Z := z mod 2 ^ 64.

(** [try { body } catch (const I2cError&) { handler }] *)
Definition try_catch {S A} (body : M S I2cError A) (handler : I2cError -> M S I2cError A)
  : M S I2cError A :=
  fun s =>
    match body s with
    | (Throws e, s') => handler e s'
    | r => r
    end.

Section Bus.

(** Constants declared in the headers ([BaseWedgeI2CBus.h],
    [TransceiverI2CApi.h]). *)
Variable NO_PORT : Z.
Variable ADDR_QSFP : Z.

(** The device: whether the operation issued after [n] earlier ones
    fails, and the bytes a read then delivers. *)
Variable devFails : nat -> DevOp -> option I2cError.
Variable devData : nat -> Z -> list Z.

(** [selectQsfpImpl] is pure virtual in the base class. *)
Variable selectQsfpImpl : Z -> M Bus I2cError unit.

Definition devCall (op : DevOp) : M Bus I2cError nat :=
  fun b =>
    let n := length (devLog b) in
    let b' := mkBus (selectedPort_ b) (devLog b ++ [op]) in
    match devFails n op with
    | Some e => (Throws e, b')
    | None => (Returns n, b')
    end.

Definition dev_writeByte (address value : Z) : M Bus I2cError unit :=
  do _ <- devCall (DevWriteByte address value); retM tt.

Definition dev_read (address len : Z) : M Bus I2cError (list Z) :=
  do n <- devCall (DevRead address len); retM (devData n len).

Definition CHECK {S E} (cond : bool) (msg : string) : M S E unit :=
  if cond then retM tt else fatalM msg.

(** [BaseWedgeI2CBus::read].  [offset] and [len] are [int]s: the device's
    [writeByte] takes the offset as a [uint8_t], and the length of a
    [MutableByteRange] is a [size_t]. *)
Definition read (address offset len : Z) : M Bus I2cError (list Z) :=
  run CHECK (offset <=? 255) "CHECK_LE(offset, 255)";
  let address := uint8 (Z.shiftl address 1) in
  run dev_writeByte address (uint8 offset);
  if 128 <? len then
    do lo <- dev_read address 128;
    run dev_writeByte address (uint8 (offset + 128));
    do hi <- dev_read address (size_t (len - 128));
    retM (lo ++ hi)
  else
    dev_read address (size_t len).

(** [BaseWedgeI2CBus::write] *)
Definition write (address offset len : Z) (buf : list Z) : M Bus I2cError unit :=
  run CHECK (offset <=? 255) "CHECK_LE(offset, 255)";
  let address := uint8 (Z.shiftl address 1) in
  run CHECK (len <=? 60) "CHECK_LE(len, 60)";
  let output := uint8 offset :: take (Z.to_nat len) buf in
  do _ <- devCall (DevWrite address output); retM tt.

(** [BaseWedgeI2CBus::selectQsfp] *)
Definition selectQsfp (port : Z) : M Bus I2cError unit :=
  run CHECK (0 <? port) "CHECK_GT(port, 0)";
  do b <- getM;
  if negb (port =? selectedPort_ b) then selectQsfpImpl port else retM tt.

(** [BaseWedgeI2CBus::unselectQsfp] *)
Definition unselectQsfp : M Bus I2cError unit :=
  do b <- getM;
  if negb (selectedPort_ b =? NO_PORT) then selectQsfpImpl NO_PORT else retM tt.

(** [BaseWedgeI2CBus::moduleRead] *)
Definition moduleRead (module address offset len : Z) : M Bus I2cError (list Z) :=
  run selectQsfp module;
  do b <- getM;
  run CHECK (negb (selectedPort_ b =? NO_PORT)) "CHECK_NE(selectedPort_, NO_PORT)";
  do buf <- read address offset len;
  run unselectQsfp;
  retM buf.

(** [BaseWedgeI2CBus::moduleWrite] *)
Definition moduleWrite (module address offset len : Z) (buf : list Z)
  : M Bus I2cError unit :=
  run selectQsfp module;
  do b <- getM;
  run CHECK (negb (selectedPort_ b =? NO_PORT)) "CHECK_NE(selectedPort_, NO_PORT)";
  run write address offset len buf;
  unselectQsfp.

(** [BaseWedgeI2CBus::isPresent] *)
Definition isPresent (module : Z) : M Bus I2cError bool :=
  try_catch
    (run moduleRead module ADDR_QSFP 0 1; retM true)
    (fun _ => retM false).

(** [BaseWedgeI2CBus::scanPresence]; the [std::map] is given by its
    entries in iteration order, and the updated entries are returned. *)
Fixpoint scanPresence (presences : list (Z * ModulePresence))
  : M Bus I2cError (list (Z * ModulePresence)) :=
  match presences with
  | [] => retM []
  | (k, _) :: rest =>
      do p <- try_catch
                (run moduleRead (uint32 (k + 1)) ADDR_QSFP 0 1; retM PRESENT)
                (fun _ => retM ABSENT);
      do rest' <- scanPresence rest;
      retM ((k, p) :: rest')
  end.

(** The same scan, phrased with [isPresent] on each entry. *)
Definition presence_of (b : bool) : ModulePresence := if b then PRESENT else ABSENT.

Fixpoint scan_by_isPresent (presences : list (Z * ModulePresence))
  : M Bus I2cError (list (Z * ModulePresence)) :=
  match presences with
  | [] => retM []
  | (k, _) :: rest =>
      do p <- isPresent (uint32 (k + 1));
      do rest' <- scan_by_isPresent rest;
      retM ((k, presence_of p) :: rest')
  end.

Lemma isPresent_cases (module : Z) (b : Bus) :
  match moduleRead module ADDR_QSFP 0 1 b with
  | (Returns _, b') => isPresent module b = (Returns true, b')
  | (Throws _, b') => isPresent module b = (Returns false, b')
  | (Fatal msg, b') => isPresent module b = (Fatal msg, b')
  end.
Proof.
  unfold isPresent, try_catch, bindM, retM.
  destruct (moduleRead module ADDR_QSFP 0 1 b) as [[buf|e|msg] b']; reflexivity.
Qed.

Lemma isPresent_never_throws (module : Z) (b : Bus) :
  is_throws (fst (isPresent module b)) = false.
Proof.
  pose proof (isPresent_cases module b) as H.
  destruct (moduleRead module ADDR_QSFP 0 1 b) as [[buf|e|msg] b'];
    rewrite H; reflexivity.
Qed.

Lemma scanPresence_by_isPresent (presences : list (Z * ModulePresence)) (b : Bus) :
  scanPresence presences b = scan_by_isPresent presences b.
Proof.
  revert b. induction presences as [|[k old] rest IH]; intros b; [reflexivity|].
  cbn [scanPresence scan_by_isPresent].
  unfold isPresent, try_catch, bindM, retM.
  destruct (moduleRead (uint32 (k + 1)) ADDR_QSFP 0 1 b) as [[buf|e|msg] b'];
    cbn; rewrite ?IH; reflexivity.
Qed.

Lemma scanPresence_never_throws (presences : list (Z * ModulePresence)) (b : Bus) :
  is_throws (fst (scanPresence presences b)) = false.
Proof.
  rewrite scanPresence_by_isPresent.
  revert b. induction presences as [|[k old] rest IH]; intros b; [reflexivity|].
  cbn [scan_by_isPresent]. unfold bindM at 1.
  pose proof (isPresent_never_throws (uint32 (k + 1)) b) as Hp.
  destruct (isPresent (uint32 (k + 1)) b) as [[p|e|msg] b']; try discriminate; [|reflexivity].
  unfold bindM. specialize (IH b').
  destruct (scan_by_isPresent rest b') as [[r|e|msg] b'']; try discriminate; reflexivity.
Qed.

Lemma scanPresence_records (presences : list (Z * ModulePresence)) (b : Bus) :
  match scanPresence presences b with
  | (Returns recorded, _) =>
      map fst recorded = map fst presences /\
      Forall (fun kp => snd kp = PRESENT \/ snd kp = ABSENT) recorded
  | _ => True
  end.
Proof.
  rewrite scanPresence_by_isPresent.
  revert b. induction presences as [|[k old] rest IH]; intros b.
  - cbn. split; [reflexivity | constructor].
  - cbn [scan_by_isPresent]. unfold bindM at 1.
    destruct (isPresent (uint32 (k + 1)) b) as [[p|e|msg] b']; try exact I.
    unfold bindM. specialize (IH b').
    destruct (scan_by_isPresent rest b') as [[r|e|msg] b'']; try exact I.
    cbn. destruct IH as [Hk Hall]. split; [by rewrite Hk|].
    constructor; [|exact Hall]. destruct p; cbn; auto.
Qed.

(** *** Device traffic of [read] and [write] *)

(** What [read] asks of the device, in order, as long as no operation
    fails. *)
Definition read_plan (address offset len : Z) : list DevOp :=
  let address := uint8 (Z.shiftl address 1) in
  if 128 <? len
  then [DevWriteByte address (uint8 offset); DevRead address 128;
        DevWriteByte address (uint8 (offset + 128));
        DevRead address (size_t (len - 128))]
  else [DevWriteByte address (uint8 offset); DevRead address (size_t len)].

(** The buffer [read] hands back when every operation went through, the
    first of them being the [n]-th the device sees. *)
Definition read_result (n : nat) (len : Z) : list Z :=
  if 128 <? len
  then devData (S n) 128 ++ devData (S (S (S n))) (size_t (len - 128))
  else devData (S n) (size_t len).

Definition read_size (op : DevOp) : Z :=
  match op with DevRead _ n => n | _ => 0 end.

Definition offset_byte_ok (op : DevOp) : Prop :=
  match op with DevWriteByte _ v => 0 <= v < 256 | _ => True end.

(** A list of operations issued from position [n] on, until the first one
    the device fails: what was issued, and the error if there was one. *)
Fixpoint attempt (n : nat) (plan : list DevOp) : list DevOp * option I2cError :=
  match plan with
  | [] => ([], None)
  | op :: rest =>
      match devFails n op with
      | Some e => ([op], Some e)
      | None => (op :: fst (attempt (S n) rest), snd (attempt (S n) rest))
      end
  end.

Definition all_accepted (n : nat) (plan : list DevOp) : Prop :=
  forall i op, plan !! i = Some op -> devFails (n + i) op = None.

Definition first_failure (n : nat) (plan : list DevOp) (i : nat) (e : I2cError) : Prop :=
  (exists op, plan !! i = Some op /\ devFails (n + i) op = Some e) /\
  all_accepted n (take i plan).

Lemma devCall_unfold (op : DevOp) (b : Bus) :
  devCall op b =
  (match devFails (length (devLog b)) op with
   | Some e => Throws e
   | None => Returns (length (devLog b))
   end, mkBus (selectedPort_ b) (devLog b ++ [op])).
Proof. unfold devCall. destruct (devFails _ _); reflexivity. Qed.

Lemma attempt_cases (n : nat) (plan : list DevOp) :
  match snd (attempt n plan) with
  | None => fst (attempt n plan) = plan /\ all_accepted n plan
  | Some e => exists i, first_failure n plan i e /\ fst (attempt n plan) = take (S i) plan
  end.
Proof.
  revert n. induction plan as [|op rest IH]; intros n; cbn [attempt].
  - cbn. split; [reflexivity|]. intros i op Hi. by rewrite lookup_nil in Hi.
  - destruct (devFails n op) as [e|] eqn:Hop; cbn [fst snd].
    + exists 0%nat. split; [|reflexivity].
      split; [exists op; by rewrite Nat.add_0_r|].
      intros i op' Hi. by rewrite take_0, lookup_nil in Hi.
    + specialize (IH (S n)). destruct (snd (attempt (S n) rest)) as [e|].
      * destruct IH as (i & ((op' & Hi & He) & Hbefore) & Htake).
        exists (S i). split; [split|].
        -- exists op'. split; [exact Hi|]. by rewrite Nat.add_succ_r.
        -- intros [|j] opj Hj; cbn in Hj.
           ++ injection Hj as <-. by rewrite Nat.add_0_r.
           ++ rewrite Nat.add_succ_r. by apply Hbefore.
        -- cbn [take]. by rewrite Htake.
      * destruct IH as [-> Hall]. split; [reflexivity|].
        intros [|j] opj Hj; cbn in Hj.
        -- injection Hj as <-. by rewrite Nat.add_0_r.
        -- rewrite Nat.add_succ_r. by apply Hall.
Qed.

Lemma first_failure_unique (n : nat) (plan : list DevOp) i e i' e' :
  first_failure n plan i e -> first_failure n plan i' e' -> i = i' /\ e = e'.
Proof.
  intros [(op & Hi & He) Hbefore] [(op' & Hi' & He') Hbefore'].
  destruct (Nat.lt_trichotomy i i') as [Hlt|[->|Hlt]].
  - specialize (Hbefore' i op). rewrite lookup_take_lt in Hbefore' by exact Hlt.
    specialize (Hbefore' Hi). congruence.
  - split; [reflexivity|]. congruence.
  - specialize (Hbefore i' op'). rewrite lookup_take_lt in Hbefore by exact Hlt.
    specialize (Hbefore Hi'). congruence.
Qed.

Lemma read_plan_sizes (address offset len : Z) :
  Forall offset_byte_ok (read_plan address offset len) /\
  (0 <= len <= 256 -> Forall (fun op => read_size op <= 128) (read_plan address offset len)) /\
  (0 <= len < 2 ^ 64 -> foldr Z.add 0 (map read_size (read_plan address offset len)) = len).
Proof.
  assert (Hbyte : forall z, 0 <= uint8 z < 256)
    by (intros z; unfold uint8; apply Z.mod_pos_bound; lia).
  unfold read_plan, size_t. destruct (128 <? len) eqn:Hlen; cbn.
  - apply Z.ltb_lt in Hlen. split; [|split].
    + repeat constructor; apply Hbyte.
    + intros. rewrite Z.mod_small by lia. repeat constructor; cbn; lia.
    + intros. rewrite Z.mod_small by lia. lia.
  - apply Z.ltb_ge in Hlen. split; [|split].
    + repeat constructor; apply Hbyte.
    + intros. rewrite Z.mod_small by lia. repeat constructor; cbn; lia.
    + intros. rewrite Z.mod_small by lia. lia.
Qed.

Lemma read_attempt (address offset len : Z) (b : Bus) :
  offset <= 255 ->
  read address offset len b =
  (match snd (attempt (length (devLog b)) (read_plan address offset len)) with
   | Some e => Throws e
   | None => Returns (read_result (length (devLog b)) len)
   end,
   mkBus (selectedPort_ b)
     (devLog b ++ fst (attempt (length (devLog b)) (read_plan address offset len)))).
Proof.
  intros Hoff. apply Z.leb_le in Hoff.
  unfold read, read_plan, read_result, CHECK. rewrite Hoff. cbv zeta.
  set (a := uint8 (Z.shiftl address 1)).
  unfold dev_writeByte, dev_read, bindM, retM.
  destruct (128 <? len); cbn [attempt];
    repeat (rewrite devCall_unfold; cbn [devLog selectedPort_];
            rewrite ?length_app; cbn [length]; rewrite ?Nat.add_1_r;
            match goal with
            | |- context [devFails ?n ?op] => destruct (devFails n op)
            end; cbv beta iota; cbn [attempt fst snd]);
    rewrite <- ?app_assoc; reflexivity.
Qed.

Lemma read_traffic (address offset len : Z) (b : Bus) :
  offset <= 255 ->
  exists d,
    snd (read address offset len b) = mkBus (selectedPort_ b) (devLog b ++ d).
Proof. intros Hoff. rewrite (read_attempt _ _ _ _ Hoff). by eexists. Qed.

Lemma read_offset_check (address offset len : Z) (b : Bus) :
  255 < offset -> read address offset len b = (Fatal "CHECK_LE(offset, 255)", b).
Proof.
  intros Hoff. apply Z.leb_gt in Hoff. unfold read, CHECK, bindM. by rewrite Hoff.
Qed.

Lemma write_checks (address offset len : Z) (buf : list Z) (b : Bus) :
  255 < offset \/ 60 < len ->
  exists msg, write address offset len buf b = (Fatal msg, b).
Proof.
  intros Hbad. unfold write, CHECK, bindM.
  destruct (offset <=? 255) eqn:Hoff; [|by eexists].
  destruct (len <=? 60) eqn:Hlen; [|by eexists].
  apply Z.leb_le in Hoff, Hlen. lia.
Qed.

Lemma write_traffic (address offset len : Z) (buf : list Z) (b : Bus) :
  offset <= 255 -> len <= 60 ->
  write address offset len buf b =
  let op := DevWrite (uint8 (Z.shiftl address 1)) (uint8 offset :: take (Z.to_nat len) buf) in
  (match devFails (length (devLog b)) op with
   | Some e => Throws e
   | None => Returns tt
   end, mkBus (selectedPort_ b) (devLog b ++ [op])).
Proof.
  intros Hoff Hlen. apply Z.leb_le in Hoff, Hlen.
  unfold write, CHECK, bindM, retM. rewrite Hoff, Hlen. cbv zeta beta iota.
  rewrite devCall_unfold. by destruct (devFails _ _).
Qed.

Lemma read_keeps_selection (address offset len : Z) (b : Bus) :
  selectedPort_ (snd (read address offset len b)) = selectedPort_ b.
Proof.
  destruct (Z_le_gt_dec offset 255) as [Hoff|Hoff].
  - destruct (read_traffic address offset len b Hoff) as (d & ->). reflexivity.
  - rewrite read_offset_check by lia. reflexivity.
Qed.

Lemma write_keeps_selection (address offset len : Z) (buf : list Z) (b : Bus) :
  selectedPort_ (snd (write address offset len buf b)) = selectedPort_ b.
Proof.
  destruct (Z_le_gt_dec offset 255) as [Hoff|Hoff];
    [destruct (Z_le_gt_dec len 60) as [Hlen|Hlen]|].
  - rewrite write_traffic by done. reflexivity.
  - destruct (write_checks address offset len buf b) as [msg ->]; [lia | reflexivity].
  - destruct (write_checks address offset len buf b) as [msg ->]; [lia | reflexivity].
Qed.

(** X1. [read] aborts on an offset above 255 before it touches the
    device.  Otherwise it works through a fixed sequence of device
    operations: write the offset byte, read [len] bytes; or, for more
    than 128 bytes, write the offset byte, read 128 bytes, write the byte
    of the offset advanced by 128, read the remaining [len - 128] bytes.
    The offsets reach the device as bytes, that is modulo 256.  [read]
    returns exactly when the device accepts the whole sequence, with the
    bytes of the first read followed by those of the second; it throws
    exactly when the device fails one of the operations, with the error
    of the first that fails and nothing issued after it; it never hits a
    check.  For a length that is not negative the reads ask for [len]
    bytes in total, and no single read asks for more than 128 bytes as
    long as [len] is at most 256. *)
Theorem read_splits_at_128 :
  forall (address offset len : Z) (b : Bus),
    (255 < offset -> read address offset len b = (Fatal "CHECK_LE(offset, 255)", b)) /\
    (offset <= 255 ->
     (all_accepted (length (devLog b)) (read_plan address offset len) ->
      read address offset len b
      = (Returns (read_result (length (devLog b)) len),
         mkBus (selectedPort_ b) (devLog b ++ read_plan address offset len))) /\
     (forall i e,
        first_failure (length (devLog b)) (read_plan address offset len) i e ->
        read address offset len b
        = (Throws e,
           mkBus (selectedPort_ b) (devLog b ++ take (S i) (read_plan address offset len)))) /\
     match fst (read address offset len b) with
     | Returns _ => all_accepted (length (devLog b)) (read_plan address offset len)
     | Throws e =>
         exists i, first_failure (length (devLog b)) (read_plan address offset len) i e
     | Fatal _ => False
     end) /\
    read_plan address offset len
    = (let a := uint8 (Z.shiftl address 1) in
       if 128 <? len
       then [DevWriteByte a (offset mod 256); DevRead a 128;
             DevWriteByte a ((offset + 128) mod 256); DevRead a (size_t (len - 128))]
       else [DevWriteByte a (offset mod 256); DevRead a (size_t len)]) /\
    Forall offset_byte_ok (read_plan address offset len) /\
    (0 <= len <= 256 ->
     Forall (fun op => read_size op <= 128) (read_plan address offset len)) /\
    (0 <= len < 2 ^ 64 ->
     foldr Z.add 0 (map read_size (read_plan address offset len)) = len).
Proof.
  intros address offset len b.
  split; [apply read_offset_check|]. split; [|split; [reflexivity | apply read_plan_sizes]].
  intros Hoff. rewrite (read_attempt address offset len b Hoff). cbn [fst].
  pose proof (attempt_cases (length (devLog b)) (read_plan address offset len)) as Hcases.
  destruct (snd (attempt (length (devLog b)) (read_plan address offset len))) as [e|].
  - destruct Hcases as (i & Hfirst & Htake). split; [|split].
    + intros Hall. destruct Hfirst as [(op & Hi & He) _].
      specialize (Hall i op Hi). congruence.
    + intros i' e' Hfirst'.
      destruct (first_failure_unique _ _ _ _ _ _ Hfirst Hfirst') as [<- <-].
      by rewrite Htake.
    + by exists i.
  - destruct Hcases as [Hplan Hall]. split; [|split].
    + intros _. by rewrite Hplan.
    + intros i e [(op & Hi & He) _]. specialize (Hall i op Hi). congruence.
    + exact Hall.
Qed.

(** X2. [write] aborts, without touching the device, on an offset above
    255 or a length above 60.  Otherwise it issues exactly one device
    write, to the address shifted into wire format, whose payload is the
    offset byte followed by the first [len] bytes of the buffer: [len + 1]
    bytes, never more than the 61 bytes of one transfer.  It returns if
    the device accepts that write and throws the device's error if not;
    the selected port is left as it was. *)
Theorem write_sends_one_bounded_transfer :
  forall (address offset len : Z) (buf : list Z) (b : Bus),
    (255 < offset \/ 60 < len ->
     exists msg, write address offset len buf b = (Fatal msg, b)) /\
    (offset <= 255 -> 0 <= len <= 60 -> (Z.to_nat len <= length buf)%nat ->
     let payload := uint8 offset :: take (Z.to_nat len) buf in
     let op := DevWrite (uint8 (Z.shiftl address 1)) payload in
     write address offset len buf b =
       (match devFails (length (devLog b)) op with
        | Some e => Throws e
        | None => Returns tt
        end, mkBus (selectedPort_ b) (devLog b ++ [op])) /\
     Z.of_nat (length payload) = len + 1 /\
     (length payload <= 61)%nat /\
     0 <= uint8 offset < 256).
Proof.
  intros address offset len buf b. split; [apply write_checks|].
  intros Hoff Hlen Hbuf. cbv zeta.
  split; [by apply write_traffic; lia|].
  cbn [length]. rewrite length_take, Nat.min_l by exact Hbuf.
  repeat split; try lia. unfold uint8. apply Z.mod_pos_bound. lia.
  unfold uint8. apply Z.mod_pos_bound. lia.
Qed.

(** *** Selecting and unselecting around a module access *)

Section SelectContract.

(** What the subclasses' [selectQsfpImpl] is there for: when it returns,
    the port it was asked for is the selected one. *)
Hypothesis selectQsfpImpl_selects :
  forall (port : Z) (b : Bus),
    match selectQsfpImpl port b with
    | (Returns _, b') => selectedPort_ b' = port
    | _ => True
    end.

Lemma selectQsfp_returns_selected (port : Z) (b b' : Bus) (u : unit) :
  selectQsfp port b = (Returns u, b') -> selectedPort_ b' = port /\ 0 < port.
Proof using selectQsfpImpl_selects.
  cbv [selectQsfp CHECK bindM getM retM fatalM].
  destruct (0 <? port) eqn:Hpos; [|discriminate]. apply Z.ltb_lt in Hpos.
  destruct (port =? selectedPort_ b) eqn:Hsel; cbn [negb].
  - intros H; inversion H; subst. apply Z.eqb_eq in Hsel. auto.
  - intros H. pose proof (selectQsfpImpl_selects port b) as Hs. rewrite H in Hs. auto.
Qed.

Lemma unselectQsfp_returns_unselected (b b' : Bus) (u : unit) :
  unselectQsfp b = (Returns u, b') -> selectedPort_ b' = NO_PORT.
Proof using selectQsfpImpl_selects.
  cbv [unselectQsfp bindM getM retM].
  destruct (selectedPort_ b =? NO_PORT) eqn:Hsel; cbn [negb].
  - intros H; inversion H; subst. by apply Z.eqb_eq in Hsel.
  - intros H. pose proof (selectQsfpImpl_selects NO_PORT b) as Hs. rewrite H in Hs. auto.
Qed.

Lemma selectQsfp_selected_again (port : Z) (b : Bus) :
  0 < port -> selectedPort_ b = port -> selectQsfp port b = (Returns tt, b).
Proof.
  intros Hpos Hsel. apply Z.ltb_lt in Hpos.
  cbv [selectQsfp CHECK bindM getM retM fatalM]. rewrite Hpos.
  rewrite Hsel, Z.eqb_refl. reflexivity.
Qed.

(** X3. A module access that returns leaves no module selected:
    [moduleRead] and [moduleWrite] select the module, access it and
    unselect again, so after either has returned the selected port is
    [NO_PORT]. *)
Theorem module_access_returns_unselected :
  (forall (module address offset len : Z) (b b' : Bus) (buf : list Z),
     moduleRead module address offset len b = (Returns buf, b') ->
     selectedPort_ b' = NO_PORT) /\
  (forall (module address offset len : Z) (data : list Z) (b b' : Bus),
     moduleWrite module address offset len data b = (Returns tt, b') ->
     selectedPort_ b' = NO_PORT).
Proof using selectQsfpImpl_selects.
  split.
  - intros module address offset len b b' buf Hrun. unfold moduleRead in Hrun.
    apply bind_returns_inversion in Hrun as (u1 & b1 & _ & Hrun).
    apply bind_returns_inversion in Hrun as (bb & b2 & _ & Hrun).
    apply bind_returns_inversion in Hrun as (u3 & b3 & _ & Hrun).
    apply bind_returns_inversion in Hrun as (rd & b4 & _ & Hrun).
    apply bind_returns_inversion in Hrun as (u5 & b5 & Hun & Hrun).
    inversion Hrun; subst. exact (unselectQsfp_returns_unselected _ _ _ Hun).
  - intros module address offset len data b b' Hrun. unfold moduleWrite in Hrun.
    apply bind_returns_inversion in Hrun as (u1 & b1 & _ & Hrun).
    apply bind_returns_inversion in Hrun as (bb & b2 & _ & Hrun).
    apply bind_returns_inversion in Hrun as (u3 & b3 & _ & Hrun).
    apply bind_returns_inversion in Hrun as (u4 & b4 & _ & Hrun).
    exact (unselectQsfp_returns_unselected _ _ _ Hrun).
Qed.

(** X4. A device error in the middle of a module access skips the
    unselect: if the module could be selected and the read then throws,
    [moduleRead] throws the same error, the module is still the selected
    port, and selecting that module again is a no-op that does not call
    [selectQsfpImpl]. *)
Theorem failed_module_read_stays_selected :
  forall (module address offset len : Z) (b b1 b2 : Bus) (e : I2cError),
    module <> NO_PORT ->
    selectQsfp module b = (Returns tt, b1) ->
    read address offset len b1 = (Throws e, b2) ->
    moduleRead module address offset len b = (Throws e, b2) /\
    selectedPort_ b2 = module /\
    selectQsfp module b2 = (Returns tt, b2).
Proof using selectQsfpImpl_selects.
  intros module address offset len b b1 b2 e Hne Hsel Hread.
  destruct (selectQsfp_returns_selected module b b1 tt Hsel) as [Hb1 Hpos].
  assert (Hb2 : selectedPort_ b2 = module).
  { pose proof (read_keeps_selection address offset len b1) as Hk.
    rewrite Hread in Hk. cbn in Hk. congruence. }
  split; [|split; [exact Hb2 | by apply selectQsfp_selected_again]].
  apply Z.eqb_neq in Hne.
  unfold moduleRead. cbv [bindM getM CHECK retM fatalM].
  rewrite Hsel, Hb1, Hne. cbn [negb]. rewrite Hread. reflexivity.
Qed.

End SelectContract.

End Bus.

(** A bus for the examples: selecting a port only records it, and the
    device fails every operation from the [k]-th on. *)
Definition recordingSelect (port : Z) : M Bus I2cError unit :=
  modifyM (fun b => mkBus port (devLog b)).

Definition failsFrom (k : nat) (n : nat) (op : DevOp) : option I2cError :=
  if (k <=? n)%nat then Some (mkI2cError "I2C read failed") else None.

Definition zeroData (n : nat) (len : Z) : list Z := repeat 0 (Z.to_nat len).

Definition bus0 : Bus := mkBus 0 [].

Example isPresent_module_answers :
  isPresent 0 80 (failsFrom 5) zeroData recordingSelect 3 bus0
  = (Returns true, mkBus 0 [DevWriteByte 160 0; DevRead 160 1]).
Proof. reflexivity. Qed.

Example isPresent_module_silent :
  isPresent 0 80 (failsFrom 1) zeroData recordingSelect 3 bus0
  = (Returns false, mkBus 3 [DevWriteByte 160 0; DevRead 160 1]).
Proof. reflexivity. Qed.

Example isPresent_module_zero :
  fst (isPresent 0 80 (failsFrom 5) zeroData recordingSelect 0 bus0)
  = Fatal "CHECK_GT(port, 0)".
Proof. reflexivity. Qed.

Example scanPresence_mixed :
  fst (scanPresence 0 80 (failsFrom 3) zeroData recordingSelect
         [(0, UNKNOWN); (1, UNKNOWN); (2, PRESENT)] bus0)
  = Returns [(0, PRESENT); (1, ABSENT); (2, ABSENT)].
Proof. reflexivity. Qed.

Example read_200_bytes_in_two_chunks :
  read (failsFrom 9) zeroData 80 0 200 bus0
  = (Returns (repeat 0 200),
     mkBus 0 [DevWriteByte 160 0; DevRead 160 128; DevWriteByte 160 128; DevRead 160 72]).
Proof. vm_compute. reflexivity. Qed.

(** From offset 200 the second chunk starts at 328, which reaches the
    device as the byte 72. *)
Example read_second_offset_wraps :
  read (failsFrom 9) zeroData 80 200 200 bus0
  = (Returns (repeat 0 200),
     mkBus 0 [DevWriteByte 160 200; DevRead 160 128; DevWriteByte 160 72; DevRead 160 72]).
Proof. vm_compute. reflexivity. Qed.

(** The device fails the third operation: [read] throws, and the last
    read is never issued. *)
Example read_fails_at_second_offset :
  read (failsFrom 2) zeroData 80 0 200 bus0
  = (Throws (mkI2cError "I2C read failed"),
     mkBus 0 [DevWriteByte 160 0; DevRead 160 128; DevWriteByte 160 128]).
Proof. vm_compute. reflexivity. Qed.

Lemma module_access_returns_unselected_witness :
  moduleRead 0 (failsFrom 5) zeroData recordingSelect 3 80 0 1 bus0
  = (Returns [0], mkBus 0 [DevWriteByte 160 0; DevRead 160 1]) /\
  selectedPort_ (mkBus 0 [DevWriteByte 160 0; DevRead 160 1]) = 0.
Proof.
  assert (Hrun : moduleRead 0 (failsFrom 5) zeroData recordingSelect 3 80 0 1 bus0
                 = (Returns [0], mkBus 0 [DevWriteByte 160 0; DevRead 160 1]))
    by (vm_compute; reflexivity).
  split; [exact Hrun|].
  apply (proj1 (module_access_returns_unselected 0 (failsFrom 5) zeroData recordingSelect
                  ltac:(intros port b; reflexivity)) 3 80 0 1 bus0 _ [0]).
  exact Hrun.
Defined.

Lemma failed_module_read_stays_selected_witness :
  let b2 := mkBus 3 [DevWriteByte 160 0; DevRead 160 1] in
  moduleRead 0 (failsFrom 1) zeroData recordingSelect 3 80 0 1 bus0
  = (Throws (mkI2cError "I2C read failed"), b2) /\
  selectedPort_ b2 = 3 /\
  selectQsfp recordingSelect 3 b2 = (Returns tt, b2).
Proof.
  apply (failed_module_read_stays_selected 0 (failsFrom 1) zeroData recordingSelect
           ltac:(intros port b; reflexivity) 3 80 0 1 bus0 (mkBus 3 [])).
  - discriminate.
  - reflexivity.
  - vm_compute. reflexivity.
Defined.

(** C8. The presence probe turns every I2C error of the underlying module
    read into the answer "absent" and never raises: [isPresent] returns
    [false] exactly when [moduleRead] throws and [true] when it returns;
    [scanPresence] records, entry by entry, what [isPresent] answers for
    module [key + 1] (PRESENT for [true], ABSENT for [false]) and never
    raises either.  (A failed [CHECK] ends the process; it is not an
    exception.) *)
Theorem presence_probe_downgrades_i2c_errors :
  forall (NO_PORT ADDR_QSFP : Z) (devFails : nat -> DevOp -> option I2cError)
         (devData : nat -> Z -> list Z) (selectQsfpImpl : Z -> M Bus I2cError unit),
    let isPresent' := isPresent NO_PORT ADDR_QSFP devFails devData selectQsfpImpl in
    let moduleRead' := moduleRead NO_PORT devFails devData selectQsfpImpl in
    let scanPresence' := scanPresence NO_PORT ADDR_QSFP devFails devData selectQsfpImpl in
    (forall (module : Z) (b : Bus),
       is_throws (fst (isPresent' module b)) = false /\
       match moduleRead' module ADDR_QSFP 0 1 b with
       | (Returns _, b') => isPresent' module b = (Returns true, b')
       | (Throws _, b') => isPresent' module b = (Returns false, b')
       | (Fatal msg, b') => isPresent' module b = (Fatal msg, b')
       end) /\
    (forall (presences : list (Z * ModulePresence)) (b : Bus),
       is_throws (fst (scanPresence' presences b)) = false /\
       scanPresence' presences b
       = scan_by_isPresent NO_PORT ADDR_QSFP devFails devData selectQsfpImpl presences b /\
       match scanPresence' presences b with
       | (Returns recorded, _) =>
           map fst recorded = map fst presences /\
           Forall (fun kp => snd kp = PRESENT \/ snd kp = ABSENT) recorded
       | _ => True
       end).
Proof.
  intros NO_PORT ADDR_QSFP devFails devData selectQsfpImpl; cbv zeta.
  split.
  - intros module b. split.
    + apply isPresent_never_throws.
    + apply isPresent_cases.
  - intros presences b. split; [|split].
    + apply scanPresence_never_throws.
    + apply scanPresence_by_isPresent.
    + apply scanPresence_records.
Qed.

End WedgeI2C.

(** ** Switch-state types shared by both port layers *)

Module Cfg.

Local Open Scope Z_scope.

(** [cfg::PortSpeed] is a thrift enum whose numeric value is the speed in
    Mbps; the C++ casts freely between the enum and [int], so a speed is
    kept as its numeric value. *)
Definition PortSpeed := Z.
Definition DEFAULT : PortSpeed := 0.
Definition GIGE : PortSpeed := 1000.
Definition XG : PortSpeed := 10000.
Definition TWENTYG : PortSpeed := 20000.
Definition TWENTYFIVEG : PortSpeed := 25000.
Definition FORTYG : PortSpeed := 40000.
Definition FIFTYG : PortSpeed := 50000.
Definition HUNDREDG : PortSpeed := 100000.

Inductive PortState : Type := DISABLED | ENABLED.
Inductive PortFEC : Type := FEC_ON | FEC_OFF.
Inductive PortLoopbackMode : Type := LB_NONE | LB_PHY | LB_MAC.
Inductive TransmitterTechnology : Type := UNKNOWN | COPPER | OPTICAL.

#[export] Instance TransmitterTechnology_eq_dec : EqDecision TransmitterTechnology.
Proof. solve_decision. Defined.

Record PortPause := mkPortPause { tx : bool; rx : bool }.

Definition PortID := Z.
Definition VlanID := Z.

(** The fields of the switch-state [Port] node that the port layers read. *)
Record Port := mkPort {
  getID : PortID;
  getName : string;
  getAdminState : PortState;
  getSpeed : PortSpeed;
  getFEC : PortFEC;
  getPause : PortPause;
  getLoopbackMode : PortLoopbackMode;
  getIngressVlan : VlanID;
  (* VLAN id and whether the port is a tagged member, in map order *)
  getVlans : list (VlanID * bool);
  getIngressMirror : option string;
  getEgressMirror : option string;
  getPortQueues : list Z;
  (* Port::isPortUp(): the port is neither down nor disabled *)
  isPortUp : bool
}.

End Cfg.

(** ** SaiPortManager *)

Module SaiPort.

Import Cfg.
Local Open Scope Z_scope.
Local Open Scope cpp_scope.

Definition PortSaiId := Z.

Inductive sai_port_fec_mode := SAI_PORT_FEC_MODE_NONE | SAI_PORT_FEC_MODE_RS.
Inductive sai_port_flow_control_mode :=
| SAI_PORT_FLOW_CONTROL_MODE_DISABLE
| SAI_PORT_FLOW_CONTROL_MODE_TX_ONLY
| SAI_PORT_FLOW_CONTROL_MODE_RX_ONLY
| SAI_PORT_FLOW_CONTROL_MODE_BOTH_ENABLE.
Inductive sai_port_internal_loopback_mode :=
| SAI_PORT_INTERNAL_LOOPBACK_MODE_NONE
| SAI_PORT_INTERNAL_LOOPBACK_MODE_PHY
| SAI_PORT_INTERNAL_LOOPBACK_MODE_MAC.
Inductive sai_port_media_type :=
| SAI_PORT_MEDIA_TYPE_UNKNOWN
| SAI_PORT_MEDIA_TYPE_FIBER
| SAI_PORT_MEDIA_TYPE_COPPER.

(** [SaiPortTraits::CreateAttributes] *)
Record CreateAttributes := mkCreateAttributes {
  HwLaneList : list Z;
  Speed : Z;
  AdminState : bool;
  FecMode : sai_port_fec_mode;
  InternalLoopbackMode : sai_port_internal_loopback_mode;
  MediaType : sai_port_media_type;
  GlobalFlowControlMode : sai_port_flow_control_mode;
  PortVlanId : Z
}.

(** Exceptions thrown by the manager, and the class of each in the error
    taxonomy. *)
Inductive FbossError : Type :=
| AddExistingPort (id : PortID) (saiId : PortSaiId)
| RemoveNonExistentPort (id : PortID)
| ChangeNonExistentPort.

Inductive ErrorKind : Type :=
| DuplicateResource | MissingResource | UnsupportedConfiguration | BackendRejected.

Definition error_kind (e : FbossError) : ErrorKind :=
  match e with
  | AddExistingPort _ _ => DuplicateResource
  | RemoveNonExistentPort _ => MissingResource
  | ChangeNonExistentPort => MissingResource
  end.

Section Manager.

(** Collaborators that live outside this file: the SAI object store, the
    bridge and queue managers, and the platform port. *)
Variables BridgePort Queues Backend : Type.
Variable getHwPortLanes : PortID -> PortSpeed -> list Z.
Variable getTransmitterTech : PortID -> TransmitterTechnology.
(* portStore.setObject: the adapter key of the created or updated object *)
Variable setObject : list Z -> CreateAttributes -> Backend -> PortSaiId * Backend.
Variable addBridgePort : PortSaiId -> Backend -> BridgePort * Backend.
Variable createQueues : PortSaiId -> list Z -> Backend -> Queues * Backend.

Record SaiPortObject := mkSaiPortObject {
  adapterKey : PortSaiId;
  adapterHostKey : list Z;
  attributes : CreateAttributes
}.

Record SaiPortHandle := mkSaiPortHandle {
  port : SaiPortObject;
  bridgePort : BridgePort;
  queues : Queues
}.

(** Mutations of the two indices, in the order they happen. *)
Inductive RegistryOp : Type :=
| HandlesEmplace (id : PortID)
| HandlesErase (id : PortID)
| PortIdsEmplace (saiId : PortSaiId) (id : PortID)
| PortIdsErase (saiId : PortSaiId).

(** [handles_] maps a port id to a [unique_ptr], which may be null;
    [portIds] is [concurrentIndices_->portIds]. *)
Record Manager := mkManager {
  handles_ : gmap Z (option SaiPortHandle);
  portIds : gmap Z PortID;
  backend : Backend;
  ops : list RegistryOp
}.

Definition set_handles (f : gmap Z (option SaiPortHandle) -> gmap Z (option SaiPortHandle))
    (op : RegistryOp) (m : Manager) : Manager :=
  mkManager (f (handles_ m)) (portIds m) (backend m) (ops m ++ [op]).

Definition set_portIds (f : gmap Z PortID -> gmap Z PortID)
    (op : RegistryOp) (m : Manager) : Manager :=
  mkManager (handles_ m) (f (portIds m)) (backend m) (ops m ++ [op]).

Definition on_backend {A} (f : Backend -> A * Backend) : M Manager FbossError A :=
  fun m =>
    let '(a, b) := f (backend m) in
    (Returns a, mkManager (handles_ m) (portIds m) b (ops m)).

(** [std::map::emplace] keeps an existing entry. *)
Definition emplace {V} (k : Z) (v : V) (m : gmap Z V) : gmap Z V :=
  match m !! k with
  | Some _ => m
  | None => <[k := v]> m
  end.

(** [SaiPortManager::attributesFromSwPort] *)
Definition attributesFromSwPort (swPort : Port) : CreateAttributes :=
  let adminState :=
    match getAdminState swPort with
    | DISABLED => false
    | ENABLED => true
    end in
  let speed :=
    if decide (getSpeed swPort = TWENTYFIVEG) then getSpeed swPort
    else if decide (getSpeed swPort = HUNDREDG) then getSpeed swPort
    else 0 in
  let hwLaneList := getHwPortLanes (getID swPort) (getSpeed swPort) in
  let fecMode :=
    match getFEC swPort with
    | FEC_ON => SAI_PORT_FEC_MODE_RS
    | FEC_OFF => SAI_PORT_FEC_MODE_NONE
    end in
  let pause := getPause swPort in
  let globalFlowControlMode :=
    if tx pause && rx pause then SAI_PORT_FLOW_CONTROL_MODE_BOTH_ENABLE
    else if tx pause then SAI_PORT_FLOW_CONTROL_MODE_TX_ONLY
    else if rx pause then SAI_PORT_FLOW_CONTROL_MODE_RX_ONLY
    else SAI_PORT_FLOW_CONTROL_MODE_DISABLE in
  let internalLoopbackMode :=
    match getLoopbackMode swPort with
    | LB_NONE => SAI_PORT_INTERNAL_LOOPBACK_MODE_NONE
    | LB_PHY => SAI_PORT_INTERNAL_LOOPBACK_MODE_PHY
    | LB_MAC => SAI_PORT_INTERNAL_LOOPBACK_MODE_MAC
    end in
  let mediaType :=
    match getTransmitterTech (getID swPort) with
    | COPPER => SAI_PORT_MEDIA_TYPE_COPPER
    | OPTICAL => SAI_PORT_MEDIA_TYPE_FIBER
    | UNKNOWN => SAI_PORT_MEDIA_TYPE_UNKNOWN
    end in
  mkCreateAttributes hwLaneList speed adminState fecMode internalLoopbackMode
    mediaType globalFlowControlMode (getIngressVlan swPort).

(** [SaiPortManager::getPortHandleImpl]: [None] is the null pointer. *)
Definition getPortHandle (swId : PortID) : M Manager FbossError (option SaiPortHandle) :=
  do m <- getM;
  match handles_ m !! swId with
  | None => retM None
  | Some None => fatalM "Invalid null SaiPortHandle"
  | Some (Some h) => retM (Some h)
  end.

(** [SaiPortManager::addPort] *)
Definition addPort (swPort : Port) : M Manager FbossError PortSaiId :=
  do portHandle <- getPortHandle (getID swPort);
  match portHandle with
  | Some h => throwM (AddExistingPort (getID swPort) (adapterKey (port h)))
  | None =>
      let attributes := attributesFromSwPort swPort in
      let portKey := HwLaneList attributes in
      do saiId <- on_backend (setObject portKey attributes);
      let saiPort := mkSaiPortObject saiId portKey attributes in
      do bp <- on_backend (addBridgePort (adapterKey saiPort));
      do qs <- on_backend (createQueues (adapterKey saiPort) (getPortQueues swPort));
      let handle := mkSaiPortHandle saiPort bp qs in
      run modifyM (set_handles (emplace (getID swPort) (Some handle))
                     (HandlesEmplace (getID swPort)));
      run modifyM (set_portIds (emplace (adapterKey saiPort) (getID swPort))
                     (PortIdsEmplace (adapterKey saiPort) (getID swPort)));
      retM (adapterKey saiPort)
  end.

(** The two mutations of [removePort], in source order. *)
Definition eraseReverseIndex (h : SaiPortHandle) : M Manager FbossError unit :=
  modifyM (set_portIds (delete (adapterKey (port h))) (PortIdsErase (adapterKey (port h)))).

Definition eraseHandle (swId : PortID) : M Manager FbossError unit :=
  modifyM (set_handles (delete swId) (HandlesErase swId)).

(** [SaiPortManager::removePort] *)
Definition removePort (swId : PortID) : M Manager FbossError unit :=
  do m <- getM;
  match handles_ m !! swId with
  | None => throwM (RemoveNonExistentPort swId)
  | Some None => fatalM "null SaiPortHandle dereferenced"
  | Some (Some h) =>
      run eraseReverseIndex h;
      eraseHandle swId
  end.

(** [SaiPortManager::changePort]; the port object is updated in the
    store, the handle keeps pointing at it and gets the new queues. *)
Definition changePort (swPort : Port) : M Manager FbossError unit :=
  do existingPort <- getPortHandle (getID swPort);
  match existingPort with
  | None => throwM ChangeNonExistentPort
  | Some h =>
      let attributes := attributesFromSwPort swPort in
      let portKey := HwLaneList attributes in
      do _ <- on_backend (setObject portKey attributes);
      do qs <- on_backend (createQueues (adapterKey (port h)) (getPortQueues swPort));
      modifyM (fun m =>
        mkManager (<[getID swPort := Some (mkSaiPortHandle (port h) (bridgePort h) qs)]> (handles_ m))
                  (portIds m) (backend m) (ops m))
  end.

(** The reverse index only names adapter keys of ports that some live
    handle still owns. *)
Definition index_live (m : Manager) : Prop :=
  forall (key : PortSaiId) (id : PortID),
    portIds m !! key = Some id ->
    exists (id' : PortID) (h : SaiPortHandle),
      handles_ m !! id' = Some (Some h) /\ adapterKey (port h) = key.

Lemma addPort_existing (swPort : Port) (m : Manager) (h : SaiPortHandle) :
  handles_ m !! getID swPort = Some (Some h) ->
  addPort swPort m = (Throws (AddExistingPort (getID swPort) (adapterKey (port h))), m).
Proof.
  intros Hh. unfold addPort, getPortHandle, bindM, getM.
  rewrite Hh. reflexivity.
Qed.

Lemma removePort_missing (swId : PortID) (m : Manager) :
  handles_ m !! swId = None ->
  removePort swId m = (Throws (RemoveNonExistentPort swId), m).
Proof.
  intros Hh. unfold removePort, bindM, getM. rewrite Hh. reflexivity.
Qed.

Lemma removePort_steps (swId : PortID) (m : Manager) (h : SaiPortHandle) :
  handles_ m !! swId = Some (Some h) ->
  removePort swId m = eraseHandle swId (snd (eraseReverseIndex h m)).
Proof.
  intros Hh. unfold removePort, bindM, getM. rewrite Hh. reflexivity.
Qed.

Lemma eraseReverseIndex_keeps_live (h : SaiPortHandle) (m : Manager) :
  index_live m -> index_live (snd (eraseReverseIndex h m)).
Proof.
  intros Hlive key id. cbn.
  intros Hk. apply lookup_delete_Some in Hk as [_ Hk].
  exact (Hlive key id Hk).
Qed.

Lemma eraseHandle_after_index_keeps_live (swId : PortID) (h : SaiPortHandle) (m : Manager) :
  handles_ m !! swId = Some (Some h) ->
  index_live m ->
  index_live (snd (eraseHandle swId (snd (eraseReverseIndex h m)))).
Proof.
  intros Hh Hlive key id. cbn.
  intros Hk. apply lookup_delete_Some in Hk as [Hne Hk].
  destruct (Hlive key id Hk) as (id' & h' & Hh' & Hkey).
  exists id', h'. split; [|exact Hkey].
  rewrite lookup_delete_ne; [exact Hh'|].
  intros <-. rewrite Hh in Hh'. injection Hh' as <-. congruence.
Qed.

(** C7. [addPort] on an id that already has a handle throws the
    duplicate-port error (class [DuplicateResource]) before anything is
    created or changed: handles, reverse index, backend and the operation
    log are all left as they were, so the existing handle is still the one
    registered. *)
Theorem addPort_existing_handle_is_duplicate :
  forall (swPort : Port) (m : Manager) (h : SaiPortHandle),
    handles_ m !! getID swPort = Some (Some h) ->
    exists e : FbossError,
      addPort swPort m = (Throws e, m) /\
      e = AddExistingPort (getID swPort) (adapterKey (port h)) /\
      error_kind e = DuplicateResource /\
      handles_ (snd (addPort swPort m)) !! getID swPort = Some (Some h) /\
      portIds (snd (addPort swPort m)) = portIds m /\
      backend (snd (addPort swPort m)) = backend m /\
      ops (snd (addPort swPort m)) = ops m.
Proof.
  intros swPort m h Hh.
  exists (AddExistingPort (getID swPort) (adapterKey (port h))).
  rewrite (addPort_existing swPort m h Hh). cbn.
  repeat split; auto.
Qed.

(** C6. [removePort] throws the non-existent-port error (class
    [MissingResource]) and changes nothing when the id has no handle.
    When a handle exists it first erases the reverse-index entry of the
    handle's adapter key and only then erases the handle: between the two
    steps the handle is still registered while the index no longer names
    its key, afterwards both are gone, and the index never names a
    released port (liveness of the index is kept at the intermediate and
    the final state). *)
Theorem removePort_index_erased_before_handle :
  forall (swId : PortID) (m : Manager),
    match handles_ m !! swId with
    | None =>
        removePort swId m = (Throws (RemoveNonExistentPort swId), m) /\
        error_kind (RemoveNonExistentPort swId) = MissingResource
    | Some None => fst (removePort swId m) = Fatal "null SaiPortHandle dereferenced"
    | Some (Some h) =>
        let key := adapterKey (port h) in
        let mid := snd (eraseReverseIndex h m) in
        let final := snd (removePort swId m) in
        removePort swId m = eraseHandle swId mid /\
        fst (removePort swId m) = Returns tt /\
        ops final = ops m ++ [PortIdsErase key; HandlesErase swId] /\
        (handles_ mid !! swId = Some (Some h) /\ portIds mid !! key = None) /\
        (handles_ final !! swId = None /\ portIds final !! key = None) /\
        (index_live m -> index_live mid /\ index_live final)
    end.
Proof.
  intros swId m.
  destruct (handles_ m !! swId) as [[h|]|] eqn:Hh.
  - cbv zeta. rewrite (removePort_steps swId m h Hh).
    split; [reflexivity|]. split; [reflexivity|].
    split; [cbn; by rewrite <- app_assoc|].
    split; [cbn; split; [exact Hh | apply lookup_delete_eq]|].
    split; [cbn; split; apply lookup_delete_eq|].
    intros Hlive. split.
    + by apply eraseReverseIndex_keeps_live.
    + by apply eraseHandle_after_index_keeps_live.
  - unfold removePort, bindM, getM. rewrite Hh. reflexivity.
  - split; [by apply removePort_missing | reflexivity].
Qed.

(** *** Adding, changing and removing: the registry as a whole *)

Lemma getPortHandle_unfold (swId : PortID) (m : Manager) :
  getPortHandle swId m =
  match handles_ m !! swId with
  | None => (Returns None, m)
  | Some None => (Fatal "Invalid null SaiPortHandle", m)
  | Some (Some h) => (Returns (Some h), m)
  end.
Proof.
  unfold getPortHandle, bindM, getM.
  destruct (handles_ m !! swId) as [[h|]|]; reflexivity.
Qed.

(** The handle [addPort] builds for a port, and the backend after the
    three objects have been created. *)
Definition newHandle (swPort : Port) (b : Backend) : SaiPortHandle * Backend :=
  let attributes := attributesFromSwPort swPort in
  let portKey := HwLaneList attributes in
  let created := setObject portKey attributes b in
  let bridged := addBridgePort (fst created) (snd created) in
  let queued := createQueues (fst created) (getPortQueues swPort) (snd bridged) in
  (mkSaiPortHandle (mkSaiPortObject (fst created) portKey attributes)
     (fst bridged) (fst queued),
   snd queued).

Lemma emplace_fresh {V} (k : Z) (v : V) (m : gmap Z V) :
  m !! k = None -> emplace k v m = <[k := v]> m.
Proof. intros Hk. unfold emplace. by rewrite Hk. Qed.

Lemma addPort_fresh (swPort : Port) (m : Manager) :
  handles_ m !! getID swPort = None ->
  let h := fst (newHandle swPort (backend m)) in
  let saiId := adapterKey (port h) in
  addPort swPort m =
  (Returns saiId,
   mkManager (<[getID swPort := Some h]> (handles_ m))
     (emplace saiId (getID swPort) (portIds m))
     (snd (newHandle swPort (backend m)))
     (ops m ++ [HandlesEmplace (getID swPort); PortIdsEmplace saiId (getID swPort)])).
Proof.
  intros Hfresh. cbv zeta.
  unfold addPort, bindM. rewrite getPortHandle_unfold, Hfresh.
  unfold newHandle, on_backend, modifyM, retM, set_handles, set_portIds.
  destruct (setObject _ _ (backend m)) as [saiId b1].
  cbn [fst snd adapterKey port handles_ portIds backend ops].
  destruct (addBridgePort saiId b1) as [bp b2].
  cbn [fst snd adapterKey port handles_ portIds backend ops].
  destruct (createQueues saiId (getPortQueues swPort) b2) as [qs b3].
  cbn [fst snd adapterKey port handles_ portIds backend ops].
  rewrite (emplace_fresh (getID swPort)) by exact Hfresh. by rewrite <- app_assoc.
Qed.

Lemma emplace_lookup {V} (k : Z) (v : V) (m : gmap Z V) (k' : Z) :
  emplace k v m !! k' =
  if decide (k' = k) then Some (default v (m !! k)) else m !! k'.
Proof.
  unfold emplace. destruct (m !! k) as [old|] eqn:Hk; case_decide; subst; cbn.
  - exact Hk.
  - reflexivity.
  - apply lookup_insert_eq.
  - by apply lookup_insert_ne.
Qed.

Lemma addPort_fresh_keeps_live (swPort : Port) (m : Manager) :
  handles_ m !! getID swPort = None ->
  index_live m -> index_live (snd (addPort swPort m)).
Proof.
  intros Hfresh Hlive. pose proof (addPort_fresh swPort m Hfresh) as Hrun.
  cbv zeta in Hrun. rewrite Hrun. cbn [snd].
  set (h := fst (newHandle swPort (backend m))) in *.
  intros key id. cbn [portIds handles_]. rewrite emplace_lookup.
  case_decide as Hkey.
  - subst key. intros _. exists (getID swPort), h.
    split; [apply lookup_insert_eq | reflexivity].
  - intros Hk. destruct (Hlive key id Hk) as (id' & h' & Hh' & Hkey').
    exists id', h'. split; [|exact Hkey'].
    rewrite lookup_insert_ne; [exact Hh'|]. intros <-. congruence.
Qed.

(** X5. [addPort] on an id without a handle creates the port object, its
    bridge port and its queues, in that order, registers the handle under
    the port id, enters the adapter key in the reverse index and returns
    the adapter key.  Afterwards [getPortHandle] finds the new handle, the
    other handles are as they were, and the reverse index maps the adapter
    key to the port id unless the key was already indexed: an entry that
    exists is kept ([emplace] does not overwrite).  The index keeps naming
    only adapter keys of registered handles. *)
Theorem addPort_registers_handle_and_index :
  forall (swPort : Port) (m : Manager),
    handles_ m !! getID swPort = None ->
    let h := fst (newHandle swPort (backend m)) in
    let saiId := adapterKey (port h) in
    let m' := snd (addPort swPort m) in
    fst (addPort swPort m) = Returns saiId /\
    getPortHandle (getID swPort) m' = (Returns (Some h), m') /\
    (forall id, id <> getID swPort -> handles_ m' !! id = handles_ m !! id) /\
    portIds m' !! saiId = Some (default (getID swPort) (portIds m !! saiId)) /\
    (forall key, key <> saiId -> portIds m' !! key = portIds m !! key) /\
    backend m' = snd (newHandle swPort (backend m)) /\
    ops m' = ops m ++ [HandlesEmplace (getID swPort); PortIdsEmplace saiId (getID swPort)] /\
    (index_live m -> index_live m').
Proof.
  intros swPort m Hfresh. cbv zeta.
  pose proof (addPort_fresh_keeps_live swPort m Hfresh) as Hlive.
  pose proof (addPort_fresh swPort m Hfresh) as Hrun. cbv zeta in Hrun.
  rewrite Hrun in Hlive |- *. cbn [fst snd handles_ portIds backend ops].
  split; [|split; [|split; [|split; [|split; [|split; [|split]]]]]].
  - reflexivity.
  - rewrite getPortHandle_unfold. cbn [handles_]. by rewrite lookup_insert_eq.
  - intros id Hid. by rewrite lookup_insert_ne.
  - rewrite emplace_lookup. by rewrite decide_True.
  - intros key Hkey. rewrite emplace_lookup. by rewrite decide_False.
  - reflexivity.
  - reflexivity.
  - exact Hlive.
Qed.

(** X6. Adding a port and removing it again restores the registry: when
    the id has no handle and the adapter key the store hands out is not
    indexed yet, [removePort] after [addPort] returns and both the handle
    map and the reverse index are what they were before the [addPort]. *)
Theorem addPort_then_removePort_restores_registry :
  forall (swPort : Port) (m : Manager),
    handles_ m !! getID swPort = None ->
    portIds m !! adapterKey (port (fst (newHandle swPort (backend m)))) = None ->
    let m1 := snd (addPort swPort m) in
    let m2 := snd (removePort (getID swPort) m1) in
    fst (removePort (getID swPort) m1) = Returns tt /\
    handles_ m2 = handles_ m /\
    portIds m2 = portIds m /\
    getPortHandle (getID swPort) m2 = (Returns None, m2).
Proof.
  intros swPort m Hfresh Hkey. cbv zeta.
  pose proof (addPort_fresh swPort m Hfresh) as Hrun. cbv zeta in Hrun.
  rewrite Hrun. cbn [snd].
  set (h := fst (newHandle swPort (backend m))) in *.
  set (m1 := mkManager _ _ _ _).
  assert (Hh : handles_ m1 !! getID swPort = Some (Some h)) by apply lookup_insert_eq.
  rewrite (removePort_steps _ m1 h Hh).
  unfold eraseHandle, eraseReverseIndex, modifyM, set_handles, set_portIds.
  subst m1. cbn [fst snd handles_ portIds backend ops].
  assert (Hhandles : delete (getID swPort) (<[getID swPort := Some h]> (handles_ m))
                     = handles_ m) by (by apply delete_insert_id).
  assert (Hindex : delete (adapterKey (port h))
                     (emplace (adapterKey (port h)) (getID swPort) (portIds m))
                   = portIds m).
  { rewrite emplace_fresh by exact Hkey. by apply delete_insert_id. }
  split; [reflexivity|]. split; [exact Hhandles|]. split; [exact Hindex|].
  rewrite getPortHandle_unfold. cbn [handles_]. by rewrite Hhandles, Hfresh.
Qed.

Lemma changePort_missing (swPort : Port) (m : Manager) :
  handles_ m !! getID swPort = None ->
  changePort swPort m = (Throws ChangeNonExistentPort, m).
Proof.
  intros Hh. unfold changePort, bindM. by rewrite getPortHandle_unfold, Hh.
Qed.

Lemma changePort_existing (swPort : Port) (m : Manager) (h : SaiPortHandle) :
  handles_ m !! getID swPort = Some (Some h) ->
  let attributes := attributesFromSwPort swPort in
  let stored := setObject (HwLaneList attributes) attributes (backend m) in
  let queued := createQueues (adapterKey (port h)) (getPortQueues swPort) (snd stored) in
  changePort swPort m =
  (Returns tt,
   mkManager
     (<[getID swPort := Some (mkSaiPortHandle (port h) (bridgePort h) (fst queued))]>
        (handles_ m))
     (portIds m) (snd queued) (ops m)).
Proof.
  intros Hh. cbv zeta. unfold changePort, bindM.
  rewrite getPortHandle_unfold, Hh. unfold on_backend, modifyM.
  destruct (setObject _ _ (backend m)) as [saiId b1].
  cbn [fst snd handles_ portIds backend ops].
  destruct (createQueues _ _ b1) as [qs b2]. reflexivity.
Qed.

(** X7. [changePort] throws the non-existent-port error and changes
    nothing when the id has no handle.  For a registered port it returns
    after updating the port object in the store and creating the queues
    anew; the handle stays registered under the same id with the adapter
    key and the bridge port it had and with the new queues, whatever key
    the store answers for the new attributes.  No other handle, no entry
    of the reverse index and no registry operation is touched, so the
    index keeps naming only adapter keys of registered handles. *)
Theorem changePort_keeps_key_and_index :
  forall (swPort : Port) (m : Manager),
    match handles_ m !! getID swPort with
    | None =>
        changePort swPort m = (Throws ChangeNonExistentPort, m) /\
        error_kind ChangeNonExistentPort = MissingResource
    | Some None =>
        changePort swPort m = (Fatal "Invalid null SaiPortHandle", m)
    | Some (Some h) =>
        let attributes := attributesFromSwPort swPort in
        let stored := setObject (HwLaneList attributes) attributes (backend m) in
        let queued := createQueues (adapterKey (port h)) (getPortQueues swPort) (snd stored) in
        let m' := snd (changePort swPort m) in
        fst (changePort swPort m) = Returns tt /\
        (exists h', handles_ m' !! getID swPort = Some (Some h') /\
                    adapterKey (port h') = adapterKey (port h) /\
                    bridgePort h' = bridgePort h /\
                    queues h' = fst queued) /\
        (forall id, id <> getID swPort -> handles_ m' !! id = handles_ m !! id) /\
        portIds m' = portIds m /\
        backend m' = snd queued /\
        ops m' = ops m /\
        (index_live m -> index_live m')
    end.
Proof.
  intros swPort m. destruct (handles_ m !! getID swPort) as [[h|]|] eqn:Hh.
  - pose proof (changePort_existing swPort m h Hh) as Hrun. cbv zeta in Hrun |- *.
    rewrite Hrun. cbn [fst snd handles_ portIds backend ops].
    split; [reflexivity|]. split; [|split; [|split; [|split; [|split]]]]; try reflexivity.
    + eexists. split; [apply lookup_insert_eq|]. by repeat split.
    + intros id Hid. by rewrite lookup_insert_ne.
    + intros Hlive key id Hk. cbn [portIds handles_] in Hk |- *.
      destruct (Hlive key id Hk) as (id' & h0 & Hh0 & Hkey).
      destruct (decide (id' = getID swPort)) as [->|Hne].
      * rewrite Hh in Hh0. injection Hh0 as <-.
        eexists _, _. split; [apply lookup_insert_eq | exact Hkey].
      * exists id', h0. split; [|exact Hkey]. by rewrite lookup_insert_ne.
  - unfold changePort, bindM. by rewrite getPortHandle_unfold, Hh.
  - split; [by apply changePort_missing | reflexivity].
Qed.

(** X8. What [attributesFromSwPort] makes of the configuration.  The lane
    list is the platform's for the configured speed, but the speed
    attribute carries the configured speed only for 25G and 100G: every
    other speed is created with speed 0.  The pause setting is carried
    without loss: two ports get the same flow-control mode only if their
    pause settings agree, and the mode says exactly which directions are
    on.  Admin state, FEC, loopback mode and ingress VLAN are passed
    through, and the media type is the platform's transmitter
    technology. *)
Theorem attributesFromSwPort_speed_and_pause :
  forall (swPort swPort' : Port),
    let a := attributesFromSwPort swPort in
    let a' := attributesFromSwPort swPort' in
    HwLaneList a = getHwPortLanes (getID swPort) (Cfg.getSpeed swPort) /\
    Speed a = (if decide (Cfg.getSpeed swPort = TWENTYFIVEG \/ Cfg.getSpeed swPort = HUNDREDG)
               then Cfg.getSpeed swPort else 0) /\
    (Speed a = 25000 \/ Speed a = 100000 \/ Speed a = 0) /\
    (GlobalFlowControlMode a = GlobalFlowControlMode a' -> getPause swPort = getPause swPort') /\
    (GlobalFlowControlMode a = SAI_PORT_FLOW_CONTROL_MODE_DISABLE
     <-> tx (getPause swPort) = false /\ rx (getPause swPort) = false) /\
    (GlobalFlowControlMode a = SAI_PORT_FLOW_CONTROL_MODE_BOTH_ENABLE
     <-> tx (getPause swPort) = true /\ rx (getPause swPort) = true) /\
    (AdminState a = true <-> getAdminState swPort = ENABLED) /\
    (FecMode a = SAI_PORT_FEC_MODE_RS <-> getFEC swPort = FEC_ON) /\
    PortVlanId a = getIngressVlan swPort /\
    (MediaType a = SAI_PORT_MEDIA_TYPE_UNKNOWN
     <-> getTransmitterTech (getID swPort) = UNKNOWN).
Proof.
  intros swPort swPort'. cbv zeta. unfold attributesFromSwPort.
  cbn [HwLaneList Speed AdminState FecMode PortVlanId MediaType GlobalFlowControlMode].
  split; [reflexivity|]. split; [|split; [|split; [|split; [|split; [|split; [|split; [|split]]]]]]].
  - unfold TWENTYFIVEG, HUNDREDG. repeat case_decide; try reflexivity; tauto.
  - unfold TWENTYFIVEG, HUNDREDG. repeat case_decide; auto.
  - destruct (getPause swPort) as [[] []], (getPause swPort') as [[] []]; cbn;
      intros H; try discriminate H; reflexivity.
  - destruct (getPause swPort) as [[] []]; cbn; split; intros H;
      try discriminate H; try reflexivity; auto; destruct H; discriminate.
  - destruct (getPause swPort) as [[] []]; cbn; split; intros H;
      try discriminate H; try reflexivity; auto; destruct H; discriminate.
  - destruct (getAdminState swPort); split; intros H; try discriminate H; reflexivity.
  - destruct (getFEC swPort); split; intros H; try discriminate H; reflexivity.
  - reflexivity.
  - destruct (getTransmitterTech (getID swPort)); split; intros H;
      try discriminate H; reflexivity.
Qed.

End Manager.

(** A concrete registry for the examples: unit sub-resources, a backend
    that hands out consecutive adapter keys. *)
Definition nextKey (lanes : list Z) (a : CreateAttributes) (b : Z) : PortSaiId * Z := (b, b + 1).
Definition unitBridge (saiId : PortSaiId) (b : Z) : unit * Z := (tt, b).
Definition unitQueues (saiId : PortSaiId) (qs : list Z) (b : Z) : unit * Z := (tt, b).
Definition lanesOf (id : PortID) (speed : PortSpeed) : list Z := [id].
Definition techUnknown (id : PortID) : TransmitterTechnology := UNKNOWN.

Definition emptyManager : Manager unit unit Z := mkManager unit unit Z ∅ ∅ 100 [].

Definition swPort7 : Port :=
  mkPort 7 "eth1/7/1" ENABLED HUNDREDG FEC_OFF (mkPortPause false false) LB_NONE
         2000 [(2000, false)] None None [] false.

Definition addPort' := addPort unit unit Z lanesOf techUnknown nextKey unitBridge unitQueues.

Definition managerWith7 : Manager unit unit Z := snd (addPort' swPort7 emptyManager).

Definition handle7 : SaiPortHandle unit unit :=
  mkSaiPortHandle unit unit
    (mkSaiPortObject 100 [7]
       (mkCreateAttributes [7] 100000 true SAI_PORT_FEC_MODE_NONE
          SAI_PORT_INTERNAL_LOOPBACK_MODE_NONE SAI_PORT_MEDIA_TYPE_UNKNOWN
          SAI_PORT_FLOW_CONTROL_MODE_DISABLE 2000)) tt tt.

Example addPort_registers :
  fst (addPort' swPort7 emptyManager) = Returns 100 /\
  handles_ _ _ _ managerWith7 !! 7 = Some (Some handle7) /\
  portIds _ _ _ managerWith7 !! 100 = Some 7 /\
  ops _ _ _ managerWith7 = [HandlesEmplace 7; PortIdsEmplace 100 7].
Proof. repeat split; reflexivity. Qed.

Lemma managerWith7_shape :
  managerWith7
  = mkManager unit unit Z (<[7 := Some handle7]> ∅) (<[100 := 7]> ∅) 101
      [HandlesEmplace 7; PortIdsEmplace 100 7].
Proof. reflexivity. Qed.

Lemma managerWith7_live : index_live unit unit Z managerWith7.
Proof.
  rewrite managerWith7_shape. intros key id Hk. cbn in Hk.
  apply lookup_insert_Some in Hk as [[<- <-]|[_ Hk]]; [|by rewrite lookup_empty in Hk].
  exists 7, handle7. split; [apply lookup_insert_eq | reflexivity].
Qed.

(** With the opposite order the index would, for a moment, name the
    adapter key of a port whose handle is already gone. *)
Example handle_first_breaks_liveness :
  ~ index_live unit unit Z (snd (eraseHandle unit unit Z 7 managerWith7)).
Proof.
  rewrite managerWith7_shape. intros Hlive.
  destruct (Hlive 100 7) as (id' & h & Hh & _); [apply lookup_insert_eq|].
  cbn in Hh. apply lookup_delete_Some in Hh as [Hne Hh].
  apply lookup_insert_Some in Hh as [[<- _]|[_ Hh]]; [done|by rewrite lookup_empty in Hh].
Qed.

Lemma emptyManager_live : index_live unit unit Z emptyManager.
Proof. intros key id Hk. cbn in Hk. by rewrite lookup_empty in Hk. Qed.

Lemma addPort_registers_handle_and_index_witness :
  fst (addPort' swPort7 emptyManager) = Returns 100 /\
  getPortHandle unit unit Z 7 managerWith7 = (Returns (Some handle7), managerWith7) /\
  portIds _ _ _ managerWith7 !! 100 = Some 7 /\
  ops _ _ _ managerWith7 = [HandlesEmplace 7; PortIdsEmplace 100 7] /\
  index_live unit unit Z managerWith7.
Proof.
  destruct (addPort_registers_handle_and_index unit unit Z lanesOf techUnknown
              nextKey unitBridge unitQueues swPort7 emptyManager eq_refl)
    as (Hret & Hget & _ & Hindex & _ & _ & Hops & Hlive).
  split; [exact Hret|]. split; [exact Hget|]. split; [exact Hindex|].
  split; [exact Hops|]. exact (Hlive emptyManager_live).
Defined.

Lemma addPort_then_removePort_restores_registry_witness :
  fst (removePort unit unit Z 7 managerWith7) = Returns tt /\
  handles_ _ _ _ (snd (removePort unit unit Z 7 managerWith7)) = handles_ _ _ _ emptyManager /\
  portIds _ _ _ (snd (removePort unit unit Z 7 managerWith7)) = portIds _ _ _ emptyManager.
Proof.
  destruct (addPort_then_removePort_restores_registry unit unit Z lanesOf techUnknown
              nextKey unitBridge unitQueues swPort7 emptyManager eq_refl eq_refl)
    as (Hret & Hhandles & Hindex & _).
  split; [exact Hret|]. split; [exact Hhandles | exact Hindex].
Defined.

Lemma addPort_existing_handle_is_duplicate_witness :
  exists e : FbossError,
    addPort' swPort7 managerWith7 = (Throws e, managerWith7) /\
    e = AddExistingPort 7 100 /\
    error_kind e = DuplicateResource /\
    handles_ _ _ _ (snd (addPort' swPort7 managerWith7)) !! 7 = Some (Some handle7) /\
    portIds _ _ _ (snd (addPort' swPort7 managerWith7)) = portIds _ _ _ managerWith7 /\
    backend _ _ _ (snd (addPort' swPort7 managerWith7)) = backend _ _ _ managerWith7 /\
    ops _ _ _ (snd (addPort' swPort7 managerWith7)) = ops _ _ _ managerWith7.
Proof.
  apply (addPort_existing_handle_is_duplicate unit unit Z lanesOf techUnknown
           nextKey unitBridge unitQueues swPort7 managerWith7 handle7).
  reflexivity.
Defined.

Lemma removePort_index_erased_before_handle_witness :
  let final := snd (removePort unit unit Z 7 managerWith7) in
  ops _ _ _ final
  = [HandlesEmplace 7; PortIdsEmplace 100 7; PortIdsErase 100; HandlesErase 7] /\
  index_live unit unit Z final.
Proof.
  pose proof (removePort_index_erased_before_handle unit unit Z 7 managerWith7) as H.
  change (handles_ unit unit Z managerWith7 !! 7) with (Some (Some handle7)) in H.
  cbv zeta in H.
  destruct H as (_ & _ & Hops & _ & _ & Hlive).
  split.
  - exact Hops.
  - exact (proj2 (Hlive managerWith7_live)).
Defined.

End SaiPort.

(** ** BcmPort: programming the port *)

Module Bcm.

Import Cfg.
Local Open Scope Z_scope.
Local Open Scope cpp_scope.

Inductive opennsl_port_if_t : Type :=
| OPENNSL_PORT_IF_CR4
| OPENNSL_PORT_IF_CAUI
| OPENNSL_PORT_IF_CR2
| OPENNSL_PORT_IF_XLAUI
| OPENNSL_PORT_IF_CR
| OPENNSL_PORT_IF_SFI
| OPENNSL_PORT_IF_GMII
| OPENNSL_PORT_IF_other (code : Z).

#[export] Instance opennsl_port_if_eq_dec : EqDecision opennsl_port_if_t.
Proof. solve_decision. Defined.

(** This allows mapping from a speed and port transmission technology to a
    broadcom supported interface. *)
Definition kPortTypeMapping
  : list (PortSpeed * list (TransmitterTechnology * opennsl_port_if_t)) :=
  [ (HUNDREDG,
      [ (COPPER, OPENNSL_PORT_IF_CR4);
        (OPTICAL, OPENNSL_PORT_IF_CAUI);
        (UNKNOWN, OPENNSL_PORT_IF_CAUI) ]);
    (FIFTYG,
      [ (COPPER, OPENNSL_PORT_IF_CR2);
        (OPTICAL, OPENNSL_PORT_IF_CAUI);
        (UNKNOWN, OPENNSL_PORT_IF_CR2) ]);
    (FORTYG,
      [ (COPPER, OPENNSL_PORT_IF_CR4);
        (OPTICAL, OPENNSL_PORT_IF_XLAUI);
        (UNKNOWN, OPENNSL_PORT_IF_XLAUI) ]);
    (TWENTYFIVEG,
      [ (COPPER, OPENNSL_PORT_IF_CR);
        (OPTICAL, OPENNSL_PORT_IF_CAUI);
        (UNKNOWN, OPENNSL_PORT_IF_CR) ]);
    (TWENTYG,
      [ (COPPER, OPENNSL_PORT_IF_CR);
        (UNKNOWN, OPENNSL_PORT_IF_CR) ]);
    (XG,
      [ (COPPER, OPENNSL_PORT_IF_CR);
        (OPTICAL, OPENNSL_PORT_IF_SFI);
        (UNKNOWN, OPENNSL_PORT_IF_CR) ]);
    (GIGE,
      [ (COPPER, OPENNSL_PORT_IF_GMII);
        (UNKNOWN, OPENNSL_PORT_IF_GMII) ]) ].

(** [std::map::at]: [None] stands for [std::out_of_range]. *)
Fixpoint map_at {K V} `{EqDecision K} (k : K) (m : list (K * V)) : option V :=
  match m with
  | [] => None
  | (k', v) :: rest => if decide (k = k') then Some v else map_at k rest
  end.

(** [kPortTypeMapping.at(speed).at(transmitterTech)] *)
Definition portTypeLookup (speed : PortSpeed) (tech : TransmitterTechnology)
  : option opennsl_port_if_t :=
  match map_at speed kPortTypeMapping with
  | None => None
  | Some byTech => map_at tech byTech
  end.

Inductive MirrorAction : Type := START | STOP.
Inductive MirrorDirection : Type := INGRESS | EGRESS.

#[export] Instance MirrorAction_eq_dec : EqDecision MirrorAction.
Proof. solve_decision. Defined.
#[export] Instance MirrorDirection_eq_dec : EqDecision MirrorDirection.
Proof. solve_decision. Defined.

(** Member functions of [BcmPort] that are defined in other files. *)
Inductive BcmPortMember : Type :=
| setPortResource | setFEC | setPause | setTxSetting | setSflowRates
| setLoopbackMode | disableSflow.

#[export] Instance BcmPortMember_eq_dec : EqDecision BcmPortMember.
Proof. solve_decision. Defined.

(** Calls that leave the [BcmPort] object: the OpenNSL SDK, the mirror
    table, the platform port, and the members defined elsewhere. *)
Inductive SdkCall : Type :=
| opennsl_port_enable_get
| opennsl_port_enable_set (enable : bool)
| opennsl_vlan_port_add (vlan : VlanID) (untagged : bool)
| opennsl_vlan_port_remove (vlan : VlanID)
| opennsl_port_vlan_member_set
| opennsl_port_untagged_vlan_get
| opennsl_port_untagged_vlan_set (vlan : VlanID)
| opennsl_port_speed_get
| opennsl_port_speed_max
| opennsl_port_speed_set (speed : Z)
| opennsl_port_interface_get
| opennsl_port_interface_set (mode : opennsl_port_if_t)
| opennsl_port_stat_enable_set (enable : bool)
| applyPortMirrorAction (mirror : string) (action : MirrorAction) (direction : MirrorDirection)
| linkSpeedChanged (speed : PortSpeed)
| getTransmitterTech
| member (f : BcmPortMember).

#[export] Instance SdkCall_eq_dec : EqDecision SdkCall.
Proof. unfold PortSpeed, VlanID. solve_decision. Defined.

Inductive rv_t : Type := OPENNSL_E_NONE | OPENNSL_E_EXISTS | OPENNSL_E_FAIL (code : Z).

#[export] Instance rv_eq_dec : EqDecision rv_t.
Proof. solve_decision. Defined.

Inductive Exception : Type :=
| BcmError (rv : rv_t) (call : SdkCall)
| UnsupportedSpeedOrTech (speed : PortSpeed) (tech : TransmitterTechnology) (id : PortID).

(** The [BcmPort] object together with the SDK's state for its port and
    the log of calls issued so far. *)
Record BcmPort := mkBcmPort {
  hw_enabled : bool;
  hw_untagged_vlan : VlanID;
  hw_speed : Z;
  hw_speed_max : Z;
  hw_interface : opennsl_port_if_t;
  transmitterTechnology_ : TransmitterTechnology;
  ingressMirror_ : option string;
  egressMirror_ : option string;
  calls : list SdkCall
}.

Definition log_call (c : SdkCall) (p : BcmPort) : BcmPort :=
  mkBcmPort (hw_enabled p) (hw_untagged_vlan p) (hw_speed p) (hw_speed_max p)
    (hw_interface p) (transmitterTechnology_ p) (ingressMirror_ p) (egressMirror_ p)
    (calls p ++ [c]).

(** What a successful setter leaves in the SDK's state. *)
Definition sdk_effect (c : SdkCall) (p : BcmPort) : BcmPort :=
  match c with
  | opennsl_port_enable_set b =>
      mkBcmPort b (hw_untagged_vlan p) (hw_speed p) (hw_speed_max p)
        (hw_interface p) (transmitterTechnology_ p) (ingressMirror_ p) (egressMirror_ p)
        (calls p)
  | opennsl_port_untagged_vlan_set v =>
      mkBcmPort (hw_enabled p) v (hw_speed p) (hw_speed_max p)
        (hw_interface p) (transmitterTechnology_ p) (ingressMirror_ p) (egressMirror_ p)
        (calls p)
  | opennsl_port_speed_set sp =>
      mkBcmPort (hw_enabled p) (hw_untagged_vlan p) sp (hw_speed_max p)
        (hw_interface p) (transmitterTechnology_ p) (ingressMirror_ p) (egressMirror_ p)
        (calls p)
  | opennsl_port_interface_set m =>
      mkBcmPort (hw_enabled p) (hw_untagged_vlan p) (hw_speed p) (hw_speed_max p)
        m (transmitterTechnology_ p) (ingressMirror_ p) (egressMirror_ p)
        (calls p)
  | _ => p
  end.

Definition set_transmitterTechnology (t : TransmitterTechnology) (p : BcmPort) : BcmPort :=
  mkBcmPort (hw_enabled p) (hw_untagged_vlan p) (hw_speed p) (hw_speed_max p)
    (hw_interface p) t (ingressMirror_ p) (egressMirror_ p) (calls p).

Definition set_mirror (d : MirrorDirection) (name : option string) (p : BcmPort) : BcmPort :=
  match d with
  | INGRESS =>
      mkBcmPort (hw_enabled p) (hw_untagged_vlan p) (hw_speed p) (hw_speed_max p)
        (hw_interface p) (transmitterTechnology_ p) name (egressMirror_ p) (calls p)
  | EGRESS =>
      mkBcmPort (hw_enabled p) (hw_untagged_vlan p) (hw_speed p) (hw_speed_max p)
        (hw_interface p) (transmitterTechnology_ p) (ingressMirror_ p) name (calls p)
  end.

Definition mirror_of (d : MirrorDirection) (p : BcmPort) : option string :=
  match d with
  | INGRESS => ingressMirror_ p
  | EGRESS => egressMirror_ p
  end.

Abbreviation Op := (M BcmPort Exception).

Section Port.

(** The environment of the port: the return code of the call issued after
    [n] earlier ones, what the platform port reports as transmitter
    technology, which mirrors the mirror table holds, and whether the
    platform programs ports through the port-resource API. *)
Variable sdkRv : nat -> SdkCall -> rv_t.
Variable platformTech : nat -> TransmitterTechnology.
Variable mirrorTable : string -> bool.
Variable shouldUsePortResourceAPIs : bool.

(** Issue a call: it is logged, and a successful setter takes effect. *)
Definition sdk (c : SdkCall) : Op rv_t :=
  fun p =>
    let rv := sdkRv (length (calls p)) c in
    let p' := log_call c p in
    (Returns rv, if decide (rv = OPENNSL_E_NONE) then sdk_effect c p' else p').

Definition bcmCheckError (rv : rv_t) (c : SdkCall) : Op unit :=
  if decide (rv = OPENNSL_E_NONE) then retM tt else throwM (BcmError rv c).

Definition checked (c : SdkCall) : Op unit :=
  do rv <- sdk c; bcmCheckError rv c.

(** [BcmPort::isEnabled] *)
Definition isEnabled : Op bool :=
  run checked opennsl_port_enable_get;
  do p <- getM;
  retM (hw_enabled p).

(** [BcmPort::setIngressVlan] *)
Definition setIngressVlan (swPort : Port) : Op unit :=
  run checked opennsl_port_untagged_vlan_get;
  do p <- getM;
  let currVlan := hw_untagged_vlan p in
  let bcmVlan := getIngressVlan swPort in
  if negb (bcmVlan =? currVlan)
  then checked (opennsl_port_untagged_vlan_set bcmVlan)
  else retM tt.

(** [BcmPort::getTransmitterTechnology] *)
Definition getTransmitterTechnology (name : string) : Op TransmitterTechnology :=
  do p <- getM;
  if negb (bool_decide (transmitterTechnology_ p = UNKNOWN))
  then retM (transmitterTechnology_ p)
  else
    run (if String.prefix "fab" name
         then modifyM (set_transmitterTechnology COPPER)
         else
           do p0 <- getM;
           run modifyM (log_call getTransmitterTech);
           modifyM (set_transmitterTechnology (platformTech (length (calls p0)))));
    do p' <- getM;
    retM (transmitterTechnology_ p').

(** [BcmPort::getDesiredInterfaceMode] *)
Definition getDesiredInterfaceMode (speed : PortSpeed) (id : PortID) (name : string)
  : Op opennsl_port_if_t :=
  do transmitterTech <- getTransmitterTechnology name;
  match portTypeLookup speed transmitterTech with
  | Some result => retM result
  | None => throwM (UnsupportedSpeedOrTech speed transmitterTech id)
  end.

(** [BcmPort::getSpeed] *)
Definition getSpeed : Op PortSpeed :=
  run checked opennsl_port_speed_get;
  do p <- getM;
  retM (hw_speed p).

(** [BcmPort::getDesiredPortSpeed] *)
Definition getDesiredPortSpeed (swPort : Port) : Op PortSpeed :=
  if Cfg.getSpeed swPort =? DEFAULT
  then
    run checked opennsl_port_speed_max;
    do p <- getM;
    retM (hw_speed_max p)
  else retM (Cfg.getSpeed swPort).

(** [BcmPort::setInterfaceMode] *)
Definition setInterfaceMode (swPort : Port) : Op unit :=
  do desiredPortSpeed <- getDesiredPortSpeed swPort;
  do desiredMode <- getDesiredInterfaceMode desiredPortSpeed (getID swPort) (getName swPort);
  run checked opennsl_port_interface_get;
  do p <- getM;
  let curMode := hw_interface p in
  let portUp := isPortUp swPort in
  if negb (bool_decide (curMode = desiredMode)) || negb portUp
  then checked (opennsl_port_interface_set desiredMode)
  else retM tt.

(** [BcmPort::setSpeed] *)
Definition setSpeed (swPort : Port) : Op unit :=
  do desiredPortSpeed <- getDesiredPortSpeed swPort;
  let desiredSpeed := desiredPortSpeed in
  do curSpeed <- getSpeed;
  let portUp := isPortUp swPort in
  if negb portUp || negb (curSpeed =? desiredSpeed)
  then
    run setInterfaceMode swPort;
    run checked (opennsl_port_speed_set desiredSpeed);
    modifyM (log_call (linkSpeedChanged desiredPortSpeed))
  else retM tt.

(** [BcmPort::applyMirrorAction] *)
Definition applyMirrorAction (mirrorName : option string) (action : MirrorAction)
    (direction : MirrorDirection) : Op unit :=
  match mirrorName with
  | None => retM tt
  | Some name =>
      if mirrorTable name
      then modifyM (log_call (applyPortMirrorAction name action direction))
      else fatalM "CHECK(bcmMirror != nullptr)"
  end.

(** [BcmPort::updateMirror] *)
Definition updateMirror (swMirrorName : option string) (direction : MirrorDirection)
  : Op unit :=
  do p <- getM;
  run applyMirrorAction (mirror_of direction p) STOP direction;
  run modifyM (set_mirror direction swMirrorName);
  do p' <- getM;
  applyMirrorAction (mirror_of direction p') START direction.

(** [BcmPort::~BcmPort] *)
Definition destroy : Op unit :=
  do p <- getM;
  run applyMirrorAction (ingressMirror_ p) STOP INGRESS;
  do p' <- getM;
  applyMirrorAction (egressMirror_ p') STOP EGRESS.

(** [BcmPort::program] *)
Definition program (port : Port) : Op unit :=
  run setIngressVlan port;
  run (if shouldUsePortResourceAPIs
       then checked (member setPortResource)
       else
         run setSpeed port;
         checked (member setFEC));
  run updateMirror (getIngressMirror port) INGRESS;
  run updateMirror (getEgressMirror port) EGRESS;
  run checked (member setPause);
  run checked (member setTxSetting);
  run checked (member setSflowRates);
  checked (member setLoopbackMode).

(** [BcmPort::enable] *)
Definition enable (swPort : Port) : Op unit :=
  do enabled <- isEnabled;
  if enabled then retM tt
  else
    run forM (getVlans swPort)
          (fun entry => checked (opennsl_vlan_port_add (fst entry) (negb (snd entry))));
    run checked opennsl_port_vlan_member_set;
    run program swPort;
    do rv <- sdk (opennsl_port_stat_enable_set true);
    run (if negb (bool_decide (rv = OPENNSL_E_EXISTS))
         then bcmCheckError rv (opennsl_port_stat_enable_set true)
         else retM tt);
    checked (opennsl_port_enable_set true).

(** [BcmPort::disable] *)
Definition disable (swPort : Port) : Op unit :=
  do enabled <- isEnabled;
  if negb enabled then retM tt
  else
    run forM (getVlans swPort)
          (fun entry => checked (opennsl_vlan_port_remove (fst entry)));
    run checked (opennsl_port_stat_enable_set false);
    run checked (member disableSflow);
    checked (opennsl_port_enable_set false).

(** *** What an operation adds to the call log *)

(** [emits P m]: from any state, [m] only appends to the log, and what it
    appends satisfies [P] (whatever the outcome). *)
Definition emits {A} (P : list SdkCall -> Prop) (m : Op A) : Prop :=
  forall p, exists d, calls (snd (m p)) = calls p ++ d /\ P d.

(** [quiet f m]: [m] issues no call of the class [f]. *)
Definition quiet {A} (f : SdkCall -> bool) (m : Op A) : Prop :=
  emits (Forall (fun c => f c = false)) m.

Definition count (f : SdkCall -> bool) (d : list SdkCall) : nat :=
  length (filter (fun c => f c = true) d).

(** [at_most k f m]: [m] issues at most [k] calls of the class [f]. *)
Definition at_most {A} (k : nat) (f : SdkCall -> bool) (m : Op A) : Prop :=
  emits (fun d => (count f d <= k)%nat) m.

Lemma count_app f d1 d2 : count f (d1 ++ d2) = (count f d1 + count f d2)%nat.
Proof. unfold count. by rewrite filter_app, length_app. Qed.

Lemma count_quiet f d : Forall (fun c => f c = false) d -> count f d = 0%nat.
Proof.
  unfold count. induction 1 as [|c d Hc _ IH]; [reflexivity|].
  rewrite filter_cons. destruct (decide (f c = true)) as [Ht|_]; [congruence|exact IH].
Qed.

Lemma emits_apply {A} P (m : Op A) p o p' :
  emits P m -> m p = (o, p') -> exists d, calls p' = calls p ++ d /\ P d.
Proof. intros Hm Hrun. specialize (Hm p). rewrite Hrun in Hm. exact Hm. Qed.

Lemma emits_weaken {A} (P P' : list SdkCall -> Prop) (m : Op A) :
  (forall d, P d -> P' d) -> emits P m -> emits P' m.
Proof. intros HP Hm p. destruct (Hm p) as (d & Hd & HPd). eauto. Qed.

Lemma emits_bind {A B} (P1 P2 P : list SdkCall -> Prop) (m : Op A) (k : A -> Op B) :
  (forall d1, P1 d1 -> P d1) ->
  (forall d1 d2, P1 d1 -> P2 d2 -> P (d1 ++ d2)) ->
  emits P1 m -> (forall a, emits P2 (k a)) -> emits P (bindM m k).
Proof.
  intros Hstop Hseq Hm Hk p. unfold bindM.
  destruct (Hm p) as (d1 & Hd1 & HP1).
  destruct (m p) as [[a|e|msg] p1]; cbn in *; eauto.
  destruct (Hk a p1) as (d2 & Hd2 & HP2).
  exists (d1 ++ d2). rewrite Hd2, Hd1, app_assoc. eauto.
Qed.

Lemma emits_nil {A} (P : list SdkCall -> Prop) (m : Op A) :
  P [] -> (forall p, calls (snd (m p)) = calls p) -> emits P m.
Proof. intros HP Hm p. exists []. rewrite app_nil_r. eauto. Qed.

Lemma emits_one {A} (P : list SdkCall -> Prop) (m : Op A) (c : SdkCall) :
  P [c] -> (forall p, calls (snd (m p)) = calls p ++ [c]) -> emits P m.
Proof. intros HP Hm p. exists [c]. eauto. Qed.

Lemma sdk_effect_calls c p : calls (sdk_effect c p) = calls p.
Proof. destruct c; reflexivity. Qed.

Lemma sdk_calls c p : calls (snd (sdk c p)) = calls p ++ [c].
Proof. unfold sdk; cbn. case_decide; [apply sdk_effect_calls | reflexivity]. Qed.

Lemma checked_calls c p : calls (snd (checked c p)) = calls p ++ [c].
Proof.
  unfold checked, bindM, bcmCheckError.
  pose proof (sdk_calls c p) as H.
  destruct (sdk c p) as [[rv|e|msg] p1] eqn:Hs; cbn in *; [|exact H|exact H].
  case_decide; exact H.
Qed.

(** Closure rules for [quiet]. *)
Lemma quiet_ret {A} f (a : A) : quiet f (retM a).
Proof. apply emits_nil; [constructor | reflexivity]. Qed.

Lemma quiet_throw {A} f e : quiet f (@throwM BcmPort Exception A e).
Proof. apply emits_nil; [constructor | reflexivity]. Qed.

Lemma quiet_fatal {A} f msg : quiet f (@fatalM BcmPort Exception A msg).
Proof. apply emits_nil; [constructor | reflexivity]. Qed.

Lemma quiet_get f : quiet f (@getM BcmPort Exception).
Proof. apply emits_nil; [constructor | reflexivity]. Qed.

Lemma quiet_modify f (g : BcmPort -> BcmPort) :
  (forall p, calls (g p) = calls p) -> quiet f (modifyM g).
Proof. intros Hg. apply emits_nil; [constructor | exact Hg]. Qed.

Lemma quiet_log f c : f c = false -> quiet f (modifyM (log_call c)).
Proof. intros Hc. apply (emits_one _ _ c); [by repeat constructor | reflexivity]. Qed.

Lemma quiet_sdk f c : f c = false -> quiet f (sdk c).
Proof. intros Hc. apply (emits_one _ _ c); [by repeat constructor | apply sdk_calls]. Qed.

Lemma quiet_checked f c : f c = false -> quiet f (checked c).
Proof. intros Hc. apply (emits_one _ _ c); [by repeat constructor | apply checked_calls]. Qed.

Lemma quiet_bcmCheckError f rv c : quiet f (bcmCheckError rv c).
Proof. unfold bcmCheckError. case_decide; [apply quiet_ret | apply quiet_throw]. Qed.

Lemma quiet_bind {A B} f (m : Op A) (k : A -> Op B) :
  quiet f m -> (forall a, quiet f (k a)) -> quiet f (bindM m k).
Proof.
  apply emits_bind; [auto|]. intros d1 d2 H1 H2. apply Forall_app; auto.
Qed.

Lemma quiet_forM {A} f (xs : list A) (body : A -> Op unit) :
  (forall x, quiet f (body x)) -> quiet f (forM xs body).
Proof.
  intros Hb. induction xs as [|x xs IH]; cbn [forM].
  - apply quiet_ret.
  - apply quiet_bind; auto.
Qed.

(** Closure rules for [at_most]. *)
Lemma quiet_at_most {A} k f (m : Op A) : quiet f m -> at_most k f m.
Proof. apply emits_weaken. intros d Hd. rewrite (count_quiet f d Hd). lia. Qed.

Lemma at_most_bind_l {A B} k f (m : Op A) (g : A -> Op B) :
  at_most k f m -> (forall a, quiet f (g a)) -> at_most k f (bindM m g).
Proof.
  apply emits_bind; [auto|]. intros d1 d2 H1 H2.
  rewrite count_app, (count_quiet f d2 H2). lia.
Qed.

Lemma at_most_bind_r {A B} k f (m : Op A) (g : A -> Op B) :
  quiet f m -> (forall a, at_most k f (g a)) -> at_most k f (bindM m g).
Proof.
  apply emits_bind.
  - intros d1 H1. rewrite (count_quiet f d1 H1). lia.
  - intros d1 d2 H1 H2. rewrite count_app, (count_quiet f d1 H1). lia.
Qed.

Lemma at_most_one_call {A} f (m : Op A) c :
  (forall p, calls (snd (m p)) = calls p ++ [c]) -> at_most 1 f m.
Proof.
  intros Hm. apply (emits_one _ _ c); [|exact Hm].
  unfold count. rewrite filter_cons, filter_nil. case_decide; cbn; lia.
Qed.

Create HintDb port_log.

(** Solves [quiet f m] for straight-line code with tests on run-time
    values; the class [f] is evaluated on each call issued, and lemmas on
    the functions called are taken from [port_log]. *)
Ltac quiet_step :=
  first
    [ solve [auto with port_log nocore]
    | apply quiet_ret | apply quiet_throw | apply quiet_fatal | apply quiet_get
    | apply quiet_bcmCheckError
    | apply quiet_checked; reflexivity
    | apply quiet_sdk; reflexivity
    | apply quiet_log; reflexivity
    | apply quiet_bind; [|intros ?]
    | apply quiet_forM; intros ?
    | apply quiet_modify; intros ?; reflexivity
    | match goal with
      | |- quiet _ (if ?c then _ else _) => destruct c
      | |- quiet _ (match ?x with _ => _ end) => destruct x
      end ].

Ltac quiet_tac := repeat quiet_step.

(** Classes of calls. *)
Definition is_speed_set (c : SdkCall) : bool :=
  match c with opennsl_port_speed_set _ => true | _ => false end.

Definition is_interface_set (c : SdkCall) : bool :=
  match c with opennsl_port_interface_set _ => true | _ => false end.

(** Calls that change the hardware or the mirror table, or run a member
    that programs the port. *)
Definition is_hw_write (c : SdkCall) : bool :=
  match c with
  | opennsl_port_enable_get | opennsl_port_untagged_vlan_get | opennsl_port_speed_get
  | opennsl_port_speed_max | opennsl_port_interface_get
  | linkSpeedChanged _ | getTransmitterTech => false
  | _ => true
  end.

(** *** Primitive steps *)

Lemma checked_unfold c p :
  checked c p =
  if decide (sdkRv (length (calls p)) c = OPENNSL_E_NONE)
  then (Returns tt, sdk_effect c (log_call c p))
  else (Throws (BcmError (sdkRv (length (calls p)) c) c), log_call c p).
Proof.
  unfold checked, bindM, sdk, bcmCheckError.
  destruct (decide (sdkRv (length (calls p)) c = OPENNSL_E_NONE)); reflexivity.
Qed.

Lemma checked_returns_inv c p u p' :
  checked c p = (Returns u, p') -> p' = sdk_effect c (log_call c p).
Proof. rewrite checked_unfold. case_decide; intros Hrun; by inversion Hrun. Qed.

Lemma isEnabled_unfold p :
  isEnabled p =
  if decide (sdkRv (length (calls p)) opennsl_port_enable_get = OPENNSL_E_NONE)
  then (Returns (hw_enabled p), log_call opennsl_port_enable_get p)
  else (Throws (BcmError (sdkRv (length (calls p)) opennsl_port_enable_get)
                  opennsl_port_enable_get),
        log_call opennsl_port_enable_get p).
Proof.
  unfold isEnabled, bindM. rewrite checked_unfold.
  case_decide; reflexivity.
Qed.

(** *** Interface mode lookup *)

(** The lookup with a fall-back to the per-speed entry for [UNKNOWN], as
    the specification words it; compared with [portTypeLookup] below. *)
Definition lookupWithFallback (speed : PortSpeed) (tech : TransmitterTechnology)
  : option opennsl_port_if_t :=
  match portTypeLookup speed tech with
  | Some mode => Some mode
  | None => portTypeLookup speed UNKNOWN
  end.

Lemma getTransmitterTechnology_returns (name : string) (p : BcmPort) :
  exists tech p',
    getTransmitterTechnology name p = (Returns tech, p') /\
    transmitterTechnology_ p' = tech /\
    (transmitterTechnology_ p <> UNKNOWN -> tech = transmitterTechnology_ p /\ p' = p) /\
    (transmitterTechnology_ p = UNKNOWN -> String.prefix "fab" name = true -> tech = COPPER).
Proof.
  unfold getTransmitterTechnology, bindM, getM.
  destruct (transmitterTechnology_ p) eqn:Ht; cbn.
  - destruct (String.prefix "fab" name) eqn:Hfab; cbn;
      eexists _, _; (split; [reflexivity|]); repeat split; try congruence; intros []; done.
  - eexists _, _; (split; [reflexivity|]); repeat split; auto; discriminate.
  - eexists _, _; (split; [reflexivity|]); repeat split; auto; discriminate.
Qed.

Lemma every_speed_has_default (speed : PortSpeed)
    (byTech : list (TransmitterTechnology * opennsl_port_if_t)) :
  map_at speed kPortTypeMapping = Some byTech -> is_Some (map_at UNKNOWN byTech).
Proof.
  unfold kPortTypeMapping; cbn [map_at].
  repeat case_decide; intros Hm; inversion Hm; subst; cbn; eauto.
Qed.

Lemma fallback_differs_iff (speed : PortSpeed) (tech : TransmitterTechnology) :
  portTypeLookup speed tech = None /\ is_Some (lookupWithFallback speed tech)
  <-> (speed = TWENTYG \/ speed = GIGE) /\ tech = OPTICAL.
Proof.
  unfold lookupWithFallback, portTypeLookup, kPortTypeMapping; cbn [map_at].
  split.
  - repeat case_decide; subst; destruct tech; cbn; intros [Hn [m Hs]];
      try discriminate; auto.
  - intros [[-> | ->] ->]; cbn; eauto.
Qed.

(** C2 (as the code has it). [getDesiredInterfaceMode] resolves the
    transmitter technology and returns the mode the table maps the exact
    (speed, technology) pair to; it throws the unsupported-configuration
    error whenever that exact pair is absent.  Every speed of the table
    registers an entry for [UNKNOWN], which is what a port of unknown
    technology gets, but an absent pair does not fall back to it: the
    pairs for which a fall-back would have answered are exactly 20G and
    1G with optical technology. *)
Theorem getDesiredInterfaceMode_exact_pair_only :
  forall (speed : PortSpeed) (id : PortID) (name : string) (p : BcmPort),
    (exists tech p',
       getTransmitterTechnology name p = (Returns tech, p') /\
       getDesiredInterfaceMode speed id name p =
         (match portTypeLookup speed tech with
          | Some mode => Returns mode
          | None => Throws (UnsupportedSpeedOrTech speed tech id)
          end, p')) /\
    (forall byTech, map_at speed kPortTypeMapping = Some byTech ->
                    map_at UNKNOWN byTech = portTypeLookup speed UNKNOWN /\
                    is_Some (portTypeLookup speed UNKNOWN)) /\
    (forall tech,
       portTypeLookup speed tech = None /\ is_Some (lookupWithFallback speed tech)
       <-> (speed = TWENTYG \/ speed = GIGE) /\ tech = OPTICAL).
Proof.
  intros speed id name p. split; [|split].
  - destruct (getTransmitterTechnology_returns name p) as (tech & p' & Hrun & _).
    exists tech, p'. split; [exact Hrun|].
    unfold getDesiredInterfaceMode, bindM. rewrite Hrun.
    destruct (portTypeLookup speed tech); reflexivity.
  - intros byTech Hm. unfold portTypeLookup. rewrite Hm.
    split; [reflexivity | by apply (every_speed_has_default speed)].
  - intros tech. apply fallback_differs_iff.
Qed.

(** *** Mirror rebinding *)

Definition mirror_known (name : option string) : bool :=
  match name with
  | Some n => mirrorTable n
  | None => true
  end.

Definition mirror_calls (name : option string) (action : MirrorAction)
    (direction : MirrorDirection) : list SdkCall :=
  match name with
  | Some n => [applyPortMirrorAction n action direction]
  | None => []
  end.

(** The sessions a direction of the port is attached to after a log:
    START attaches, STOP detaches. *)
Definition attach_step (direction : MirrorDirection) (acc : list string) (c : SdkCall)
  : list string :=
  match c with
  | applyPortMirrorAction n action d =>
      if decide (d = direction) then
        match action with
        | START => if decide (n ∈ acc) then acc else acc ++ [n]
        | STOP => filter (fun x => x <> n) acc
        end
      else acc
  | _ => acc
  end.

Definition attached (direction : MirrorDirection) (log : list SdkCall) : list string :=
  fold_left (attach_step direction) log [].

Definition option_list {A} (o : option A) : list A :=
  match o with Some a => [a] | None => [] end.

(** At no point of the log is the direction attached to two sessions. *)
Definition never_two (direction : MirrorDirection) (log : list SdkCall) : Prop :=
  forall l, l `prefix_of` log -> (length (attached direction l) <= 1)%nat.

Lemma applyMirrorAction_unfold name action d p :
  applyMirrorAction name action d p =
  if mirror_known name
  then (Returns tt,
        mkBcmPort (hw_enabled p) (hw_untagged_vlan p) (hw_speed p) (hw_speed_max p)
          (hw_interface p) (transmitterTechnology_ p) (ingressMirror_ p) (egressMirror_ p)
          (calls p ++ mirror_calls name action d))
  else (Fatal "CHECK(bcmMirror != nullptr)", p).
Proof.
  destruct p. destruct name as [n|]; cbn; [|by rewrite app_nil_r].
  destruct (mirrorTable n); reflexivity.
Qed.

Lemma updateMirror_unfold new d p :
  let old := mirror_of d p in
  let p1 := snd (applyMirrorAction old STOP d p) in
  let p2 := set_mirror d new p1 in
  updateMirror new d p =
  if mirror_known old
  then applyMirrorAction new START d p2
  else (Fatal "CHECK(bcmMirror != nullptr)", p).
Proof.
  cbv zeta. unfold updateMirror, bindM, getM, modifyM.
  rewrite (applyMirrorAction_unfold (mirror_of d p)).
  destruct (mirror_known (mirror_of d p)); [|reflexivity].
  cbn [snd]. destruct d; reflexivity.
Qed.

Lemma mirror_of_set_mirror d new p : mirror_of d (set_mirror d new p) = new.
Proof. destruct d; reflexivity. Qed.

Lemma mirror_of_set_mirror_ne d d' new p :
  d' <> d -> mirror_of d' (set_mirror d new p) = mirror_of d' p.
Proof. destruct d, d'; done. Qed.

Lemma calls_set_mirror d new p : calls (set_mirror d new p) = calls p.
Proof. destruct d; reflexivity. Qed.

Lemma attached_app d l1 l2 :
  attached d (l1 ++ l2) = fold_left (attach_step d) l2 (attached d l1).
Proof. unfold attached. apply fold_left_app. Qed.

Lemma prefix_app_cases {A} (l base delta : list A) :
  l `prefix_of` base ++ delta ->
  l `prefix_of` base \/ exists d', d' `prefix_of` delta /\ l = base ++ d'.
Proof.
  intros Hl.
  assert (Hbase : base `prefix_of` base ++ delta) by (by apply prefix_app_r).
  destruct (prefix_weak_total l base (base ++ delta) Hl Hbase) as [Hp|[d' ->]].
  - by left.
  - right. exists d'. split; [|reflexivity].
    by apply (prefix_app_inv base).
Qed.

Lemma never_two_extend d base delta :
  never_two d base ->
  (forall d', d' `prefix_of` delta -> (length (attached d (base ++ d')) <= 1)%nat) ->
  never_two d (base ++ delta).
Proof.
  intros Hbase Hdelta l Hl.
  destruct (prefix_app_cases l base delta Hl) as [Hp|(d' & Hd' & ->)]; auto.
Qed.

Lemma prefix_of_two {A} (a b : A) l :
  l `prefix_of` [a; b] -> l = [] \/ l = [a] \/ l = [a; b].
Proof.
  intros [k Hk]. destruct l as [|x [|y [|z l]]]; cbn in Hk; auto.
  - injection Hk as -> _. auto.
  - injection Hk as -> -> _. auto.
  - inversion Hk.
Qed.

Lemma prefix_of_one {A} (a : A) l : l `prefix_of` [a] -> l = [] \/ l = [a].
Proof.
  intros [k Hk]. destruct l as [|x [|y l]]; cbn in Hk; auto.
  - injection Hk as -> _. auto.
  - inversion Hk.
Qed.

Lemma prefix_of_nil_inv {A} (l : list A) : l `prefix_of` [] -> l = [].
Proof. intros [k Hk]. destruct l; [done | inversion Hk]. Qed.

Lemma attach_stop_bound d n :
  attach_step d [n] (applyPortMirrorAction n STOP d) = [].
Proof.
  unfold attach_step. rewrite decide_True by done.
  rewrite filter_cons, filter_nil. by rewrite decide_False by auto.
Qed.

Lemma attach_start_free d n :
  attach_step d [] (applyPortMirrorAction n START d) = [n].
Proof.
  unfold attach_step. rewrite decide_True by done.
  rewrite decide_False; [done | apply not_elem_of_nil].
Qed.

Lemma rebind_never_two d (base : list SdkCall) (old new : option string) :
  attached d base = option_list old ->
  never_two d base ->
  never_two d (base ++ mirror_calls old STOP d ++ mirror_calls new START d) /\
  attached d (base ++ mirror_calls old STOP d ++ mirror_calls new START d)
  = option_list new.
Proof.
  intros Hatt Hbase.
  split.
  - apply never_two_extend; [exact Hbase|].
    intros d' Hd'. rewrite attached_app, Hatt.
    destruct old as [a|], new as [b|]; cbn [mirror_calls app] in Hd'.
    + apply prefix_of_two in Hd' as [->| [->| ->]]; cbn [fold_left option_list];
        rewrite ?attach_stop_bound, ?attach_start_free; cbn; lia.
    + apply prefix_of_one in Hd' as [->| ->]; cbn [fold_left option_list];
        rewrite ?attach_stop_bound; cbn; lia.
    + apply prefix_of_one in Hd' as [->| ->]; cbn [fold_left option_list];
        rewrite ?attach_start_free; cbn; lia.
    + apply prefix_of_nil_inv in Hd' as ->. cbn. lia.
  - rewrite attached_app, Hatt.
    destruct old as [a|], new as [b|]; cbn [mirror_calls app fold_left option_list];
      rewrite ?attach_stop_bound, ?attach_start_free; reflexivity.
Qed.

Lemma never_two_prefix d l log : never_two d log -> l `prefix_of` log -> never_two d l.
Proof. intros Hlog Hl l' Hl'. apply Hlog. by etrans. Qed.

Lemma applyMirrorAction_keeps_mirrors name action d d' p :
  mirror_of d' (snd (applyMirrorAction name action d p)) = mirror_of d' p.
Proof.
  rewrite applyMirrorAction_unfold. destruct (mirror_known name), d'; reflexivity.
Qed.

Lemma applyMirrorAction_calls name action d p :
  mirror_known name = true ->
  calls (snd (applyMirrorAction name action d p)) = calls p ++ mirror_calls name action d.
Proof. intros Hk. rewrite applyMirrorAction_unfold, Hk. reflexivity. Qed.

(** C3. [updateMirror] runs three steps in this order: STOP against the
    session bound so far (the old binding is still the recorded one when
    the STOP has been issued), then the new binding is recorded (no call
    is issued by that), then START against the new session.  With both
    sessions in the mirror table it returns, and the calls it issued are
    the STOP of the old session (if one was bound) followed by the START
    of the new one (if one is given); rebinding to no session issues the
    STOP only and leaves the binding absent.  The other direction is
    untouched.  If the attachments on record matched the binding before,
    the direction is attached to at most one session at every point of
    the log, and to exactly the new binding at the end. *)
Theorem updateMirror_stop_before_start :
  forall (new : option string) (d : MirrorDirection) (p : BcmPort),
    let old := mirror_of d p in
    let p1 := snd (applyMirrorAction old STOP d p) in
    let p2 := set_mirror d new p1 in
    let p3 := snd (applyMirrorAction new START d p2) in
    updateMirror new d p =
      (if mirror_known old
       then if mirror_known new
            then (Returns tt, p3)
            else (Fatal "CHECK(bcmMirror != nullptr)", p2)
       else (Fatal "CHECK(bcmMirror != nullptr)", p)) /\
    (mirror_known old = true ->
       (calls p1 = calls p ++ mirror_calls old STOP d /\ mirror_of d p1 = old) /\
       (calls p2 = calls p1 /\ mirror_of d p2 = new)) /\
    (mirror_known old = true -> mirror_known new = true ->
       calls p3 = calls p ++ mirror_calls old STOP d ++ mirror_calls new START d /\
       mirror_of d p3 = new /\
       (forall d', d' <> d -> mirror_of d' p3 = mirror_of d' p)) /\
    (attached d (calls p) = option_list old -> never_two d (calls p) ->
       never_two d (calls (snd (updateMirror new d p))) /\
       (fst (updateMirror new d p) = Returns tt ->
        attached d (calls (snd (updateMirror new d p))) = option_list new)).
Proof.
  intros new d p; cbv zeta.
  assert (Hrun : updateMirror new d p =
    (if mirror_known (mirror_of d p)
     then if mirror_known new
          then (Returns tt,
                snd (applyMirrorAction new START d
                       (set_mirror d new (snd (applyMirrorAction (mirror_of d p) STOP d p)))))
          else (Fatal "CHECK(bcmMirror != nullptr)",
                set_mirror d new (snd (applyMirrorAction (mirror_of d p) STOP d p)))
     else (Fatal "CHECK(bcmMirror != nullptr)", p))).
  { pose proof (updateMirror_unfold new d p) as H; cbv zeta in H. rewrite H.
    destruct (mirror_known (mirror_of d p)); [|reflexivity].
    rewrite applyMirrorAction_unfold. destruct (mirror_known new); reflexivity. }
  split; [exact Hrun|]. split; [|split].
  - intros Hold. rewrite calls_set_mirror, mirror_of_set_mirror.
    rewrite applyMirrorAction_keeps_mirrors, (applyMirrorAction_calls _ _ _ _ Hold).
    auto.
  - intros Hold Hnew.
    rewrite (applyMirrorAction_calls _ _ _ _ Hnew), calls_set_mirror.
    rewrite (applyMirrorAction_calls _ _ _ _ Hold), <- app_assoc.
    rewrite !applyMirrorAction_keeps_mirrors, mirror_of_set_mirror.
    repeat split. intros d' Hd'.
    rewrite ?applyMirrorAction_keeps_mirrors, mirror_of_set_mirror_ne by done.
    by rewrite ?applyMirrorAction_keeps_mirrors.
  - intros Hatt Hbase. rewrite Hrun.
    destruct (rebind_never_two d (calls p) (mirror_of d p) new Hatt Hbase) as [Hnever Hend].
    destruct (mirror_known (mirror_of d p)) eqn:Hold; [|split; [exact Hbase | discriminate]].
    destruct (mirror_known new) eqn:Hnew; cbn [fst snd].
    + rewrite (applyMirrorAction_calls _ _ _ _ Hnew), calls_set_mirror.
      rewrite (applyMirrorAction_calls _ _ _ _ Hold), <- app_assoc. auto.
    + split; [|discriminate].
      rewrite calls_set_mirror, (applyMirrorAction_calls _ _ _ _ Hold).
      apply (never_two_prefix d _ _ Hnever).
      apply prefix_app, prefix_app_r. done.
Qed.

(** *** Skipping unnecessary speed and interface-mode writes *)

Ltac at_most_step :=
  first
    [ solve [auto with port_log nocore]
    | apply quiet_at_most; solve [quiet_tac]
    | eapply at_most_one_call; apply checked_calls
    | eapply at_most_one_call; apply sdk_calls
    | apply at_most_bind_r; [solve [quiet_tac] | intros ?]
    | apply at_most_bind_l; [| intros ?; solve [quiet_tac]]
    | match goal with
      | |- at_most _ _ (if ?c then _ else _) => destruct c
      | |- at_most _ _ (match ?x with _ => _ end) => destruct x
      end ].

Ltac at_most_tac := repeat at_most_step.

Ltac unfold_port_code :=
  unfold program, setIngressVlan, setSpeed, setInterfaceMode, getDesiredPortSpeed,
    getDesiredInterfaceMode, getTransmitterTechnology, getSpeed, updateMirror,
    applyMirrorAction, isEnabled.

(** Calls made while programming the attribute set of a port. *)
Definition is_attribute_call (c : SdkCall) : bool :=
  match c with
  | opennsl_port_untagged_vlan_get | opennsl_port_untagged_vlan_set _
  | opennsl_port_speed_get | opennsl_port_speed_max | opennsl_port_speed_set _
  | opennsl_port_interface_get | opennsl_port_interface_set _
  | applyPortMirrorAction _ _ _ | linkSpeedChanged _ | getTransmitterTech
  | member _ => true
  | _ => false
  end.

Definition not_attribute_call (c : SdkCall) : bool := negb (is_attribute_call c).

Lemma setIngressVlan_attribute swPort : quiet not_attribute_call (setIngressVlan swPort).
Proof. unfold_port_code. quiet_tac. Qed.

Lemma setSpeed_attribute swPort : quiet not_attribute_call (setSpeed swPort).
Proof. unfold_port_code. quiet_tac. Qed.

Lemma updateMirror_attribute name d : quiet not_attribute_call (updateMirror name d).
Proof. unfold_port_code. destruct d; quiet_tac. Qed.

Lemma setIngressVlan_no_speed_set swPort : quiet is_speed_set (setIngressVlan swPort).
Proof. unfold_port_code. quiet_tac. Qed.

Lemma setIngressVlan_no_interface_set swPort : quiet is_interface_set (setIngressVlan swPort).
Proof. unfold_port_code. quiet_tac. Qed.

Lemma updateMirror_no_speed_set name d : quiet is_speed_set (updateMirror name d).
Proof. unfold_port_code. destruct d; quiet_tac. Qed.

Lemma updateMirror_no_interface_set name d : quiet is_interface_set (updateMirror name d).
Proof. unfold_port_code. destruct d; quiet_tac. Qed.

Lemma isEnabled_no_speed_set : quiet is_speed_set isEnabled.
Proof. unfold_port_code. quiet_tac. Qed.

Lemma isEnabled_no_interface_set : quiet is_interface_set isEnabled.
Proof. unfold_port_code. quiet_tac. Qed.

Lemma setInterfaceMode_no_speed_set swPort : quiet is_speed_set (setInterfaceMode swPort).
Proof. unfold_port_code. quiet_tac. Qed.

Lemma setInterfaceMode_at_most_one swPort :
  at_most 1 is_interface_set (setInterfaceMode swPort).
Proof. unfold_port_code. at_most_tac. Qed.

#[local] Hint Resolve setIngressVlan_no_speed_set setIngressVlan_no_interface_set
  updateMirror_no_speed_set updateMirror_no_interface_set
  isEnabled_no_speed_set isEnabled_no_interface_set
  setInterfaceMode_no_speed_set setInterfaceMode_at_most_one : port_log.

Lemma setSpeed_at_most_one_speed_set swPort : at_most 1 is_speed_set (setSpeed swPort).
Proof. unfold setSpeed, getDesiredPortSpeed, getSpeed. at_most_tac. Qed.

Lemma setSpeed_at_most_one_interface_set swPort :
  at_most 1 is_interface_set (setSpeed swPort).
Proof. unfold setSpeed, getDesiredPortSpeed, getSpeed. at_most_tac. Qed.

#[local] Hint Resolve setSpeed_at_most_one_speed_set
  setSpeed_at_most_one_interface_set : port_log.

Lemma program_at_most_one_speed_set swPort : at_most 1 is_speed_set (program swPort).
Proof. unfold program. at_most_tac. Qed.

Lemma program_at_most_one_interface_set swPort :
  at_most 1 is_interface_set (program swPort).
Proof. unfold program. at_most_tac. Qed.

#[local] Hint Resolve program_at_most_one_speed_set
  program_at_most_one_interface_set : port_log.

Lemma enable_at_most_one_speed_set swPort : at_most 1 is_speed_set (enable swPort).
Proof. unfold enable. at_most_tac. Qed.

Lemma enable_at_most_one_interface_set swPort :
  at_most 1 is_interface_set (enable swPort).
Proof. unfold enable. at_most_tac. Qed.

(** The speed the configuration asks for, as [getDesiredPortSpeed]
    resolves it when its read succeeds. *)
Definition desiredSpeedOf (swPort : Port) (p : BcmPort) : PortSpeed :=
  if Cfg.getSpeed swPort =? DEFAULT then hw_speed_max p else Cfg.getSpeed swPort.

Lemma setSpeed_skips_writes (swPort : Port) (p : BcmPort) :
  isPortUp swPort = true ->
  hw_speed p = desiredSpeedOf swPort p ->
  exists d,
    calls (snd (setSpeed swPort p)) = calls p ++ d /\
    Forall (fun c => is_hw_write c = false) d /\
    hw_speed (snd (setSpeed swPort p)) = hw_speed p /\
    hw_interface (snd (setSpeed swPort p)) = hw_interface p.
Proof.
  intros Hup Hspeed. unfold desiredSpeedOf in Hspeed.
  unfold setSpeed, getDesiredPortSpeed, getSpeed, bindM, getM, retM.
  rewrite Hup.
  destruct (Cfg.getSpeed swPort =? DEFAULT) eqn:Hdef.
  - rewrite checked_unfold. case_decide; cbn [sdk_effect].
    + rewrite checked_unfold. case_decide; cbn.
      * rewrite Hspeed, Z.eqb_refl. cbn.
        eexists. rewrite <- app_assoc. split; [reflexivity|].
        repeat split; try done; by repeat constructor.
      * eexists. rewrite <- app_assoc. split; [reflexivity|].
        repeat split; try done; by repeat constructor.
    + cbn. eexists. split; [reflexivity|]. repeat split; try done; by repeat constructor.
  - rewrite checked_unfold. case_decide; cbn.
    + rewrite Hspeed, Z.eqb_refl. cbn.
      eexists. split; [reflexivity|]. repeat split; try done; by repeat constructor.
    + eexists. split; [reflexivity|]. repeat split; try done; by repeat constructor.
Qed.

Lemma enable_already_enabled (swPort : Port) (p : BcmPort) :
  hw_enabled p = true ->
  snd (enable swPort p) = log_call opennsl_port_enable_get p /\
  (sdkRv (length (calls p)) opennsl_port_enable_get = OPENNSL_E_NONE ->
   fst (enable swPort p) = Returns tt).
Proof.
  intros Hen. unfold enable, bindM. rewrite isEnabled_unfold.
  case_decide; rewrite ?Hen; cbn; auto. split; [reflexivity | intros; congruence].
Qed.

Lemma forM_checked_returns {A} (g : A -> SdkCall) (xs : list A) p u p' :
  forM xs (fun x => checked (g x)) p = (Returns u, p') ->
  calls p' = calls p ++ map g xs.
Proof.
  revert p. induction xs as [|x xs IH]; intros p Hrun; cbn [forM] in Hrun.
  - inversion Hrun; subst. cbn. by rewrite app_nil_r.
  - apply bind_returns_inversion in Hrun as (a & p1 & Hx & Hrest).
    apply checked_returns_inv in Hx as ->.
    rewrite (IH _ Hrest), sdk_effect_calls. cbn. by rewrite <- app_assoc.
Qed.

Lemma program_returns_inv (swPort : Port) (p p' : BcmPort) (u : unit) :
  program swPort p = (Returns u, p') ->
  exists dA,
    calls p' = calls p ++ dA ++ [member setPause; member setTxSetting;
                                 member setSflowRates; member setLoopbackMode] /\
    Forall (fun c => is_attribute_call c = true) dA.
Proof.
  unfold program. intros Hrun.
  apply bind_returns_inversion in Hrun as (u1 & p1 & H1 & Hrun).
  apply bind_returns_inversion in Hrun as (u2 & p2 & H2 & Hrun).
  apply bind_returns_inversion in Hrun as (u3 & p3 & H3 & Hrun).
  apply bind_returns_inversion in Hrun as (u4 & p4 & H4 & Hrun).
  apply bind_returns_inversion in Hrun as (u5 & p5 & H5 & Hrun).
  apply bind_returns_inversion in Hrun as (u6 & p6 & H6 & Hrun).
  apply bind_returns_inversion in Hrun as (u7 & p7 & H7 & Hrun).
  apply checked_returns_inv in H5 as ->, H6 as ->, H7 as ->, Hrun as ->.
  destruct (emits_apply _ _ _ _ _ (setIngressVlan_attribute swPort) H1) as (d1 & Hd1 & Ha1).
  assert (Hspeed : quiet not_attribute_call
            (if shouldUsePortResourceAPIs
             then checked (member setPortResource)
             else bindM (setSpeed swPort) (fun _ => checked (member setFEC)))).
  { destruct shouldUsePortResourceAPIs.
    - apply quiet_checked. reflexivity.
    - apply quiet_bind; [apply setSpeed_attribute | intros _; by apply quiet_checked]. }
  destruct (emits_apply _ _ _ _ _ Hspeed H2) as (d2 & Hd2 & Ha2).
  destruct (emits_apply _ _ _ _ _ (updateMirror_attribute _ _) H3) as (d3 & Hd3 & Ha3).
  destruct (emits_apply _ _ _ _ _ (updateMirror_attribute _ _) H4) as (d4 & Hd4 & Ha4).
  exists (d1 ++ d2 ++ d3 ++ d4). split.
  - cbn [sdk_effect log_call calls].
    rewrite Hd4, Hd3, Hd2, Hd1. rewrite <- !app_assoc. reflexivity.
  - rewrite !Forall_app. repeat split;
      (eapply Forall_impl; [eassumption|]); intros c Hc;
      unfold not_attribute_call in Hc; by destruct (is_attribute_call c).
Qed.

Definition vlan_add_call (entry : VlanID * bool) : SdkCall :=
  opennsl_vlan_port_add (fst entry) (negb (snd entry)).

Lemma enable_returns_inv (swPort : Port) (p p' : BcmPort) (u : unit) :
  hw_enabled p = false ->
  enable swPort p = (Returns u, p') ->
  exists dA,
    calls p' = calls p ++ [opennsl_port_enable_get]
                 ++ map vlan_add_call (getVlans swPort)
                 ++ [opennsl_port_vlan_member_set]
                 ++ dA
                 ++ [member setPause; member setTxSetting;
                     member setSflowRates; member setLoopbackMode]
                 ++ [opennsl_port_stat_enable_set true; opennsl_port_enable_set true] /\
    Forall (fun c => is_attribute_call c = true) dA /\
    hw_enabled p' = true.
Proof.
  intros Hdis Hrun. unfold enable in Hrun.
  apply bind_returns_inversion in Hrun as (en & p1 & H1 & Hrun).
  rewrite isEnabled_unfold in H1.
  destruct (decide (sdkRv (length (calls p)) opennsl_port_enable_get = OPENNSL_E_NONE));
    [|discriminate].
  inversion H1; subst en p1; clear H1. rewrite Hdis in Hrun.
  apply bind_returns_inversion in Hrun as (u2 & p2 & H2 & Hrun).
  apply bind_returns_inversion in Hrun as (u3 & p3 & H3 & Hrun).
  apply bind_returns_inversion in Hrun as (u4 & p4 & H4 & Hrun).
  apply bind_returns_inversion in Hrun as (rv & p5 & H5 & Hrun).
  apply bind_returns_inversion in Hrun as (u6 & p6 & H6 & Hrun).
  apply (forM_checked_returns vlan_add_call) in H2.
  apply checked_returns_inv in H3 as ->.
  apply program_returns_inv in H4 as (dA & HdA & HattrA).
  assert (Hp5 : calls p5 = calls p4 ++ [opennsl_port_stat_enable_set true]).
  { pose proof (sdk_calls (opennsl_port_stat_enable_set true) p4) as Hc.
    by rewrite H5 in Hc. }
  assert (Hp6 : calls p6 = calls p5).
  { destruct (negb (bool_decide (rv = OPENNSL_E_EXISTS))).
    - unfold bcmCheckError in H6. case_decide; inversion H6; by subst.
    - inversion H6; by subst. }
  apply checked_returns_inv in Hrun as ->.
  exists dA. split; [|split; [exact HattrA | reflexivity]].
  cbn [sdk_effect log_call calls].
  rewrite Hp6, Hp5, HdA. cbn [sdk_effect log_call calls].
  rewrite H2. cbn [log_call calls]. rewrite <- !app_assoc. reflexivity.
Qed.

Lemma enable_returns_enabled (swPort : Port) (p p' : BcmPort) (u : unit) :
  enable swPort p = (Returns u, p') -> hw_enabled p' = true.
Proof.
  intros Hrun. destruct (hw_enabled p) eqn:Hen.
  - destruct (enable_already_enabled swPort p Hen) as [Hsnd _].
    rewrite Hrun in Hsnd. cbn in Hsnd. subst p'. exact Hen.
  - by destruct (enable_returns_inv swPort p p' u Hen Hrun) as (dA & _ & _ & Hen').
Qed.

(** *** Frame rules: what an operation leaves alone *)

(** [keeps f m]: [m] leaves the component [f] of the port as it is,
    whatever its outcome. *)
Definition keeps {A X} (f : BcmPort -> X) (m : Op A) : Prop :=
  forall p, f (snd (m p)) = f p.

Lemma keeps_ret {A X} (f : BcmPort -> X) (a : A) : keeps f (retM a).
Proof. intros p. reflexivity. Qed.

Lemma keeps_throw {A X} (f : BcmPort -> X) e : keeps f (@throwM BcmPort Exception A e).
Proof. intros p. reflexivity. Qed.

Lemma keeps_fatal {A X} (f : BcmPort -> X) msg : keeps f (@fatalM BcmPort Exception A msg).
Proof. intros p. reflexivity. Qed.

Lemma keeps_get {X} (f : BcmPort -> X) : keeps f (@getM BcmPort Exception).
Proof. intros p. reflexivity. Qed.

Lemma keeps_modify {X} (f : BcmPort -> X) (g : BcmPort -> BcmPort) :
  (forall q, f (g q) = f q) -> keeps f (modifyM g).
Proof. intros Hg p. apply Hg. Qed.

Lemma keeps_bind {A B X} (f : BcmPort -> X) (m : Op A) (k : A -> Op B) :
  keeps f m -> (forall a, keeps f (k a)) -> keeps f (bindM m k).
Proof.
  intros Hm Hk p. unfold bindM. specialize (Hm p).
  destruct (m p) as [[a|e|msg] p1]; cbn in *; [|exact Hm|exact Hm].
  rewrite (Hk a p1). exact Hm.
Qed.

Lemma keeps_forM {A X} (f : BcmPort -> X) (xs : list A) (body : A -> Op unit) :
  (forall x, keeps f (body x)) -> keeps f (forM xs body).
Proof.
  intros Hb. induction xs as [|x xs IH]; cbn [forM].
  - apply keeps_ret.
  - apply keeps_bind; auto.
Qed.

Lemma keeps_bcmCheckError {X} (f : BcmPort -> X) rv c : keeps f (bcmCheckError rv c).
Proof. unfold bcmCheckError. case_decide; [apply keeps_ret | apply keeps_throw]. Qed.

Lemma keeps_sdk {X} (f : BcmPort -> X) c :
  (forall q, f (sdk_effect c q) = f q) -> (forall q, f (log_call c q) = f q) ->
  keeps f (sdk c).
Proof.
  intros He Hl p. unfold sdk. cbn [snd].
  case_decide; rewrite ?He, Hl; reflexivity.
Qed.

Lemma keeps_checked {X} (f : BcmPort -> X) c :
  (forall q, f (sdk_effect c q) = f q) -> (forall q, f (log_call c q) = f q) ->
  keeps f (checked c).
Proof.
  intros He Hl. unfold checked. apply keeps_bind.
  - by apply keeps_sdk.
  - intros rv. apply keeps_bcmCheckError.
Qed.

(** Solves [keeps f m] for a component [f] that none of the calls of [m]
    writes. *)
Ltac keeps_step :=
  first
    [ solve [auto with port_log nocore]
    | apply keeps_ret | apply keeps_throw | apply keeps_fatal | apply keeps_get
    | apply keeps_bcmCheckError
    | apply keeps_checked; intros ?; reflexivity
    | apply keeps_sdk; intros ?; reflexivity
    | apply keeps_bind; [|intros ?]
    | apply keeps_forM; intros ?
    | apply keeps_modify; intros ?; reflexivity
    | match goal with
      | |- keeps _ (if ?c then _ else _) => destruct c
      | |- keeps _ (match ?x with _ => _ end) => destruct x
      end ].

Ltac keeps_tac := repeat keeps_step.

(** Every operation only appends to the call log. *)
Definition any_call (c : SdkCall) : bool := false.

Lemma getTransmitterTechnology_keeps_speed_max name :
  keeps hw_speed_max (getTransmitterTechnology name).
Proof. unfold getTransmitterTechnology. keeps_tac. Qed.

Lemma getTransmitterTechnology_keeps_speed name :
  keeps hw_speed (getTransmitterTechnology name).
Proof. unfold getTransmitterTechnology. keeps_tac. Qed.

Lemma getTransmitterTechnology_keeps_interface name :
  keeps hw_interface (getTransmitterTechnology name).
Proof. unfold getTransmitterTechnology. keeps_tac. Qed.

Lemma getDesiredPortSpeed_keeps_speed_max swPort :
  keeps hw_speed_max (getDesiredPortSpeed swPort).
Proof. unfold getDesiredPortSpeed. keeps_tac. Qed.

Lemma getDesiredPortSpeed_keeps_speed swPort :
  keeps hw_speed (getDesiredPortSpeed swPort).
Proof. unfold getDesiredPortSpeed. keeps_tac. Qed.

Lemma setInterfaceMode_keeps_speed_max swPort :
  keeps hw_speed_max (setInterfaceMode swPort).
Proof. unfold_port_code. keeps_tac. Qed.

Lemma setInterfaceMode_keeps_speed swPort :
  keeps hw_speed (setInterfaceMode swPort).
Proof. unfold_port_code. keeps_tac. Qed.

Lemma setSpeed_keeps_speed_max swPort : keeps hw_speed_max (setSpeed swPort).
Proof. unfold_port_code. keeps_tac. Qed.

Lemma setSpeed_appends swPort : quiet any_call (setSpeed swPort).
Proof. unfold_port_code. quiet_tac. Qed.

Lemma setInterfaceMode_appends swPort : quiet any_call (setInterfaceMode swPort).
Proof. unfold_port_code. quiet_tac. Qed.

Lemma getDesiredPortSpeed_appends swPort : quiet any_call (getDesiredPortSpeed swPort).
Proof. unfold_port_code. quiet_tac. Qed.

Lemma getDesiredInterfaceMode_appends speed id name :
  quiet any_call (getDesiredInterfaceMode speed id name).
Proof. unfold_port_code. quiet_tac. Qed.

Lemma appends_apply {A} (m : Op A) p o p' :
  quiet any_call m -> m p = (o, p') -> exists d, calls p' = calls p ++ d.
Proof.
  intros Hm Hrun. destruct (emits_apply _ _ _ _ _ Hm Hrun) as (d & Hd & _). eauto.
Qed.

(** *** Post-conditions of the attribute setters *)

Lemma setIngressVlan_unfold swPort p :
  setIngressVlan swPort p =
  if decide (sdkRv (length (calls p)) opennsl_port_untagged_vlan_get = OPENNSL_E_NONE)
  then if getIngressVlan swPort =? hw_untagged_vlan p
       then (Returns tt, log_call opennsl_port_untagged_vlan_get p)
       else checked (opennsl_port_untagged_vlan_set (getIngressVlan swPort))
              (log_call opennsl_port_untagged_vlan_get p)
  else (Throws (BcmError (sdkRv (length (calls p)) opennsl_port_untagged_vlan_get)
                  opennsl_port_untagged_vlan_get),
        log_call opennsl_port_untagged_vlan_get p).
Proof.
  unfold setIngressVlan, bindM at 1. rewrite checked_unfold.
  case_decide; [|reflexivity]. cbn [sdk_effect].
  unfold bindM, getM. cbn [hw_untagged_vlan log_call].
  destruct (getIngressVlan swPort =? hw_untagged_vlan p); reflexivity.
Qed.

(** X9. [setIngressVlan] reads the untagged VLAN of the port and writes
    the configured one only if it differs.  When it returns, the hardware
    has the configured ingress VLAN, the calls it issued are the read,
    followed by the write only in case of a difference, and nothing else
    of the port changed; calling it again then issues the read alone. *)
Theorem setIngressVlan_writes_only_a_change :
  forall (swPort : Port) (p p' : BcmPort),
    setIngressVlan swPort p = (Returns tt, p') ->
    hw_untagged_vlan p' = getIngressVlan swPort /\
    calls p' = calls p ++ opennsl_port_untagged_vlan_get ::
                 (if getIngressVlan swPort =? hw_untagged_vlan p then []
                  else [opennsl_port_untagged_vlan_set (getIngressVlan swPort)]) /\
    (hw_enabled p' = hw_enabled p /\ hw_speed p' = hw_speed p /\
     hw_interface p' = hw_interface p /\ ingressMirror_ p' = ingressMirror_ p /\
     egressMirror_ p' = egressMirror_ p) /\
    calls (snd (setIngressVlan swPort p')) = calls p' ++ [opennsl_port_untagged_vlan_get].
Proof.
  intros swPort p p' Hrun.
  assert (Hpost : hw_untagged_vlan p' = getIngressVlan swPort /\
            calls p' = calls p ++ opennsl_port_untagged_vlan_get ::
                 (if getIngressVlan swPort =? hw_untagged_vlan p then []
                  else [opennsl_port_untagged_vlan_set (getIngressVlan swPort)]) /\
            (hw_enabled p' = hw_enabled p /\ hw_speed p' = hw_speed p /\
             hw_interface p' = hw_interface p /\ ingressMirror_ p' = ingressMirror_ p /\
             egressMirror_ p' = egressMirror_ p)).
  { rewrite setIngressVlan_unfold in Hrun. case_decide; [|discriminate].
    destruct (getIngressVlan swPort =? hw_untagged_vlan p) eqn:Hsame.
    - inversion Hrun; subst p'. apply Z.eqb_eq in Hsame. cbn. repeat split; congruence.
    - apply checked_returns_inv in Hrun as ->. cbn. rewrite <- app_assoc.
      repeat split; reflexivity. }
  destruct Hpost as (Hvlan & Hcalls & Hframe).
  split; [exact Hvlan|]. split; [exact Hcalls|]. split; [exact Hframe|].
  rewrite setIngressVlan_unfold, Hvlan, Z.eqb_refl.
  case_decide; reflexivity.
Qed.

(** X10. [getTransmitterTechnology] always returns, and returns what the
    port then has on record.  A technology that is already known is
    returned without touching anything; an unknown one is resolved to
    copper for a port whose name starts with "fab", without asking the
    platform, and otherwise by asking the platform exactly once.  Once
    the answer is not [UNKNOWN] it is kept: later calls, under any name,
    return it and leave the port as it is. *)
Theorem getTransmitterTechnology_asks_platform_once :
  forall (name name' : string) (p : BcmPort),
    exists tech p',
      getTransmitterTechnology name p = (Returns tech, p') /\
      transmitterTechnology_ p' = tech /\
      (transmitterTechnology_ p <> UNKNOWN -> tech = transmitterTechnology_ p /\ p' = p) /\
      (transmitterTechnology_ p = UNKNOWN -> String.prefix "fab" name = true ->
       tech = COPPER /\ calls p' = calls p) /\
      (transmitterTechnology_ p = UNKNOWN -> String.prefix "fab" name = false ->
       tech = platformTech (length (calls p)) /\ calls p' = calls p ++ [getTransmitterTech]) /\
      (tech <> UNKNOWN -> getTransmitterTechnology name' p' = (Returns tech, p')).
Proof.
  intros name name' p. unfold getTransmitterTechnology, bindM, getM.
  destruct (transmitterTechnology_ p) eqn:Ht; cbn [negb bool_decide decide_rel].
  - rewrite bool_decide_true by done. cbn [negb].
    destruct (String.prefix "fab" name) eqn:Hfab; cbn.
    + eexists _, _. split; [reflexivity|]. split; [reflexivity|].
      split; [done|]. split; [done|]. split; [done|]. intros _. reflexivity.
    + eexists _, _. split; [reflexivity|]. split; [reflexivity|].
      split; [done|]. split; [done|]. split; [done|].
      intros Hk. rewrite bool_decide_false by exact Hk. reflexivity.
  - rewrite bool_decide_false by done. cbn [negb retM].
    eexists _, _. split; [reflexivity|]. split; [exact Ht|].
    split; [done|]. split; [done|]. split; [done|].
    intros _. rewrite Ht. rewrite bool_decide_false by done. reflexivity.
  - rewrite bool_decide_false by done. cbn [negb retM].
    eexists _, _. split; [reflexivity|]. split; [exact Ht|].
    split; [done|]. split; [done|]. split; [done|].
    intros _. rewrite Ht. rewrite bool_decide_false by done. reflexivity.
Qed.

Lemma getDesiredPortSpeed_returns_inv swPort p ds p1 :
  getDesiredPortSpeed swPort p = (Returns ds, p1) -> ds = desiredSpeedOf swPort p.
Proof.
  unfold getDesiredPortSpeed, desiredSpeedOf.
  destruct (Cfg.getSpeed swPort =? DEFAULT).
  - intros H. apply bind_returns_inversion in H as (u & q & Hc & H).
    apply checked_returns_inv in Hc as ->. cbv [bindM getM retM] in H.
    inversion H; subst. reflexivity.
  - intros H. inversion H; subst. reflexivity.
Qed.

Lemma getSpeed_returns_inv p s p1 :
  getSpeed p = (Returns s, p1) -> s = hw_speed p /\ p1 = log_call opennsl_port_speed_get p.
Proof.
  unfold getSpeed. intros H. apply bind_returns_inversion in H as (u & q & Hc & H).
  apply checked_returns_inv in Hc as ->. cbv [bindM getM retM] in H.
  inversion H; subst. auto.
Qed.

Lemma getDesiredInterfaceMode_returns_inv speed id name p mode p' :
  getDesiredInterfaceMode speed id name p = (Returns mode, p') ->
  portTypeLookup speed (transmitterTechnology_ p') = Some mode /\
  hw_interface p' = hw_interface p.
Proof.
  unfold getDesiredInterfaceMode. intros H.
  apply bind_returns_inversion in H as (tech & q & Ht & H).
  destruct (getTransmitterTechnology_returns name p) as (tech' & q' & Hrun & Hfield & _).
  rewrite Hrun in Ht. inversion Ht; subst tech' q'.
  pose proof (getTransmitterTechnology_keeps_interface name p) as Hk.
  rewrite Hrun in Hk. cbn [snd] in Hk.
  destruct (portTypeLookup speed tech) eqn:Hl; inversion H; subst. auto.
Qed.

Lemma getDesiredPortSpeed_reads_only swPort : quiet is_hw_write (getDesiredPortSpeed swPort).
Proof. unfold_port_code. quiet_tac. Qed.

Lemma getDesiredInterfaceMode_reads_only speed id name :
  quiet is_hw_write (getDesiredInterfaceMode speed id name).
Proof. unfold_port_code. quiet_tac. Qed.

Lemma setInterfaceMode_returns_inv swPort p u p' :
  setInterfaceMode swPort p = (Returns u, p') ->
  exists mode d,
    portTypeLookup (desiredSpeedOf swPort p) (transmitterTechnology_ p') = Some mode /\
    hw_interface p' = mode /\
    calls p' = calls p ++ d ++ opennsl_port_interface_get ::
                 (if bool_decide (hw_interface p = mode) && isPortUp swPort then []
                  else [opennsl_port_interface_set mode]) /\
    Forall (fun c => is_hw_write c = false) d.
Proof.
  unfold setInterfaceMode. intros H.
  apply bind_returns_inversion in H as (ds & p1 & H1 & H).
  apply bind_returns_inversion in H as (mode & p2 & H2 & H).
  apply bind_returns_inversion in H as (u3 & p3 & H3 & H).
  apply checked_returns_inv in H3 as ->.
  pose proof (getDesiredPortSpeed_returns_inv _ _ _ _ H1) as ->.
  destruct (getDesiredInterfaceMode_returns_inv _ _ _ _ _ _ H2) as [Hlookup Hif2].
  destruct (emits_apply _ _ _ _ _ (getDesiredPortSpeed_reads_only swPort) H1)
    as (d1 & Hd1 & Hq1).
  destruct (emits_apply _ _ _ _ _ (getDesiredInterfaceMode_reads_only _ _ _) H2)
    as (d2 & Hd2 & Hq2).
  pose proof (getDesiredPortSpeed_keeps_speed_max swPort p) as Hmax. rewrite H1 in Hmax.
  assert (Hif1 : hw_interface p1 = hw_interface p).
  { assert (Hk : keeps hw_interface (getDesiredPortSpeed swPort))
      by (unfold getDesiredPortSpeed; keeps_tac).
    specialize (Hk p). by rewrite H1 in Hk. }
  cbv [bindM getM] in H. cbn [sdk_effect hw_interface log_call] in H.
  exists mode, (d1 ++ d2). rewrite Forall_app.
  destruct (bool_decide (hw_interface p2 = mode)) eqn:Hcur.
  - apply bool_decide_eq_true in Hcur.
    destruct (isPortUp swPort); cbn [negb orb] in H.
    + inversion H; subst p'. cbn.
      rewrite bool_decide_true by congruence. cbn.
      split; [exact Hlookup|]. split; [exact Hcur|].
      split; [rewrite Hd2, Hd1, <- !app_assoc; reflexivity | auto].
    + apply checked_returns_inv in H as ->. cbn.
      rewrite andb_false_r.
      split; [exact Hlookup|]. split; [reflexivity|].
      split; [rewrite Hd2, Hd1, <- !app_assoc; reflexivity | auto].
  - apply bool_decide_eq_false in Hcur. cbn [negb orb] in H.
    apply checked_returns_inv in H as ->. cbn.
    rewrite bool_decide_false by congruence. cbn.
    split; [exact Hlookup|]. split; [reflexivity|].
    split; [rewrite Hd2, Hd1, <- !app_assoc; reflexivity | auto].
Qed.

(** X11. A [setInterfaceMode] that returns has resolved the desired mode:
    the one the table registers for the desired speed and the transmitter
    technology the port has on record afterwards.  Before the interface
    read it issued reads only, and the read is followed by one write of
    the desired mode exactly when the mode read differs from it or the
    switch-state port is not up; an up port whose mode is right is not
    written.  No speed is written. *)
Theorem setInterfaceMode_writes_registered_mode :
  forall (swPort : Port) (p p' : BcmPort),
    setInterfaceMode swPort p = (Returns tt, p') ->
    exists mode d,
      portTypeLookup (desiredSpeedOf swPort p) (transmitterTechnology_ p') = Some mode /\
      calls p' = calls p ++ d ++ opennsl_port_interface_get ::
                   (if bool_decide (hw_interface p = mode) && isPortUp swPort then []
                    else [opennsl_port_interface_set mode]) /\
      Forall (fun c => is_hw_write c = false) d /\
      hw_speed p' = hw_speed p.
Proof.
  intros swPort p p' Hrun.
  destruct (setInterfaceMode_returns_inv swPort p tt p' Hrun)
    as (mode & d & Hlookup & Hmode & Hcalls & Hreads).
  exists mode, d. repeat (split; [assumption|]).
  pose proof (setInterfaceMode_keeps_speed swPort p) as Hk. by rewrite Hrun in Hk.
Qed.

Lemma getSpeed_no_speed_set : quiet is_speed_set getSpeed.
Proof. unfold getSpeed. quiet_tac. Qed.

Lemma getDesiredPortSpeed_no_speed_set swPort : quiet is_speed_set (getDesiredPortSpeed swPort).
Proof. unfold getDesiredPortSpeed. quiet_tac. Qed.

Lemma setSpeed_returns_inv swPort p u p' :
  setSpeed swPort p = (Returns u, p') ->
  hw_speed p' = desiredSpeedOf swPort p /\
  (isPortUp swPort = false \/ hw_speed p <> desiredSpeedOf swPort p ->
   exists mode d,
     portTypeLookup (desiredSpeedOf swPort p) (transmitterTechnology_ p') = Some mode /\
     hw_interface p' = mode /\
     calls p' = calls p ++ d ++
                  (if bool_decide (hw_interface p = mode) && isPortUp swPort then []
                   else [opennsl_port_interface_set mode]) ++
                  [opennsl_port_speed_set (desiredSpeedOf swPort p);
                   linkSpeedChanged (desiredSpeedOf swPort p)] /\
     Forall (fun c => is_hw_write c = false) d).
Proof.
  unfold setSpeed. intros H.
  apply bind_returns_inversion in H as (ds & p1 & H1 & H).
  apply bind_returns_inversion in H as (cur & p2 & H2 & H).
  pose proof (getDesiredPortSpeed_returns_inv _ _ _ _ H1) as ->.
  destruct (getSpeed_returns_inv _ _ _ H2) as [-> ->].
  destruct (emits_apply _ _ _ _ _ (getDesiredPortSpeed_reads_only swPort) H1)
    as (d1 & Hd1 & Hq1).
  pose proof (getDesiredPortSpeed_keeps_speed_max swPort p) as Hmax. rewrite H1 in Hmax.
  pose proof (getDesiredPortSpeed_keeps_speed swPort p) as Hsp. rewrite H1 in Hsp.
  assert (Hif1 : hw_interface p1 = hw_interface p).
  { assert (Hk : keeps hw_interface (getDesiredPortSpeed swPort))
      by (unfold getDesiredPortSpeed; keeps_tac).
    specialize (Hk p). by rewrite H1 in Hk. }
  cbn [snd] in Hmax, Hsp. cbv zeta in H.
  destruct (negb (isPortUp swPort) || negb (hw_speed p1 =? desiredSpeedOf swPort p)) eqn:Hcond.
  - apply bind_returns_inversion in H as (u3 & p3 & H3 & H).
    apply bind_returns_inversion in H as (u4 & p4 & H4 & H).
    apply checked_returns_inv in H4 as ->.
    cbv [modifyM] in H. inversion H; subst p'. clear H.
    destruct (setInterfaceMode_returns_inv _ _ _ _ H3)
      as (mode & d3 & Hlookup & Hmode & Hcalls3 & Hq3).
    cbn [sdk_effect log_call hw_speed hw_interface transmitterTechnology_ calls
         hw_speed_max] in *.
    assert (Hds : desiredSpeedOf swPort (log_call opennsl_port_speed_get p1)
                  = desiredSpeedOf swPort p).
    { unfold desiredSpeedOf. cbn. by rewrite Hmax. }
    rewrite Hds in Hlookup.
    split; [reflexivity|]. intros _.
    exists mode, (d1 ++ [opennsl_port_speed_get] ++ d3 ++ [opennsl_port_interface_get]).
    split; [exact Hlookup|]. split; [exact Hmode|]. split.
    + rewrite Hcalls3, Hd1, Hif1. rewrite <- !app_assoc. cbn [app]. reflexivity.
    + rewrite !Forall_app. repeat split; auto; by repeat constructor.
  - inversion H; subst p'. clear H. cbn [log_call hw_speed].
    apply orb_false_elim in Hcond as [Hup Hsame].
    apply negb_false_iff in Hup, Hsame. apply Z.eqb_eq in Hsame.
    split; [congruence|]. intros [Hdown | Hdiff]; [congruence|].
    exfalso. apply Hdiff. congruence.
Qed.

(** X12. When [setSpeed] returns, the hardware runs at the desired speed.
    Whenever it had to act, because the switch-state port is not up or
    the speed read differs from the desired one, its calls end with the
    write of the desired speed and the notification of the platform port,
    preceded by the write of the interface mode registered for the
    desired speed and the port's technology if the mode read differs from
    it or the port is not up; everything before is reads.  On a port that
    is not up the mode is therefore always written, immediately before
    the speed. *)
Theorem setSpeed_reaches_desired_speed :
  forall (swPort : Port) (p p' : BcmPort),
    setSpeed swPort p = (Returns tt, p') ->
    let ds := desiredSpeedOf swPort p in
    hw_speed p' = ds /\
    hw_speed_max p' = hw_speed_max p /\
    (isPortUp swPort = false \/ hw_speed p <> ds ->
     exists mode d,
       portTypeLookup ds (transmitterTechnology_ p') = Some mode /\
       calls p' = calls p ++ d ++
                    (if bool_decide (hw_interface p = mode) && isPortUp swPort then []
                     else [opennsl_port_interface_set mode]) ++
                    [opennsl_port_speed_set ds; linkSpeedChanged ds] /\
       Forall (fun c => is_hw_write c = false) d) /\
    (isPortUp swPort = false ->
     exists mode d,
       portTypeLookup ds (transmitterTechnology_ p') = Some mode /\
       calls p' = calls p ++ d ++
                    [opennsl_port_interface_set mode;
                     opennsl_port_speed_set ds; linkSpeedChanged ds] /\
       Forall (fun c => is_hw_write c = false) d).
Proof.
  intros swPort p p' Hrun. cbv zeta.
  destruct (setSpeed_returns_inv swPort p tt p' Hrun) as [Hspeed Hacted].
  split; [exact Hspeed|]. split; [|split].
  - pose proof (setSpeed_keeps_speed_max swPort p) as Hk. by rewrite Hrun in Hk.
  - intros Hcase.
    destruct (Hacted Hcase) as (mode & d & Hlookup & _ & Hcalls & Hq).
    by exists mode, d.
  - intros Hdown.
    destruct (Hacted (or_introl Hdown)) as (mode & d & Hlookup & _ & Hcalls & Hq).
    exists mode, d. rewrite Hdown, andb_false_r in Hcalls.
    split; [exact Hlookup|]. split; [exact Hcalls | exact Hq].
Qed.

(** *** The order of [program] *)

Definition is_ingress_vlan_call (c : SdkCall) : bool :=
  match c with
  | opennsl_port_untagged_vlan_get | opennsl_port_untagged_vlan_set _ => true
  | _ => false
  end.

(** The calls of [setSpeed] and of what it calls. *)
Definition is_speed_call (c : SdkCall) : bool :=
  match c with
  | opennsl_port_speed_get | opennsl_port_speed_max | opennsl_port_speed_set _
  | opennsl_port_interface_get | opennsl_port_interface_set _
  | linkSpeedChanged _ | getTransmitterTech => true
  | _ => false
  end.

Definition not_ingress_vlan_call (c : SdkCall) : bool := negb (is_ingress_vlan_call c).
Definition not_speed_call (c : SdkCall) : bool := negb (is_speed_call c).

(** The path [program] does not take: [setSpeed] and [setFEC] when the
    platform uses the port-resource API, [setPortResource] otherwise. *)
Definition off_path (c : SdkCall) : bool :=
  if shouldUsePortResourceAPIs
  then is_speed_call c || bool_decide (c = member setFEC)
  else bool_decide (c = member setPortResource).

Lemma setIngressVlan_vlan_calls swPort : quiet not_ingress_vlan_call (setIngressVlan swPort).
Proof. unfold_port_code. quiet_tac. Qed.

Lemma setSpeed_speed_calls swPort : quiet not_speed_call (setSpeed swPort).
Proof. unfold_port_code. quiet_tac. Qed.

Lemma negb_class_true (f : SdkCall -> bool) (d : list SdkCall) :
  Forall (fun c => negb (f c) = false) d -> Forall (fun c => f c = true) d.
Proof. intros Hd. eapply Forall_impl; [exact Hd|]. intros c Hc. by apply negb_false_iff in Hc. Qed.

Lemma setIngressVlan_keeps_mirrors swPort d : keeps (mirror_of d) (setIngressVlan swPort).
Proof. unfold_port_code. destruct d; keeps_tac. Qed.

Lemma setSpeed_keeps_mirrors swPort d : keeps (mirror_of d) (setSpeed swPort).
Proof. unfold_port_code. destruct d; keeps_tac. Qed.

Lemma updateMirror_returns_inv new d p u p' :
  updateMirror new d p = (Returns u, p') ->
  calls p' = calls p ++ mirror_calls (mirror_of d p) STOP d ++ mirror_calls new START d /\
  mirror_of d p' = new /\
  (forall d', d' <> d -> mirror_of d' p' = mirror_of d' p).
Proof.
  pose proof (updateMirror_unfold new d p) as Hrun. cbv zeta in Hrun. rewrite Hrun.
  destruct (mirror_known (mirror_of d p)) eqn:Hold; [|discriminate].
  rewrite applyMirrorAction_unfold.
  destruct (mirror_known new) eqn:Hnew; [|discriminate].
  intros H. inversion H; subst p'. clear H.
  rewrite applyMirrorAction_unfold, Hold. cbn [snd calls].
  rewrite calls_set_mirror. cbn [calls]. rewrite <- app_assoc.
  split; [reflexivity|]. destruct d; (split; [reflexivity|]); intros []; done.
Qed.

Lemma program_off_path port : quiet off_path (program port).
Proof.
  unfold program, off_path. destruct shouldUsePortResourceAPIs.
  - unfold_port_code. quiet_tac.
  - unfold_port_code. quiet_tac.
Qed.

Lemma program_returns_order (port : Port) (p p' : BcmPort) (u : unit) :
  program port p = (Returns u, p') ->
  exists dV dS,
    calls p' = calls p ++ dV ++ dS
                 ++ mirror_calls (ingressMirror_ p) STOP INGRESS
                 ++ mirror_calls (getIngressMirror port) START INGRESS
                 ++ mirror_calls (egressMirror_ p) STOP EGRESS
                 ++ mirror_calls (getEgressMirror port) START EGRESS
                 ++ [member setPause; member setTxSetting;
                     member setSflowRates; member setLoopbackMode] /\
    Forall (fun c => is_ingress_vlan_call c = true) dV /\
    (if shouldUsePortResourceAPIs
     then dS = [member setPortResource]
     else exists d, dS = d ++ [member setFEC] /\ Forall (fun c => is_speed_call c = true) d) /\
    ingressMirror_ p' = getIngressMirror port /\
    egressMirror_ p' = getEgressMirror port.
Proof.
  unfold program. intros Hrun.
  apply bind_returns_inversion in Hrun as (u1 & p1 & H1 & Hrun).
  apply bind_returns_inversion in Hrun as (u2 & p2 & H2 & Hrun).
  apply bind_returns_inversion in Hrun as (u3 & p3 & H3 & Hrun).
  apply bind_returns_inversion in Hrun as (u4 & p4 & H4 & Hrun).
  apply bind_returns_inversion in Hrun as (u5 & p5 & H5 & Hrun).
  apply bind_returns_inversion in Hrun as (u6 & p6 & H6 & Hrun).
  apply bind_returns_inversion in Hrun as (u7 & p7 & H7 & Hrun).
  apply checked_returns_inv in H5 as ->, H6 as ->, H7 as ->, Hrun as ->.
  destruct (emits_apply _ _ _ _ _ (setIngressVlan_vlan_calls port) H1) as (dV & HdV & HV).
  apply negb_class_true in HV.
  pose proof (setIngressVlan_keeps_mirrors port INGRESS p) as HmI1.
  pose proof (setIngressVlan_keeps_mirrors port EGRESS p) as HmE1.
  rewrite H1 in HmI1, HmE1. cbn [snd mirror_of] in HmI1, HmE1.
  assert (Hspeed : exists dS,
            calls p2 = calls p1 ++ dS /\
            (if shouldUsePortResourceAPIs
             then dS = [member setPortResource]
             else exists d, dS = d ++ [member setFEC] /\
                            Forall (fun c => is_speed_call c = true) d) /\
            ingressMirror_ p2 = ingressMirror_ p1 /\ egressMirror_ p2 = egressMirror_ p1).
  { destruct shouldUsePortResourceAPIs.
    - apply checked_returns_inv in H2 as ->. exists [member setPortResource]. by repeat split.
    - apply bind_returns_inversion in H2 as (v & q & Hs & Hf).
      apply checked_returns_inv in Hf as ->.
      destruct (emits_apply _ _ _ _ _ (setSpeed_speed_calls port) Hs) as (d & Hd & Hq).
      apply negb_class_true in Hq.
      pose proof (setSpeed_keeps_mirrors port INGRESS p1) as HmI.
      pose proof (setSpeed_keeps_mirrors port EGRESS p1) as HmE.
      rewrite Hs in HmI, HmE. cbn [snd mirror_of] in HmI, HmE.
      exists (d ++ [member setFEC]). cbn [sdk_effect log_call calls ingressMirror_ egressMirror_].
      rewrite Hd, <- app_assoc. split; [reflexivity|]. split; [eauto|]. by split. }
  destruct Hspeed as (dS & HdS & HS & HmI2 & HmE2).
  destruct (updateMirror_returns_inv _ _ _ _ _ H3) as (Hc3 & Hi3 & Ho3).
  destruct (updateMirror_returns_inv _ _ _ _ _ H4) as (Hc4 & He4 & Ho4).
  specialize (Ho3 EGRESS ltac:(discriminate)). specialize (Ho4 INGRESS ltac:(discriminate)).
  cbn [mirror_of] in *.
  exists dV, dS. split; [|split; [exact HV|split; [exact HS|]]].
  - cbn [sdk_effect log_call calls].
    rewrite Hc4, Hc3, Ho3, HmE2, HmE1, HmI2, HmI1, HdS, HdV.
    rewrite <- !app_assoc. reflexivity.
  - cbn [sdk_effect log_call ingressMirror_ egressMirror_]. split; congruence.
Qed.

(** X13. [program] works in the order of the source.  A run that returns
    has issued: the calls of the ingress VLAN step; then either the
    port-resource member alone or the calls of [setSpeed] followed by the
    FEC member, depending on the platform; then, for the ingress and after
    it the egress direction, the STOP of the session bound so far and the
    START of the configured one; then pause, TX setting, sFlow rates and
    loopback mode.  Both mirror bindings are the configured ones
    afterwards.  Whatever the outcome, a platform that uses the
    port-resource API never sees a call of the speed path or the FEC
    member, and any other platform never sees the port-resource member. *)
Theorem program_runs_in_source_order :
  forall (port : Port) (p : BcmPort),
    (exists d, calls (snd (program port p)) = calls p ++ d /\
               Forall (fun c => off_path c = false) d) /\
    (forall p', program port p = (Returns tt, p') ->
     exists dV dS,
       calls p' = calls p ++ dV ++ dS
                    ++ mirror_calls (ingressMirror_ p) STOP INGRESS
                    ++ mirror_calls (getIngressMirror port) START INGRESS
                    ++ mirror_calls (egressMirror_ p) STOP EGRESS
                    ++ mirror_calls (getEgressMirror port) START EGRESS
                    ++ [member setPause; member setTxSetting;
                        member setSflowRates; member setLoopbackMode] /\
       Forall (fun c => is_ingress_vlan_call c = true) dV /\
       (if shouldUsePortResourceAPIs
        then dS = [member setPortResource]
        else exists d, dS = d ++ [member setFEC] /\
                       Forall (fun c => is_speed_call c = true) d) /\
       ingressMirror_ p' = getIngressMirror port /\
       egressMirror_ p' = getEgressMirror port).
Proof.
  intros port p. split.
  - apply program_off_path.
  - intros p'. apply program_returns_order.
Qed.

(** *** Tearing the port down *)

Lemma attach_step_other_direction d d' acc n a :
  d' <> d -> attach_step d acc (applyPortMirrorAction n a d') = acc.
Proof. intros Hd. unfold attach_step. by rewrite decide_False. Qed.

Lemma attached_other_direction d d' base name a :
  d' <> d -> attached d (base ++ mirror_calls name a d') = attached d base.
Proof.
  intros Hd. rewrite attached_app. destruct name as [n|]; cbn [mirror_calls fold_left];
    [by apply attach_step_other_direction | reflexivity].
Qed.

Lemma attached_after_stop d base name :
  attached d base = option_list name ->
  attached d (base ++ mirror_calls name STOP d) = [].
Proof.
  intros Hatt. rewrite attached_app, Hatt.
  destruct name as [n|]; cbn [mirror_calls fold_left option_list];
    [apply attach_stop_bound | reflexivity].
Qed.

Lemma destroy_unfold p :
  destroy p =
  if mirror_known (ingressMirror_ p)
  then applyMirrorAction (egressMirror_ p) STOP EGRESS
         (snd (applyMirrorAction (ingressMirror_ p) STOP INGRESS p))
  else (Fatal "CHECK(bcmMirror != nullptr)", p).
Proof.
  unfold destroy, bindM, getM. rewrite applyMirrorAction_unfold.
  destruct (mirror_known (ingressMirror_ p)); reflexivity.
Qed.

(** X14. The destructor stops the sessions of both directions, ingress
    first: with both sessions in the mirror table it returns after the
    STOP of the ingress session (if one is bound) followed by the STOP of
    the egress session (if one is bound), and issues no START.  If the
    attachments on record matched the bindings, no direction is attached
    to a session afterwards.  A bound session that is missing from the
    mirror table trips the check; for the ingress session that happens
    before any call. *)
Theorem destroy_stops_both_mirrors :
  forall (p : BcmPort),
    let dI := mirror_calls (ingressMirror_ p) STOP INGRESS in
    let dE := mirror_calls (egressMirror_ p) STOP EGRESS in
    (mirror_known (ingressMirror_ p) = false ->
     destroy p = (Fatal "CHECK(bcmMirror != nullptr)", p)) /\
    (mirror_known (ingressMirror_ p) = true -> mirror_known (egressMirror_ p) = false ->
     fst (destroy p) = Fatal "CHECK(bcmMirror != nullptr)" /\
     calls (snd (destroy p)) = calls p ++ dI) /\
    (mirror_known (ingressMirror_ p) = true -> mirror_known (egressMirror_ p) = true ->
     fst (destroy p) = Returns tt /\
     calls (snd (destroy p)) = calls p ++ dI ++ dE /\
     (attached INGRESS (calls p) = option_list (ingressMirror_ p) ->
      attached INGRESS (calls (snd (destroy p))) = []) /\
     (attached EGRESS (calls p) = option_list (egressMirror_ p) ->
      attached EGRESS (calls (snd (destroy p))) = [])).
Proof.
  intros p. cbv zeta. rewrite destroy_unfold.
  split; [intros ->; reflexivity|]. split.
  - intros HI HE. rewrite HI, applyMirrorAction_unfold.
    rewrite applyMirrorAction_unfold, HI. cbn [snd egressMirror_]. rewrite HE.
    split; reflexivity.
  - intros HI HE. rewrite HI, applyMirrorAction_unfold.
    rewrite applyMirrorAction_unfold, HI. cbn [snd egressMirror_ calls]. rewrite HE.
    cbn [fst snd calls]. rewrite <- app_assoc.
    split; [reflexivity|]. split; [reflexivity|]. split.
    + intros Hatt. rewrite app_assoc, attached_other_direction by discriminate.
      by apply attached_after_stop.
    + intros Hatt. rewrite app_assoc. apply attached_after_stop.
      by rewrite attached_other_direction by discriminate.
Qed.

(** *** Disabling, and where the admin state is written *)

Definition vlan_remove_call (entry : VlanID * bool) : SdkCall :=
  opennsl_vlan_port_remove (fst entry).

Definition is_enable_set (c : SdkCall) : bool :=
  match c with opennsl_port_enable_set _ => true | _ => false end.

(** The calls [disable] may issue. *)
Definition is_disable_call (c : SdkCall) : bool :=
  match c with
  | opennsl_port_enable_get | opennsl_vlan_port_remove _
  | opennsl_port_stat_enable_set false | member disableSflow
  | opennsl_port_enable_set false => true
  | _ => false
  end.

Definition not_disable_call (c : SdkCall) : bool := negb (is_disable_call c).

Lemma disable_calls swPort : quiet not_disable_call (disable swPort).
Proof. unfold disable. unfold_port_code. quiet_tac. Qed.

Lemma disable_already_disabled (swPort : Port) (p : BcmPort) :
  hw_enabled p = false ->
  snd (disable swPort p) = log_call opennsl_port_enable_get p /\
  (sdkRv (length (calls p)) opennsl_port_enable_get = OPENNSL_E_NONE ->
   fst (disable swPort p) = Returns tt).
Proof.
  intros Hen. unfold disable, bindM. rewrite isEnabled_unfold.
  case_decide; rewrite ?Hen; cbn; auto. split; [reflexivity | intros; congruence].
Qed.

Lemma disable_returns_inv (swPort : Port) (p p' : BcmPort) (u : unit) :
  hw_enabled p = true ->
  disable swPort p = (Returns u, p') ->
  calls p' = calls p ++ [opennsl_port_enable_get]
               ++ map vlan_remove_call (getVlans swPort)
               ++ [opennsl_port_stat_enable_set false; member disableSflow;
                   opennsl_port_enable_set false] /\
  hw_enabled p' = false.
Proof.
  intros Hen Hrun. unfold disable in Hrun.
  apply bind_returns_inversion in Hrun as (en & p1 & H1 & Hrun).
  rewrite isEnabled_unfold in H1.
  destruct (decide (sdkRv (length (calls p)) opennsl_port_enable_get = OPENNSL_E_NONE));
    [|discriminate].
  inversion H1; subst en p1; clear H1. rewrite Hen in Hrun. cbn [negb] in Hrun.
  apply bind_returns_inversion in Hrun as (u2 & p2 & H2 & Hrun).
  apply bind_returns_inversion in Hrun as (u3 & p3 & H3 & Hrun).
  apply bind_returns_inversion in Hrun as (u4 & p4 & H4 & Hrun).
  apply (forM_checked_returns vlan_remove_call) in H2.
  apply checked_returns_inv in H3 as ->, H4 as ->, Hrun as ->.
  split; [|reflexivity].
  cbn [sdk_effect log_call calls]. rewrite H2. cbn [log_call calls].
  rewrite <- !app_assoc. reflexivity.
Qed.

(** [admin_write_last target m]: [m] writes the admin state at most once,
    to [target], as its last call, and then either returns or throws the
    error of that very write. *)
Definition admin_write_last (target : bool) (m : Op unit) : Prop :=
  forall p, exists d,
    Forall (fun c => is_enable_set c = false) d /\
    (calls (snd (m p)) = calls p ++ d \/
     calls (snd (m p)) = calls p ++ d ++ [opennsl_port_enable_set target] /\
     (fst (m p) = Returns tt \/
      exists rv, fst (m p) = Throws (BcmError rv (opennsl_port_enable_set target)))).

Lemma admin_write_last_quiet (target : bool) (m : Op unit) :
  quiet is_enable_set m -> admin_write_last target m.
Proof. intros Hm p. destruct (Hm p) as (d & Hd & Hq). eauto. Qed.

Lemma admin_write_last_bind {A} (target : bool) (m : Op A) (k : A -> Op unit) :
  quiet is_enable_set m -> (forall a, admin_write_last target (k a)) ->
  admin_write_last target (bindM m k).
Proof.
  intros Hm Hk p. unfold bindM. destruct (Hm p) as (d1 & Hd1 & Hq1).
  destruct (m p) as [[a|e|msg] p1]; cbn [snd] in Hd1; [|by eauto|by eauto].
  destruct (Hk a p1) as (d2 & Hq2 & Hcase).
  exists (d1 ++ d2). rewrite Forall_app. split; [by split|].
  rewrite Hd1 in Hcase. destruct Hcase as [Hc|[Hc Hout]]; [left|right; split; [|exact Hout]];
    rewrite Hc, <- ?app_assoc; reflexivity.
Qed.

Lemma admin_write_last_checked (target : bool) :
  admin_write_last target (checked (opennsl_port_enable_set target)).
Proof.
  intros p. exists []. split; [constructor|]. right.
  rewrite checked_unfold. case_decide; cbn; split; eauto.
  all: by destruct target.
Qed.

Lemma program_no_enable_set port : quiet is_enable_set (program port).
Proof. unfold program. unfold_port_code. quiet_tac. Qed.

Lemma enable_admin_write_last swPort : admin_write_last true (enable swPort).
Proof.
  unfold enable.
  apply admin_write_last_bind; [unfold_port_code; quiet_tac|]. intros [|].
  { apply admin_write_last_quiet. quiet_tac. }
  apply admin_write_last_bind; [quiet_tac|]. intros _.
  apply admin_write_last_bind; [quiet_tac|]. intros _.
  apply admin_write_last_bind; [apply program_no_enable_set|]. intros _.
  apply admin_write_last_bind; [quiet_tac|]. intros rv.
  apply admin_write_last_bind; [quiet_tac|]. intros _.
  apply admin_write_last_checked.
Qed.

Lemma disable_admin_write_last swPort : admin_write_last false (disable swPort).
Proof.
  unfold disable.
  apply admin_write_last_bind; [unfold_port_code; quiet_tac|]. intros [|]; cbn [negb].
  2: { apply admin_write_last_quiet. quiet_tac. }
  apply admin_write_last_bind; [quiet_tac|]. intros _.
  apply admin_write_last_bind; [quiet_tac|]. intros _.
  apply admin_write_last_bind; [quiet_tac|]. intros _.
  apply admin_write_last_checked.
Qed.

(** X16. [enable] and [disable] write the admin state last.  Each issues
    the admin write at most once, admin-up for [enable] and admin-down
    for [disable], and only as the last call of the run: every step
    before it has succeeded by then, and the run then either returns or
    throws the error of that very write.  A run that failed earlier has
    not written the admin state at all. *)
Theorem admin_state_is_written_last :
  forall (swPort : Port) (p : BcmPort),
    (exists d,
       Forall (fun c => is_enable_set c = false) d /\
       (calls (snd (enable swPort p)) = calls p ++ d \/
        calls (snd (enable swPort p)) = calls p ++ d ++ [opennsl_port_enable_set true] /\
        (fst (enable swPort p) = Returns tt \/
         exists rv, fst (enable swPort p)
                    = Throws (BcmError rv (opennsl_port_enable_set true))))) /\
    (exists d,
       Forall (fun c => is_enable_set c = false) d /\
       (calls (snd (disable swPort p)) = calls p ++ d \/
        calls (snd (disable swPort p)) = calls p ++ d ++ [opennsl_port_enable_set false] /\
        (fst (disable swPort p) = Returns tt \/
         exists rv, fst (disable swPort p)
                    = Throws (BcmError rv (opennsl_port_enable_set false))))).
Proof.
  intros swPort p. split.
  - apply enable_admin_write_last.
  - apply disable_admin_write_last.
Qed.

(** *** When the SDK accepts every call *)

Section Accepted.

Hypothesis sdk_accepts : forall n c, sdkRv n c = OPENNSL_E_NONE.

(** What programming the attributes never changes: the maximal speed and
    the two mirror bindings. *)
Definition same_config (p p' : BcmPort) : Prop :=
  hw_speed_max p' = hw_speed_max p /\
  ingressMirror_ p' = ingressMirror_ p /\
  egressMirror_ p' = egressMirror_ p.

Lemma same_config_refl p : same_config p p.
Proof. by repeat split. Qed.

Lemma same_config_trans p1 p2 p3 :
  same_config p1 p2 -> same_config p2 p3 -> same_config p1 p3.
Proof. intros (? & ? & ?) (? & ? & ?). repeat split; congruence. Qed.

Lemma bind_returns {A B} (m : Op A) (k : A -> Op B) p a p1 :
  m p = (Returns a, p1) -> bindM m k p = k a p1.
Proof. intros Hm. unfold bindM. by rewrite Hm. Qed.

Lemma checked_accepted c p :
  checked c p = (Returns tt, sdk_effect c (log_call c p)) /\
  same_config p (sdk_effect c (log_call c p)).
Proof using sdk_accepts.
  rewrite checked_unfold, decide_True by apply sdk_accepts.
  split; [reflexivity|]. destruct c; by repeat split.
Qed.

Lemma forM_checked_accepted {A} (g : A -> SdkCall) (xs : list A) p :
  exists p', forM xs (fun x => checked (g x)) p = (Returns tt, p') /\ same_config p p'.
Proof using sdk_accepts.
  revert p. induction xs as [|x xs IH]; intros p; cbn [forM].
  - exists p. split; [reflexivity | apply same_config_refl].
  - destruct (checked_accepted (g x) p) as [Hx Fx].
    rewrite (bind_returns _ _ _ _ _ Hx).
    destruct (IH (sdk_effect (g x) (log_call (g x) p))) as (p' & Hrest & Frest).
    exists p'. split; [exact Hrest | by eapply same_config_trans].
Qed.

Lemma setIngressVlan_accepted swPort p :
  exists p', setIngressVlan swPort p = (Returns tt, p') /\ same_config p p'.
Proof using sdk_accepts.
  unfold setIngressVlan.
  destruct (checked_accepted opennsl_port_untagged_vlan_get p) as [Hget Fget].
  rewrite (bind_returns _ _ _ _ _ Hget). unfold bindM at 1, getM at 1. cbv beta iota.
  destruct (negb _).
  - destruct (checked_accepted (opennsl_port_untagged_vlan_set (getIngressVlan swPort))
                (sdk_effect opennsl_port_untagged_vlan_get
                   (log_call opennsl_port_untagged_vlan_get p))) as [Hset Fset].
    eexists. split; [exact Hset | by eapply same_config_trans].
  - eexists. split; [reflexivity | exact Fget].
Qed.

Lemma getDesiredPortSpeed_accepted swPort p :
  exists p', getDesiredPortSpeed swPort p = (Returns (desiredSpeedOf swPort p), p') /\
             same_config p p'.
Proof using sdk_accepts.
  unfold getDesiredPortSpeed, desiredSpeedOf.
  destruct (Cfg.getSpeed swPort =? DEFAULT).
  - destruct (checked_accepted opennsl_port_speed_max p) as [Hmax Fmax].
    rewrite (bind_returns _ _ _ _ _ Hmax).
    eexists. split; [reflexivity | exact Fmax].
  - exists p. split; [reflexivity | apply same_config_refl].
Qed.

Lemma getTransmitterTechnology_keeps_config name p :
  exists tech p',
    getTransmitterTechnology name p = (Returns tech, p') /\ same_config p p'.
Proof.
  unfold getTransmitterTechnology, bindM, getM.
  destruct (negb (bool_decide (transmitterTechnology_ p = UNKNOWN))); cbn.
  - eexists _, _. split; [reflexivity | apply same_config_refl].
  - destruct (String.prefix "fab" name); cbn;
      eexists _, _; (split; [reflexivity | by repeat split]).
Qed.

Lemma desiredSpeedOf_same_config swPort p p' :
  same_config p p' -> desiredSpeedOf swPort p' = desiredSpeedOf swPort p.
Proof. intros (Hmax & _). unfold desiredSpeedOf. by rewrite Hmax. Qed.

Lemma setInterfaceMode_accepted swPort p :
  (forall tech, is_Some (portTypeLookup (desiredSpeedOf swPort p) tech)) ->
  exists p', setInterfaceMode swPort p = (Returns tt, p') /\ same_config p p'.
Proof using sdk_accepts.
  intros Hmode. unfold setInterfaceMode.
  destruct (getDesiredPortSpeed_accepted swPort p) as (p1 & H1 & F1).
  rewrite (bind_returns _ _ _ _ _ H1).
  unfold getDesiredInterfaceMode.
  destruct (getTransmitterTechnology_keeps_config (getName swPort) p1)
    as (tech & p2 & H2 & F2).
  unfold bindM at 1. unfold bindM at 1. rewrite H2.
  destruct (Hmode tech) as [mode Hlookup]. rewrite Hlookup. cbn [retM].
  destruct (checked_accepted opennsl_port_interface_get p2) as [H3 F3].
  rewrite (bind_returns _ _ _ _ _ H3). unfold bindM at 1, getM at 1. cbv beta iota.
  pose proof (same_config_trans _ _ _ F1 (same_config_trans _ _ _ F2 F3)) as F13.
  destruct (_ || _).
  - destruct (checked_accepted (opennsl_port_interface_set mode)
                (sdk_effect opennsl_port_interface_get
                   (log_call opennsl_port_interface_get p2))) as [H4 F4].
    eexists. split; [exact H4 | by eapply same_config_trans].
  - eexists. split; [reflexivity | exact F13].
Qed.

Lemma setSpeed_accepted swPort p :
  (forall tech, is_Some (portTypeLookup (desiredSpeedOf swPort p) tech)) ->
  exists p', setSpeed swPort p = (Returns tt, p') /\ same_config p p'.
Proof using sdk_accepts.
  intros Hmode. unfold setSpeed.
  destruct (getDesiredPortSpeed_accepted swPort p) as (p1 & H1 & F1).
  rewrite (bind_returns _ _ _ _ _ H1). unfold getSpeed.
  destruct (checked_accepted opennsl_port_speed_get p1) as [H2 F2].
  unfold bindM at 1. rewrite (bind_returns _ _ _ _ _ H2).
  unfold bindM at 1, getM at 1. cbv beta iota. cbn [retM].
  pose proof (same_config_trans _ _ _ F1 F2) as F12.
  destruct (_ || _).
  - destruct (setInterfaceMode_accepted swPort
                (sdk_effect opennsl_port_speed_get (log_call opennsl_port_speed_get p1)))
      as (p3 & H3 & F3).
    { intros tech. rewrite (desiredSpeedOf_same_config swPort p _ F12). apply Hmode. }
    rewrite (bind_returns _ _ _ _ _ H3).
    destruct (checked_accepted (opennsl_port_speed_set (desiredSpeedOf swPort p)) p3)
      as [H4 F4].
    rewrite (bind_returns _ _ _ _ _ H4).
    eexists. split; [reflexivity|].
    eapply same_config_trans; [exact F12|]. eapply same_config_trans; [exact F3|].
    eapply same_config_trans; [exact F4|]. by repeat split.
  - eexists. split; [reflexivity | exact F12].
Qed.

Lemma updateMirror_accepted new d p :
  mirror_known (mirror_of d p) = true -> mirror_known new = true ->
  exists p',
    updateMirror new d p = (Returns tt, p') /\
    hw_speed_max p' = hw_speed_max p /\
    hw_enabled p' = hw_enabled p /\
    mirror_of d p' = new /\
    (forall d', d' <> d -> mirror_of d' p' = mirror_of d' p).
Proof.
  intros Hold Hnew.
  pose proof (updateMirror_unfold new d p) as Hrun. cbv zeta in Hrun.
  rewrite Hold in Hrun. rewrite Hrun.
  rewrite applyMirrorAction_unfold, Hnew.
  eexists. split; [reflexivity|].
  rewrite applyMirrorAction_unfold, Hold. cbn [snd].
  destruct d; repeat split; intros []; done.
Qed.

(** With an SDK that accepts every call, sessions that are in the mirror
    table, and an interface mode registered for the desired speed,
    [enable] returns. *)
Lemma enable_accepted swPort p :
  (shouldUsePortResourceAPIs = false ->
   forall tech, is_Some (portTypeLookup (desiredSpeedOf swPort p) tech)) ->
  mirror_known (ingressMirror_ p) = true ->
  mirror_known (egressMirror_ p) = true ->
  mirror_known (getIngressMirror swPort) = true ->
  mirror_known (getEgressMirror swPort) = true ->
  exists p', enable swPort p = (Returns tt, p').
Proof using sdk_accepts.
  intros Hmode HoldI HoldE HnewI HnewE. unfold enable.
  rewrite (bind_returns isEnabled _ p (hw_enabled p)
             (log_call opennsl_port_enable_get p))
    by (rewrite isEnabled_unfold; by rewrite decide_True by apply sdk_accepts).
  destruct (hw_enabled p); [by eexists|].
  destruct (forM_checked_accepted (fun entry => opennsl_vlan_port_add (fst entry) (negb (snd entry)))
              (getVlans swPort) (log_call opennsl_port_enable_get p)) as (p1 & H1 & F1).
  rewrite (bind_returns _ _ _ _ _ H1).
  destruct (checked_accepted opennsl_port_vlan_member_set p1) as [H2 F2].
  rewrite (bind_returns _ _ _ _ _ H2).
  set (p2 := sdk_effect opennsl_port_vlan_member_set
               (log_call opennsl_port_vlan_member_set p1)) in *.
  assert (F02 : same_config p p2).
  { eapply same_config_trans; [|exact F2]. eapply same_config_trans; [|exact F1].
    by repeat split. }
  (* program *)
  assert (Hprogram : exists p', program swPort p2 = (Returns tt, p')).
  { unfold program.
    destruct (setIngressVlan_accepted swPort p2) as (p3 & H3 & F3).
    rewrite (bind_returns _ _ _ _ _ H3).
    pose proof (same_config_trans _ _ _ F02 F3) as F03.
    assert (Hspeed : exists p4,
               (if shouldUsePortResourceAPIs
                then checked (member setPortResource)
                else bindM (setSpeed swPort) (fun _ => checked (member setFEC))) p3
               = (Returns tt, p4) /\ same_config p p4).
    { destruct shouldUsePortResourceAPIs.
      - destruct (checked_accepted (member setPortResource) p3) as [H4 F4].
        eexists. split; [exact H4 | by eapply same_config_trans].
      - destruct (setSpeed_accepted swPort p3) as (p4 & H4 & F4).
        { intros tech. rewrite (desiredSpeedOf_same_config swPort p _ F03). by apply Hmode. }
        rewrite (bind_returns _ _ _ _ _ H4).
        destruct (checked_accepted (member setFEC) p4) as [H5 F5].
        eexists. split; [exact H5|].
        eapply same_config_trans; [exact F03|]. by eapply same_config_trans. }
    destruct Hspeed as (p4 & H4 & (_ & HmI & HmE)).
    rewrite (bind_returns _ _ _ _ _ H4).
    destruct (updateMirror_accepted (getIngressMirror swPort) INGRESS p4)
      as (p5 & H5 & _ & _ & _ & Hother5); [cbn; by rewrite HmI | exact HnewI |].
    rewrite (bind_returns _ _ _ _ _ H5).
    destruct (updateMirror_accepted (getEgressMirror swPort) EGRESS p5)
      as (p6 & H6 & _); [|exact HnewE|].
    { rewrite (Hother5 EGRESS) by discriminate. cbn. by rewrite HmE. }
    rewrite (bind_returns _ _ _ _ _ H6).
    rewrite (bind_returns _ _ _ _ _ (proj1 (checked_accepted (member setPause) _))).
    rewrite (bind_returns _ _ _ _ _ (proj1 (checked_accepted (member setTxSetting) _))).
    rewrite (bind_returns _ _ _ _ _ (proj1 (checked_accepted (member setSflowRates) _))).
    eexists. exact (proj1 (checked_accepted (member setLoopbackMode) _)). }
  destruct Hprogram as (p7 & H7).
  rewrite (bind_returns _ _ _ _ _ H7).
  unfold bindM at 1. unfold sdk at 1. cbv beta iota zeta.
  rewrite sdk_accepts. rewrite decide_True by done.
  rewrite bool_decide_false by discriminate. cbn [negb].
  unfold bcmCheckError at 1. rewrite decide_True by done.
  unfold bindM at 1. cbn [retM].
  eexists. exact (proj1 (checked_accepted (opennsl_port_enable_set true) _)).
Qed.

Lemma disable_accepted swPort p : exists p', disable swPort p = (Returns tt, p').
Proof using sdk_accepts.
  unfold disable.
  rewrite (bind_returns isEnabled _ p (hw_enabled p)
             (log_call opennsl_port_enable_get p))
    by (rewrite isEnabled_unfold; by rewrite decide_True by apply sdk_accepts).
  destruct (hw_enabled p); cbn [negb]; [|by eexists].
  destruct (forM_checked_accepted (fun entry => opennsl_vlan_port_remove (fst entry))
              (getVlans swPort) (log_call opennsl_port_enable_get p)) as (p1 & H1 & _).
  rewrite (bind_returns _ _ _ _ _ H1).
  rewrite (bind_returns _ _ _ _ _ (proj1 (checked_accepted (opennsl_port_stat_enable_set false) _))).
  rewrite (bind_returns _ _ _ _ _ (proj1 (checked_accepted (member disableSflow) _))).
  eexists. exact (proj1 (checked_accepted (opennsl_port_enable_set false) _)).
Qed.

End Accepted.

(** X15. [disable] undoes [enable] in reverse order.  It reads the admin
    state from the hardware; if the port is already disabled that read is
    the only call.  Otherwise a run that returns has removed the port from
    each of its VLANs, then disabled counter collection, then sFlow
    sampling, and last written admin-down; the port is disabled
    afterwards.  Whatever the outcome, [disable] issues no other kind of
    call: no speed or interface-mode write, no ingress-VLAN write, no
    mirror action.  It returns when the SDK accepts every call, so after
    an [enable] that returned, [disable] takes the port down again. *)
Theorem disable_takes_down_in_reverse_order :
  forall (swPort : Port) (p : BcmPort),
    (exists d, calls (snd (disable swPort p)) = calls p ++ d /\
               Forall (fun c => is_disable_call c = true) d) /\
    (hw_enabled p = false ->
     snd (disable swPort p) = log_call opennsl_port_enable_get p /\
     (sdkRv (length (calls p)) opennsl_port_enable_get = OPENNSL_E_NONE ->
      fst (disable swPort p) = Returns tt)) /\
    (hw_enabled p = true ->
     forall p', disable swPort p = (Returns tt, p') ->
       calls p' = calls p ++ [opennsl_port_enable_get]
                    ++ map vlan_remove_call (getVlans swPort)
                    ++ [opennsl_port_stat_enable_set false; member disableSflow;
                        opennsl_port_enable_set false] /\
       hw_enabled p' = false) /\
    ((forall n c, sdkRv n c = OPENNSL_E_NONE) ->
     (exists p', disable swPort p = (Returns tt, p')) /\
     (forall p1, enable swPort p = (Returns tt, p1) ->
      exists p2, disable swPort p1 = (Returns tt, p2) /\ hw_enabled p2 = false)).
Proof.
  intros swPort p. split; [|split; [|split]].
  - destruct (disable_calls swPort p) as (d & Hd & Hq).
    exists d. split; [exact Hd | by apply negb_class_true].
  - apply disable_already_disabled.
  - intros Hen p' Hrun. by apply (disable_returns_inv swPort p p' tt).
  - intros Hok. split; [by apply disable_accepted|].
    intros p1 Hrun.
    destruct (disable_accepted Hok swPort p1) as (p2 & Hdis).
    exists p2. split; [exact Hdis|].
    pose proof (enable_returns_enabled swPort p p1 tt Hrun) as Hen.
    by destruct (disable_returns_inv swPort p1 p2 tt Hen Hdis).
Qed.

(** C5 (as the code has it). Disruption avoidance: when the switch-state port
    is up ([Port::isPortUp()]: neither down nor disabled) and the
    hardware already runs at the desired speed, [setSpeed] issues no
    hardware write at all, in particular neither the interface-mode write
    nor the speed write, and leaves speed and interface mode as they are.
    A single [enable] issues each of the two disruptive writes at most
    once; after an [enable] that returned, a second [enable] only reads the
    admin state, so both calls together issue each disruptive write at
    most once. *)
Theorem setSpeed_skips_and_enable_twice :
  forall (swPort : Port) (p : BcmPort),
    (isPortUp swPort = true -> hw_speed p = desiredSpeedOf swPort p ->
     exists d,
       calls (snd (setSpeed swPort p)) = calls p ++ d /\
       Forall (fun c => is_hw_write c = false) d /\
       count is_interface_set d = 0%nat /\ count is_speed_set d = 0%nat /\
       hw_speed (snd (setSpeed swPort p)) = hw_speed p /\
       hw_interface (snd (setSpeed swPort p)) = hw_interface p) /\
    (exists d, calls (snd (enable swPort p)) = calls p ++ d /\
               (count is_speed_set d <= 1)%nat) /\
    (exists d, calls (snd (enable swPort p)) = calls p ++ d /\
               (count is_interface_set d <= 1)%nat) /\
    (forall p1, enable swPort p = (Returns tt, p1) ->
     exists d1,
       calls p1 = calls p ++ d1 /\
       calls (snd (enable swPort p1)) = calls p ++ d1 ++ [opennsl_port_enable_get] /\
       (count is_speed_set (d1 ++ [opennsl_port_enable_get]) <= 1)%nat /\
       (count is_interface_set (d1 ++ [opennsl_port_enable_get]) <= 1)%nat).
Proof.
  intros swPort p. split; [|split; [|split]].
  - intros Hup Hspeed.
    destruct (setSpeed_skips_writes swPort p Hup Hspeed) as (d & Hd & Hquiet & Hs & Hi).
    exists d. repeat split; auto.
    + apply count_quiet. eapply Forall_impl; [exact Hquiet|].
      intros c Hc. destruct c; try reflexivity; discriminate.
    + apply count_quiet. eapply Forall_impl; [exact Hquiet|].
      intros c Hc. destruct c; try reflexivity; discriminate.
  - apply enable_at_most_one_speed_set.
  - apply enable_at_most_one_interface_set.
  - intros p1 Hrun.
    destruct (enable_at_most_one_speed_set swPort p) as (d1 & Hd1 & Hs).
    destruct (enable_at_most_one_interface_set swPort p) as (d1' & Hd1' & Hi).
    rewrite Hrun in Hd1, Hd1'. cbn [snd] in Hd1, Hd1'.
    assert (d1' = d1) as -> by (apply (app_inv_head (calls p)); congruence).
    exists d1. split; [exact Hd1|].
    pose proof (enable_returns_enabled swPort p p1 tt Hrun) as Hen.
    destruct (enable_already_enabled swPort p1 Hen) as [Hsnd _].
    rewrite Hsnd. cbn [log_call calls]. rewrite Hd1, <- app_assoc.
    split; [reflexivity|].
    rewrite !count_app.
    rewrite (count_quiet is_speed_set [opennsl_port_enable_get]) by (by repeat constructor).
    rewrite (count_quiet is_interface_set [opennsl_port_enable_get]) by (by repeat constructor).
    split; lia.
Qed.

(** C4 (as the code has it). [enable] reads the admin state from the
    hardware; if the port is already enabled that read is the only call it
    issues.  Otherwise, when it returns, it has issued, in this order: the
    VLAN memberships (one add per VLAN, then the VLAN filter), the
    attribute set programmed by [program], whose last four steps are
    pause, TX setting, sFlow sampling rates and loopback mode, then the
    enabling of counter collection, and last the admin-up write; the port
    is enabled afterwards.  The sampling rate is thus programmed as part
    of the attribute set, before counter collection is enabled.  [enable]
    does return when the SDK accepts every call, the sessions involved
    are in the mirror table and an interface mode is registered for the
    desired speed. *)
Theorem enable_programs_in_order :
  forall (swPort : Port) (p : BcmPort),
    (hw_enabled p = true ->
     snd (enable swPort p) = log_call opennsl_port_enable_get p /\
     (sdkRv (length (calls p)) opennsl_port_enable_get = OPENNSL_E_NONE ->
      fst (enable swPort p) = Returns tt)) /\
    (hw_enabled p = false ->
     forall p', enable swPort p = (Returns tt, p') ->
     exists dA,
       calls p' = calls p ++ [opennsl_port_enable_get]
                    ++ map vlan_add_call (getVlans swPort)
                    ++ [opennsl_port_vlan_member_set]
                    ++ dA
                    ++ [member setPause; member setTxSetting;
                        member setSflowRates; member setLoopbackMode]
                    ++ [opennsl_port_stat_enable_set true; opennsl_port_enable_set true] /\
       Forall (fun c => is_attribute_call c = true) dA /\
       hw_enabled p' = true) /\
    ((forall n c, sdkRv n c = OPENNSL_E_NONE) ->
     (shouldUsePortResourceAPIs = false ->
      forall tech, is_Some (portTypeLookup (desiredSpeedOf swPort p) tech)) ->
     mirror_known (ingressMirror_ p) = true ->
     mirror_known (egressMirror_ p) = true ->
     mirror_known (getIngressMirror swPort) = true ->
     mirror_known (getEgressMirror swPort) = true ->
     exists p', enable swPort p = (Returns tt, p')).
Proof.
  intros swPort p. split; [|split].
  - apply enable_already_enabled.
  - intros Hdis p' Hrun. by apply (enable_returns_inv swPort p p' tt).
  - intros Hok. by apply enable_accepted.
Qed.

End Port.

(** *** Examples *)

Definition allMirrors (name : string) : bool := true.
Definition alwaysOk (n : nat) (c : SdkCall) : rv_t := OPENNSL_E_NONE.
Definition techOptical (n : nat) : TransmitterTechnology := OPTICAL.

(** *** An SDK that reports counter collection as already enabled *)

Section SameRuns.

(** Two SDKs that answer alike except, possibly, when counter collection
    is enabled. *)
Variables (r r' : nat -> SdkCall -> rv_t).
Variable platformTech : nat -> TransmitterTechnology.
Variable mirrorTable : string -> bool.
Variable shouldUsePortResourceAPIs : bool.
Hypothesis agree :
  forall n c, c <> opennsl_port_stat_enable_set true -> r n c = r' n c.

Definition same_run {A} (m m' : Op A) : Prop := forall p, m p = m' p.

Lemma same_run_refl {A} (m : Op A) : same_run m m.
Proof. intros p. reflexivity. Qed.

Lemma same_run_bind {A B} (m m' : Op A) (k k' : A -> Op B) :
  same_run m m' -> (forall a, same_run (k a) (k' a)) -> same_run (bindM m k) (bindM m' k').
Proof.
  intros Hm Hk p. unfold bindM. rewrite (Hm p).
  destruct (m' p) as [[a|e|msg] p1]; [apply Hk | reflexivity | reflexivity].
Qed.

Lemma same_run_forM {A} (xs : list A) (body body' : A -> Op unit) :
  (forall x, same_run (body x) (body' x)) -> same_run (forM xs body) (forM xs body').
Proof.
  intros Hb. induction xs as [|x xs IH]; cbn [forM].
  - apply same_run_refl.
  - apply same_run_bind; auto.
Qed.

Lemma same_run_checked c :
  c <> opennsl_port_stat_enable_set true -> same_run (checked r c) (checked r' c).
Proof using agree.
  intros Hc p. unfold checked, bindM, sdk. by rewrite (agree _ _ Hc).
Qed.

(** Solves [same_run m m'] for two instances of the same code that do
    not enable counter collection. *)
Ltac same_tac :=
  repeat first
    [ apply same_run_refl
    | apply same_run_checked; discriminate
    | apply same_run_bind; [|intros ?]
    | apply same_run_forM; intros ?
    | match goal with
      | |- same_run (if ?c then _ else _) (if ?c then _ else _) => destruct c
      | |- same_run (match ?x with _ => _ end) (match ?x with _ => _ end) => destruct x
      end ].

Lemma program_same_run port :
  same_run (program r platformTech mirrorTable shouldUsePortResourceAPIs port)
           (program r' platformTech mirrorTable shouldUsePortResourceAPIs port).
Proof using agree.
  unfold program, setIngressVlan, setSpeed, setInterfaceMode, getDesiredPortSpeed,
    getDesiredInterfaceMode, getSpeed.
  same_tac.
Qed.

(** The step of [enable] that enables counter collection cannot tell
    "already enabled" from success. *)
Lemma counters_step_same_run (k k' : Op unit) :
  (forall n, r n (opennsl_port_stat_enable_set true) = OPENNSL_E_NONE \/
             r n (opennsl_port_stat_enable_set true) = OPENNSL_E_EXISTS) ->
  (forall n, r' n (opennsl_port_stat_enable_set true) = OPENNSL_E_NONE) ->
  same_run k k' ->
  same_run
    (do rv <- sdk r (opennsl_port_stat_enable_set true);
     run (if negb (bool_decide (rv = OPENNSL_E_EXISTS))
          then bcmCheckError rv (opennsl_port_stat_enable_set true)
          else retM tt);
     k)%cpp
    (do rv <- sdk r' (opennsl_port_stat_enable_set true);
     run (if negb (bool_decide (rv = OPENNSL_E_EXISTS))
          then bcmCheckError rv (opennsl_port_stat_enable_set true)
          else retM tt);
     k')%cpp.
Proof.
  intros Hr Hr' Hk p. unfold bindM, sdk. rewrite Hr'.
  destruct (Hr (length (calls p))) as [-> | ->]; cbn; apply Hk.
Qed.

Lemma enable_same_run swPort :
  (forall n, r n (opennsl_port_stat_enable_set true) = OPENNSL_E_NONE \/
             r n (opennsl_port_stat_enable_set true) = OPENNSL_E_EXISTS) ->
  (forall n, r' n (opennsl_port_stat_enable_set true) = OPENNSL_E_NONE) ->
  same_run (enable r platformTech mirrorTable shouldUsePortResourceAPIs swPort)
           (enable r' platformTech mirrorTable shouldUsePortResourceAPIs swPort).
Proof using agree.
  intros Hr Hr'. unfold enable, isEnabled.
  apply same_run_bind; [same_tac|]. intros [|]; [apply same_run_refl|].
  apply same_run_bind; [same_tac|]. intros _.
  apply same_run_bind; [same_tac|]. intros _.
  apply same_run_bind; [apply program_same_run|]. intros _.
  apply counters_step_same_run; [exact Hr | exact Hr' | same_tac].
Qed.

End SameRuns.

(** X17. [enable] does not take "already exists" from the enabling of
    counter collection for an error.  With an SDK that accepts every
    other call and answers the enabling of counter collection with
    success or with "already exists", [enable] runs exactly as with an
    SDK that accepts everything: it returns, under the same conditions on
    mirror sessions and interface mode, in the same final state, and the
    port is enabled. *)
Theorem enable_tolerates_counters_already_enabled :
  forall (sdkRv : nat -> SdkCall -> rv_t) (platformTech : nat -> TransmitterTechnology)
         (mirrorTable : string -> bool) (shouldUsePortResourceAPIs : bool)
         (swPort : Port) (p : BcmPort),
    (forall n c, c <> opennsl_port_stat_enable_set true -> sdkRv n c = OPENNSL_E_NONE) ->
    (forall n, sdkRv n (opennsl_port_stat_enable_set true) = OPENNSL_E_NONE \/
               sdkRv n (opennsl_port_stat_enable_set true) = OPENNSL_E_EXISTS) ->
    (shouldUsePortResourceAPIs = false ->
     forall tech, is_Some (portTypeLookup (desiredSpeedOf swPort p) tech)) ->
    mirror_known mirrorTable (ingressMirror_ p) = true ->
    mirror_known mirrorTable (egressMirror_ p) = true ->
    mirror_known mirrorTable (getIngressMirror swPort) = true ->
    mirror_known mirrorTable (getEgressMirror swPort) = true ->
    enable sdkRv platformTech mirrorTable shouldUsePortResourceAPIs swPort p
    = enable alwaysOk platformTech mirrorTable shouldUsePortResourceAPIs swPort p /\
    exists p',
      enable sdkRv platformTech mirrorTable shouldUsePortResourceAPIs swPort p
      = (Returns tt, p') /\
      hw_enabled p' = true.
Proof.
  intros sdkRv platformTech mirrorTable flag swPort p Hother Hcounters
         Hmode HoldI HoldE HnewI HnewE.
  assert (Hsame : enable sdkRv platformTech mirrorTable flag swPort p
                  = enable alwaysOk platformTech mirrorTable flag swPort p).
  { apply (enable_same_run sdkRv alwaysOk); [|exact Hcounters|reflexivity].
    intros n c Hc. by rewrite Hother. }
  split; [exact Hsame|]. rewrite Hsame.
  destruct (enable_accepted alwaysOk platformTech mirrorTable flag
              ltac:(reflexivity) swPort p Hmode HoldI HoldE HnewI HnewE) as (p' & Hrun).
  exists p'. split; [exact Hrun|].
  exact (enable_returns_enabled _ _ _ _ _ _ _ _ Hrun).
Qed.

Definition coldPort : BcmPort :=
  mkBcmPort false 1 10000 100000 (OPENNSL_PORT_IF_other 0) UNKNOWN None None [].

Definition opticalPort : BcmPort :=
  mkBcmPort false 1 10000 100000 (OPENNSL_PORT_IF_other 0) OPTICAL None None [].

Example interface_mode_100G_optical :
  fst (getDesiredInterfaceMode techOptical HUNDREDG 1 "eth1/1/1" coldPort)
  = Returns OPENNSL_PORT_IF_CAUI.
Proof. reflexivity. Qed.

Example interface_mode_backplane_is_copper :
  fst (getDesiredInterfaceMode techOptical HUNDREDG 1 "fab1/1/1" coldPort)
  = Returns OPENNSL_PORT_IF_CR4.
Proof. reflexivity. Qed.

Example interface_mode_default_speed_is_absent :
  fst (getDesiredInterfaceMode techOptical DEFAULT 1 "eth1/1/1" coldPort)
  = Throws (UnsupportedSpeedOrTech DEFAULT OPTICAL 1).
Proof. reflexivity. Qed.

(** C2, the claim as stated fails: for 20G with optical technology the
    table has the per-speed default for [UNKNOWN], so a fall-back would
    answer CR, yet [getDesiredInterfaceMode] throws. *)
Lemma getDesiredInterfaceMode_no_fallback_20G_optical :
  portTypeLookup TWENTYG UNKNOWN = Some OPENNSL_PORT_IF_CR /\
  lookupWithFallback TWENTYG OPTICAL = Some OPENNSL_PORT_IF_CR /\
  getDesiredInterfaceMode techOptical TWENTYG 1 "eth1/1/1" opticalPort
  = (Throws (UnsupportedSpeedOrTech TWENTYG OPTICAL 1), opticalPort).
Proof. repeat split; reflexivity. Qed.

Lemma getDesiredInterfaceMode_exact_pair_only_witness :
  is_Some (portTypeLookup GIGE UNKNOWN) /\
  (portTypeLookup GIGE OPTICAL = None /\ is_Some (lookupWithFallback GIGE OPTICAL)).
Proof.
  destruct (getDesiredInterfaceMode_exact_pair_only techOptical GIGE 1 "eth1/1/1" opticalPort)
    as (_ & Hdefault & Hdiff).
  split.
  - apply (Hdefault [(COPPER, OPENNSL_PORT_IF_GMII); (UNKNOWN, OPENNSL_PORT_IF_GMII)]).
    reflexivity.
  - apply (Hdiff OPTICAL). split; [right; reflexivity | reflexivity].
Defined.

Example updateMirror_rebind_A_B_none :
  let pA := snd (updateMirror allMirrors (Some "A") INGRESS coldPort) in
  let pB := snd (updateMirror allMirrors (Some "B") INGRESS pA) in
  let pN := snd (updateMirror allMirrors None INGRESS pB) in
  calls pA = [applyPortMirrorAction "A" START INGRESS] /\
  calls pB = calls pA ++ [applyPortMirrorAction "A" STOP INGRESS;
                          applyPortMirrorAction "B" START INGRESS] /\
  ingressMirror_ pB = Some "B" /\
  calls pN = calls pB ++ [applyPortMirrorAction "B" STOP INGRESS] /\
  ingressMirror_ pN = None /\
  attached INGRESS (calls pN) = [].
Proof. repeat split; reflexivity. Qed.

Lemma updateMirror_stop_before_start_witness :
  let pA := snd (updateMirror allMirrors (Some "A") INGRESS coldPort) in
  let pB := snd (updateMirror allMirrors (Some "B") INGRESS pA) in
  calls pB = calls pA ++ [applyPortMirrorAction "A" STOP INGRESS] ++
                         [applyPortMirrorAction "B" START INGRESS] /\
  mirror_of INGRESS pB = Some "B".
Proof.
  cbv zeta.
  destruct (updateMirror_stop_before_start allMirrors (Some "B") INGRESS
              (snd (updateMirror allMirrors (Some "A") INGRESS coldPort)))
    as (Hrun & _ & Hcalls & _).
  destruct (Hcalls eq_refl eq_refl) as (Hc & Hm & _).
  rewrite Hrun. split; [exact Hc | exact Hm].
Defined.

(** Position of the first occurrence of a call in a log, and whether one
    call comes before another. *)
Fixpoint position (c : SdkCall) (log : list SdkCall) : option nat :=
  match log with
  | [] => None
  | x :: rest => if decide (x = c) then Some 0%nat else S <$> position c rest
  end.

Definition before (a b : SdkCall) (log : list SdkCall) : bool :=
  match position a log, position b log with
  | Some i, Some j => (i <? j)%nat
  | _, _ => false
  end.

(** The order of the last steps of [enable] as the specification words
    it: counter collection, then sampling rate, then admin-up. *)
Definition enable_order_as_specified (log : list SdkCall) : bool :=
  before (opennsl_port_stat_enable_set true) (member setSflowRates) log &&
  before (member setSflowRates) (opennsl_port_enable_set true) log.

(** The order [enable] follows: sampling rate (within the attribute set),
    then counter collection, then admin-up. *)
Definition enable_order_in_code (log : list SdkCall) : bool :=
  before (member setSflowRates) (opennsl_port_stat_enable_set true) log &&
  before (opennsl_port_stat_enable_set true) (opennsl_port_enable_set true) log.

Definition swPort1 : Port :=
  mkPort 1 "eth1/1/1" ENABLED HUNDREDG FEC_OFF (mkPortPause false false) LB_NONE
         2000 [(2000, false)] None None [] false.

Definition swPort1_up : Port :=
  mkPort 1 "eth1/1/1" ENABLED HUNDREDG FEC_OFF (mkPortPause false false) LB_NONE
         2000 [(2000, false)] None None [] true.

Definition enable1 : M BcmPort Exception unit :=
  enable alwaysOk techOptical allMirrors false swPort1.

Definition enabledPort : BcmPort := snd (enable1 coldPort).

Example enable_cold_port :
  fst (enable1 coldPort) = Returns tt /\
  calls enabledPort =
    [opennsl_port_enable_get; opennsl_vlan_port_add 2000 true;
     opennsl_port_vlan_member_set; opennsl_port_untagged_vlan_get;
     opennsl_port_untagged_vlan_set 2000; opennsl_port_speed_get;
     getTransmitterTech; opennsl_port_interface_get;
     opennsl_port_interface_set OPENNSL_PORT_IF_CAUI;
     opennsl_port_speed_set 100000; linkSpeedChanged 100000;
     member setFEC; member setPause; member setTxSetting;
     member setSflowRates; member setLoopbackMode;
     opennsl_port_stat_enable_set true; opennsl_port_enable_set true] /\
  hw_enabled enabledPort = true /\ hw_speed enabledPort = 100000.
Proof. vm_compute. repeat split; reflexivity. Qed.

Example enable_twice_reads_only :
  calls (snd (enable1 enabledPort)) = calls enabledPort ++ [opennsl_port_enable_get].
Proof. vm_compute. reflexivity. Qed.

Example setSpeed_down_port_rewrites :
  calls (snd (setSpeed alwaysOk techOptical swPort1 enabledPort))
  = calls enabledPort ++
    [opennsl_port_speed_get; opennsl_port_interface_get;
     opennsl_port_interface_set OPENNSL_PORT_IF_CAUI;
     opennsl_port_speed_set 100000; linkSpeedChanged 100000].
Proof. vm_compute. reflexivity. Qed.

(** C4, the claim as stated fails: on a cold port the sampling rate is
    programmed (call 14 of the log) before counter collection is enabled
    (call 16), not after it. *)
Lemma enable_sampling_before_counters :
  fst (enable1 coldPort) = Returns tt /\
  position (member setSflowRates) (calls enabledPort) = Some 14%nat /\
  position (opennsl_port_stat_enable_set true) (calls enabledPort) = Some 16%nat /\
  enable_order_as_specified (calls enabledPort) = false /\
  enable_order_in_code (calls enabledPort) = true.
Proof. vm_compute. repeat split; reflexivity. Qed.

(** C5, the claim as stated fails: a port that is administratively up,
    in the configuration and in the hardware, and already runs at the
    desired speed still gets both disruptive writes when its link is down
    ([isPortUp] is false). *)
Lemma setSpeed_rewrites_enabled_port_with_link_down :
  getAdminState swPort1 = ENABLED /\
  isPortUp swPort1 = false /\
  hw_enabled enabledPort = true /\
  hw_speed enabledPort = desiredSpeedOf swPort1 enabledPort /\
  setSpeed alwaysOk techOptical swPort1 enabledPort
  = (Returns tt,
     mkBcmPort true 2000 100000 100000 OPENNSL_PORT_IF_CAUI OPTICAL None None
       (calls enabledPort ++
        [opennsl_port_speed_get; opennsl_port_interface_get;
         opennsl_port_interface_set OPENNSL_PORT_IF_CAUI;
         opennsl_port_speed_set 100000; linkSpeedChanged 100000])).
Proof. vm_compute. repeat split; reflexivity. Qed.

(** An [enable] that fails part-way leaves the port disabled, and the
    next [enable] programs it again: here counter collection is rejected
    on the first attempt only, and the speed is written twice. *)
Definition rejectsCountersOnce (n : nat) (c : SdkCall) : rv_t :=
  match c with
  | opennsl_port_stat_enable_set _ =>
      if (n <? 18)%nat then OPENNSL_E_FAIL (-1) else OPENNSL_E_NONE
  | _ => OPENNSL_E_NONE
  end.

Example enable_retry_after_failure_programs_again :
  let enable' := enable rejectsCountersOnce techOptical allMirrors false swPort1 in
  fst (enable' coldPort)
  = Throws (BcmError (OPENNSL_E_FAIL (-1)) (opennsl_port_stat_enable_set true)) /\
  fst (enable' (snd (enable' coldPort))) = Returns tt /\
  count is_speed_set (calls (snd (enable' (snd (enable' coldPort))))) = 2%nat.
Proof. vm_compute. repeat split; reflexivity. Qed.

Lemma enable_programs_in_order_witness :
  exists dA,
    calls enabledPort
    = calls coldPort ++ [opennsl_port_enable_get]
        ++ map vlan_add_call (getVlans swPort1)
        ++ [opennsl_port_vlan_member_set]
        ++ dA
        ++ [member setPause; member setTxSetting;
            member setSflowRates; member setLoopbackMode]
        ++ [opennsl_port_stat_enable_set true; opennsl_port_enable_set true] /\
    Forall (fun c => is_attribute_call c = true) dA /\
    hw_enabled enabledPort = true.
Proof.
  apply (proj1 (proj2 (enable_programs_in_order alwaysOk techOptical allMirrors false
                         swPort1 coldPort))).
  - reflexivity.
  - vm_compute. reflexivity.
Defined.

Lemma setSpeed_skips_and_enable_twice_witness :
  (exists d,
     calls (snd (setSpeed alwaysOk techOptical swPort1_up enabledPort))
     = calls enabledPort ++ d /\
     Forall (fun c => is_hw_write c = false) d /\
     count is_interface_set d = 0%nat /\ count is_speed_set d = 0%nat /\
     hw_speed (snd (setSpeed alwaysOk techOptical swPort1_up enabledPort))
     = hw_speed enabledPort /\
     hw_interface (snd (setSpeed alwaysOk techOptical swPort1_up enabledPort))
     = hw_interface enabledPort) /\
  (exists d1,
     calls enabledPort = calls coldPort ++ d1 /\
     calls (snd (enable1 enabledPort)) = calls coldPort ++ d1 ++ [opennsl_port_enable_get] /\
     (count is_speed_set (d1 ++ [opennsl_port_enable_get]) <= 1)%nat /\
     (count is_interface_set (d1 ++ [opennsl_port_enable_get]) <= 1)%nat).
Proof.
  split.
  - apply (proj1 (setSpeed_skips_and_enable_twice alwaysOk techOptical allMirrors false
                    swPort1_up enabledPort)); vm_compute; reflexivity.
  - apply (proj2 (proj2 (proj2 (setSpeed_skips_and_enable_twice alwaysOk techOptical
                                  allMirrors false swPort1 coldPort)))).
    vm_compute. reflexivity.
Defined.

(** An SDK for which counter collection is already enabled. *)
Definition countersAlreadyOn (n : nat) (c : SdkCall) : rv_t :=
  match c with
  | opennsl_port_stat_enable_set true => OPENNSL_E_EXISTS
  | _ => OPENNSL_E_NONE
  end.

Lemma enable_tolerates_counters_already_enabled_witness :
  enable countersAlreadyOn techOptical allMirrors false swPort1 coldPort
  = enable alwaysOk techOptical allMirrors false swPort1 coldPort /\
  exists p',
    enable countersAlreadyOn techOptical allMirrors false swPort1 coldPort = (Returns tt, p') /\
    hw_enabled p' = true.
Proof.
  apply (enable_tolerates_counters_already_enabled countersAlreadyOn techOptical
           allMirrors false swPort1 coldPort).
  - intros n c Hc. destruct c as [| | | | | | | | | | | |[|]| | | |]; try reflexivity.
    contradiction.
  - intros n. right. reflexivity.
  - intros _ tech. destruct tech; vm_compute; eauto.
  - reflexivity.
  - reflexivity.
  - reflexivity.
  - reflexivity.
Defined.

Lemma setIngressVlan_writes_only_a_change_witness :
  let p' := snd (setIngressVlan alwaysOk swPort1 coldPort) in
  hw_untagged_vlan p' = 2000 /\
  calls p' = [opennsl_port_untagged_vlan_get; opennsl_port_untagged_vlan_set 2000] /\
  calls (snd (setIngressVlan alwaysOk swPort1 p'))
  = calls p' ++ [opennsl_port_untagged_vlan_get].
Proof.
  cbv zeta.
  destruct (setIngressVlan_writes_only_a_change alwaysOk swPort1 coldPort
              (snd (setIngressVlan alwaysOk swPort1 coldPort))
              ltac:(vm_compute; reflexivity)) as (Hvlan & Hcalls & _ & Hagain).
  split; [exact Hvlan|]. split; [exact Hcalls | exact Hagain].
Defined.

Lemma setInterfaceMode_writes_registered_mode_witness :
  let p' := snd (setInterfaceMode alwaysOk techOptical swPort1 coldPort) in
  exists mode d,
    portTypeLookup 100000 (transmitterTechnology_ p') = Some mode /\
    calls p' = calls coldPort ++ d ++ opennsl_port_interface_get ::
                 (if bool_decide (hw_interface coldPort = mode) && isPortUp swPort1 then []
                  else [opennsl_port_interface_set mode]) /\
    Forall (fun c => is_hw_write c = false) d /\
    hw_speed p' = hw_speed coldPort.
Proof.
  cbv zeta.
  apply (setInterfaceMode_writes_registered_mode alwaysOk techOptical swPort1 coldPort).
  vm_compute. reflexivity.
Defined.

Lemma setSpeed_reaches_desired_speed_witness :
  let p' := snd (setSpeed alwaysOk techOptical swPort1 coldPort) in
  hw_speed p' = 100000 /\
  exists mode d,
    portTypeLookup 100000 (transmitterTechnology_ p') = Some mode /\
    calls p' = calls coldPort ++ d ++
                 [opennsl_port_interface_set mode;
                  opennsl_port_speed_set 100000; linkSpeedChanged 100000] /\
    Forall (fun c => is_hw_write c = false) d.
Proof.
  cbv zeta.
  destruct (setSpeed_reaches_desired_speed alwaysOk techOptical swPort1 coldPort
              (snd (setSpeed alwaysOk techOptical swPort1 coldPort))
              ltac:(vm_compute; reflexivity)) as (Hspeed & _ & _ & Hdown).
  split; [exact Hspeed | exact (Hdown eq_refl)].
Defined.

Example disable_enabled_port :
  let p' := snd (disable alwaysOk swPort1 enabledPort) in
  fst (disable alwaysOk swPort1 enabledPort) = Returns tt /\
  calls p' = calls enabledPort ++
             [opennsl_port_enable_get; opennsl_vlan_port_remove 2000;
              opennsl_port_stat_enable_set false; member disableSflow;
              opennsl_port_enable_set false] /\
  hw_enabled p' = false /\
  calls (snd (disable alwaysOk swPort1 p')) = calls p' ++ [opennsl_port_enable_get].
Proof. vm_compute. repeat split; reflexivity. Qed.

End Bcm.

(** ** BcmPort: statistics *)

Module BcmStats.

Local Open Scope Z_scope.
Local Open Scope cpp_scope.

(** [int64_t] arithmetic wraps around. *)
Definition int64 (z : Z) : Z := (z + 2 ^ 63) mod 2 ^ 64 - 2 ^ 63.

Definition in_int64 (z : Z) : Prop := - 2 ^ 63 <= z < 2 ^ 63.

Lemma int64_small z : in_int64 z -> int64 z = z.
Proof.
  unfold in_int64, int64. intros Hz.
  rewrite Z.mod_small by lia. lia.
Qed.

Lemma int64_range z : in_int64 (int64 z).
Proof.
  unfold in_int64, int64.
  pose proof (Z.mod_pos_bound (z + 2 ^ 63) (2 ^ 64) ltac:(lia)). lia.
Qed.

(** The scalar counters of [HwPortStats]. *)
Inductive StatField : Type :=
| inBytes_ | inUnicastPkts_ | inMulticastPkts_ | inBroadcastPkts_
| inDiscards_ | inErrors_ | inPause_ | inIpv4HdrErrors_ | inIpv6HdrErrors_
| inNonPauseDiscards_
| outBytes_ | outUnicastPkts_ | outMulticastPkts_ | outBroadcastPkts_
| outDiscards_ | outErrors_ | outPause_ | outEcnCounter_.

#[export] Instance StatField_eq_dec : EqDecision StatField.
Proof. solve_decision. Defined.

(** [HwPortStats]: the scalar counters by name, and the per-queue
    vectors. *)
Record HwPortStats := mkHwPortStats {
  counter : StatField -> Z;
  queueOutDiscardBytes_ : list Z;
  queueOutBytes_ : list Z
}.

Definition set_counter (f : StatField) (v : Z) (s : HwPortStats) : HwPortStats :=
  mkHwPortStats (fun g => if decide (g = f) then v else counter s g)
    (queueOutDiscardBytes_ s) (queueOutBytes_ s).

(** The keys of the exported counters. *)
Inductive StatKey : Type :=
| kInBytes | kInUnicastPkts | kInMulticastPkts | kInBroadcastPkts
| kInDiscards | kInErrors | kInPause | kInIpv4HdrErrors | kInIpv6HdrErrors
| kInNonPauseDiscards
| kOutBytes | kOutUnicastPkts | kOutMulticastPkts | kOutBroadcastPkts
| kOutDiscards | kOutErrors | kOutPause | kOutEcnCounter.

#[export] Instance StatKey_eq_dec : EqDecision StatKey.
Proof. solve_decision. Defined.

Inductive opennsl_stat_val_t : Type :=
| opennsl_spl_snmpIfHCInOctets
| opennsl_spl_snmpIfHCInUcastPkts
| opennsl_spl_snmpIfHCInMulticastPkts
| opennsl_spl_snmpIfHCInBroadcastPkts
| opennsl_spl_snmpIfInDiscards
| opennsl_spl_snmpIfInErrors
| opennsl_spl_snmpIpInHdrErrors
| opennsl_spl_snmpIpv6IfStatsInHdrErrors
| opennsl_spl_snmpDot3InPauseFrames
| opennsl_spl_snmpIfHCOutOctets
| opennsl_spl_snmpIfHCOutUcastPkts
| opennsl_spl_snmpIfHCOutMulticastPkts
| opennsl_spl_snmpIfHCOutBroadcastPckts
| opennsl_spl_snmpIfOutDiscards
| opennsl_spl_snmpIfOutErrors
| opennsl_spl_snmpDot3OutPauseFrames
(* the ten packet-length buckets of each direction *)
| snmpOpenNSLReceivedPkts (bucket : nat)
| snmpOpenNSLTransmittedPkts (bucket : nat).

Definition kInPktLengthStats : list opennsl_stat_val_t :=
  map snmpOpenNSLReceivedPkts (seq 0 10).
Definition kOutPktLengthStats : list opennsl_stat_val_t :=
  map snmpOpenNSLTransmittedPkts (seq 0 10).

(** [BcmPort::BcmPortStats] *)
Record BcmPortStats := mkBcmPortStats {
  portStats : HwPortStats;
  timeRetrieved : Z
}.

(** A [MonotonicCounter] is represented by the updates it received. *)
Definition MonotonicCounter := list (Z * Z).

(** The part of the [BcmPort] object the statistics code works on.
    [portCounters_] answers [None] for a key that was never registered. *)
Record PortStats := mkPortStats {
  portCounters_ : StatKey -> option MonotonicCounter;
  lastPortStats_ : BcmPortStats;
  outQueueLen_ : list (Z * Z);
  inPktLengths_ : list (Z * nat * Z);
  outPktLengths_ : list (Z * nat * Z)
}.

(** What the SDK answers during one poll; [None] is a failure code. *)
Record HwCounters := mkHwCounters {
  opennsl_stat_get : opennsl_stat_val_t -> option Z;
  opennsl_port_queued_count_get : option Z;
  opennsl_stat_multi_get : list opennsl_stat_val_t -> option (list Z)
}.

Inductive Exception : Type := StatsError.

Abbreviation Op := (M PortStats Exception).

Definition set_portCounter (k : StatKey) (c : MonotonicCounter) (s : PortStats) : PortStats :=
  mkPortStats (fun k' => if decide (k' = k) then Some c else portCounters_ s k')
    (lastPortStats_ s) (outQueueLen_ s) (inPktLengths_ s) (outPktLengths_ s).

Definition set_lastPortStats (b : BcmPortStats) (s : PortStats) : PortStats :=
  mkPortStats (portCounters_ s) b (outQueueLen_ s) (inPktLengths_ s) (outPktLengths_ s).

Section Stats.

(** [hardware_stats_constants::STAT_UNINITIALIZED()], a thrift constant;
    every counter of a default-constructed [HwPortStats] holds it. *)
Variable kUninit : Z.

(** Collaborators defined in other files. *)
Variable shouldReportStats : bool.
Variable isMmuLossy : bool.
Variable numUnicastQueues : nat.
Variable updateBcmStats : Z -> HwPortStats -> HwPortStats.
Variable setAdditionalStats : Z -> HwPortStats -> HwPortStats.

(** The stat and histogram maps of [fbData] belong to another library.
    What the stat, or the histogram, of the given name holds when the
    port attaches to it: nothing under a name that is new, the earlier
    samples under a name that is in use. *)
Variable getLockableStat : string -> PortStats -> list (Z * Z).
Variable getOrCreateLockableHistogram : string -> PortStats -> list (Z * nat * Z).

Definition HwPortStats_default : HwPortStats :=
  mkHwPortStats (fun _ => kUninit) [] [].

(** [BcmPortStats(int numUnicastQueues)] *)
Definition BcmPortStats_init : BcmPortStats :=
  mkBcmPortStats
    (mkHwPortStats (fun _ => kUninit) (repeat 0 numUnicastQueues) (repeat 0 numUnicastQueues))
    0.

(** [MonotonicCounter::updateValue] through a pointer that may be null. *)
Definition updateValue (k : StatKey) (now value : Z) : Op unit :=
  do s <- getM;
  match portCounters_ s k with
  | None => fatalM "null MonotonicCounter"
  | Some c => modifyM (set_portCounter k (c ++ [(now, value)]))
  end.

(** [BcmPort::reinitPortStat] *)
Definition reinitPortStat (k : StatKey) : Op unit :=
  modifyM (set_portCounter k []).

(** [BcmPort::reinitPortStats] *)
Definition reinitPortStats : Op unit :=
  if negb shouldReportStats then retM tt
  else
    run forM [kInBytes; kInUnicastPkts; kInMulticastPkts; kInBroadcastPkts;
              kInDiscards; kInErrors; kInPause; kInIpv4HdrErrors; kInIpv6HdrErrors;
              kInNonPauseDiscards;
              kOutBytes; kOutUnicastPkts; kOutMulticastPkts; kOutBroadcastPkts;
              kOutDiscards; kOutErrors; kOutPause; kOutEcnCounter] reinitPortStat;
    (* queueManager_->setupQueueCounters() sets up the counters the queue
       manager keeps for itself *)
    run modifyM (fun s =>
          mkPortStats (portCounters_ s) (lastPortStats_ s)
            (getLockableStat "out_queue_length" s) (inPktLengths_ s) (outPktLengths_ s));
    run modifyM (fun s =>
          mkPortStats (portCounters_ s) (lastPortStats_ s) (outQueueLen_ s)
            (getOrCreateLockableHistogram "in_pkt_lengths" s) (outPktLengths_ s));
    run modifyM (fun s =>
          mkPortStats (portCounters_ s) (lastPortStats_ s) (outQueueLen_ s)
            (inPktLengths_ s) (getOrCreateLockableHistogram "out_pkt_lengths" s));
    modifyM (set_lastPortStats BcmPortStats_init).

(** [BcmPort::updateStat]: the [uint64_t] read is handed to
    [MonotonicCounter::updateValue] and stored in the field of
    [curPortStats] that [statVal] points to, both of which take an
    [int64_t]. *)
Definition updateStat (hw : HwCounters) (now : Z) (statKey : StatKey)
    (type : opennsl_stat_val_t) (statVal : StatField) (curPortStats : HwPortStats)
  : Op HwPortStats :=
  match opennsl_stat_get hw type with
  | None => retM curPortStats
  | Some value =>
      run updateValue statKey now (int64 value);
      retM (set_counter statVal (int64 value) curPortStats)
  end.

(** The first part of [BcmPort::updateStats]: read every counter into a
    fresh [curPortStats]. *)
Definition gatherStats (hw : HwCounters) (now : Z) : Op HwPortStats :=
  let c := HwPortStats_default in
  do c <- updateStat hw now kInBytes opennsl_spl_snmpIfHCInOctets inBytes_ c;
  do c <- updateStat hw now kInUnicastPkts opennsl_spl_snmpIfHCInUcastPkts inUnicastPkts_ c;
  do c <- updateStat hw now kInMulticastPkts opennsl_spl_snmpIfHCInMulticastPkts inMulticastPkts_ c;
  do c <- updateStat hw now kInBroadcastPkts opennsl_spl_snmpIfHCInBroadcastPkts inBroadcastPkts_ c;
  do c <- updateStat hw now kInDiscards opennsl_spl_snmpIfInDiscards inDiscards_ c;
  do c <- updateStat hw now kInErrors opennsl_spl_snmpIfInErrors inErrors_ c;
  do c <- updateStat hw now kInIpv4HdrErrors opennsl_spl_snmpIpInHdrErrors inIpv4HdrErrors_ c;
  do c <- updateStat hw now kInIpv6HdrErrors opennsl_spl_snmpIpv6IfStatsInHdrErrors inIpv6HdrErrors_ c;
  do c <- updateStat hw now kInPause opennsl_spl_snmpDot3InPauseFrames inPause_ c;
  do c <- updateStat hw now kOutBytes opennsl_spl_snmpIfHCOutOctets outBytes_ c;
  do c <- updateStat hw now kOutUnicastPkts opennsl_spl_snmpIfHCOutUcastPkts outUnicastPkts_ c;
  do c <- updateStat hw now kOutMulticastPkts opennsl_spl_snmpIfHCOutMulticastPkts outMulticastPkts_ c;
  do c <- updateStat hw now kOutBroadcastPkts opennsl_spl_snmpIfHCOutBroadcastPckts outBroadcastPkts_ c;
  do c <- updateStat hw now kOutDiscards opennsl_spl_snmpIfOutDiscards outDiscards_ c;
  do c <- updateStat hw now kOutErrors opennsl_spl_snmpIfOutErrors outErrors_ c;
  do c <- updateStat hw now kOutPause opennsl_spl_snmpDot3OutPauseFrames outPause_ c;
  retM (setAdditionalStats now (updateBcmStats now c)).

(** The second part: compute non pause discards from the previous
    snapshot [lastPortStats] and the counters just read. *)
Definition computeNonPauseDiscards (now : Z) (lastPortStats curPortStats : HwPortStats)
  : Op HwPortStats :=
  if isMmuLossy
     && negb (counter lastPortStats inDiscards_ =? kUninit)
     && negb (counter lastPortStats inPause_ =? kUninit)
  then
    let inPauseSincePrev :=
      int64 (counter curPortStats inPause_ - counter lastPortStats inPause_) in
    let inDiscardsSincePrev :=
      int64 (counter curPortStats inDiscards_ - counter lastPortStats inDiscards_) in
    if (0 <=? inPauseSincePrev) && (0 <=? inDiscardsSincePrev)
    then
      let inNonPauseDiscardsSincePrev :=
        Z.max 0 (int64 (inDiscardsSincePrev - inPauseSincePrev)) in
      let curPortStats :=
        set_counter inNonPauseDiscards_
          (if counter lastPortStats inNonPauseDiscards_ =? kUninit
           then 0
           else counter lastPortStats inNonPauseDiscards_)
          curPortStats in
      let curPortStats :=
        set_counter inNonPauseDiscards_
          (int64 (counter curPortStats inNonPauseDiscards_ + inNonPauseDiscardsSincePrev))
          curPortStats in
      run updateValue kInNonPauseDiscards now (counter curPortStats inNonPauseDiscards_);
      retM curPortStats
    else retM curPortStats
  else retM curPortStats.

(** [BcmPort::updatePktLenHist] *)
Definition updatePktLenHist (hw : HwCounters) (now : Z)
    (stats : list opennsl_stat_val_t) : option (list (Z * nat * Z)) :=
  match opennsl_stat_multi_get hw stats with
  | None => None
  | Some counters => Some (imap (fun idx v => (now, idx, v)) (take (length stats) counters))
  end.

(** [BcmPort::updateStats] *)
Definition updateStats (hw : HwCounters) (now : Z) : Op unit :=
  if negb shouldReportStats then retM tt
  else
    do curPortStats <- gatherStats hw now;
    do s <- getM;
    let lastPortStats := portStats (lastPortStats_ s) in
    do curPortStats <- computeNonPauseDiscards now lastPortStats curPortStats;
    run modifyM (set_lastPortStats (mkBcmPortStats curPortStats now));
    run modifyM (fun s =>
          match opennsl_port_queued_count_get hw with
          | None => s
          | Some qlength =>
              mkPortStats (portCounters_ s) (lastPortStats_ s)
                (outQueueLen_ s ++ [(now, qlength)]) (inPktLengths_ s) (outPktLengths_ s)
          end);
    run modifyM (fun s =>
          match updatePktLenHist hw now kInPktLengthStats with
          | None => s
          | Some h =>
              mkPortStats (portCounters_ s) (lastPortStats_ s) (outQueueLen_ s)
                (inPktLengths_ s ++ h) (outPktLengths_ s)
          end);
    modifyM (fun s =>
          match updatePktLenHist hw now kOutPktLengthStats with
          | None => s
          | Some h =>
              mkPortStats (portCounters_ s) (lastPortStats_ s) (outQueueLen_ s)
                (inPktLengths_ s) (outPktLengths_ s ++ h)
          end).

(** [BcmPort::getPortStats] *)
Definition getPortStats (s : PortStats) : HwPortStats := portStats (lastPortStats_ s).

(** [BcmPort::getTimeRetrieved] *)
Definition getTimeRetrieved (s : PortStats) : Z := timeRetrieved (lastPortStats_ s).

(** *** The derived counter *)

(** The cumulative value the derivation starts from: the previous one, or
    0 if that is uninitialized. *)
Definition seedNonPauseDiscards (lastPortStats : HwPortStats) : Z :=
  if counter lastPortStats inNonPauseDiscards_ =? kUninit
  then 0
  else counter lastPortStats inNonPauseDiscards_.

Definition deltaSincePrev (f : StatField) (lastPortStats curPortStats : HwPortStats) : Z :=
  int64 (counter curPortStats f - counter lastPortStats f).

(** Whether [updateStats] computes the derived counter in this poll. *)
Definition derivation_runs (lastPortStats curPortStats : HwPortStats) : bool :=
  isMmuLossy
  && negb (counter lastPortStats inDiscards_ =? kUninit)
  && negb (counter lastPortStats inPause_ =? kUninit)
  && (0 <=? deltaSincePrev inPause_ lastPortStats curPortStats)
  && (0 <=? deltaSincePrev inDiscards_ lastPortStats curPortStats).

Lemma counter_set_same f v c : counter (set_counter f v c) f = v.
Proof. cbn. by rewrite decide_True. Qed.

Lemma counter_set_other f g v c : g <> f -> counter (set_counter f v c) g = counter c g.
Proof. intros Hne. cbn. by rewrite decide_False. Qed.

Lemma delta_difference_fits (a b : Z) :
  0 <= int64 a -> 0 <= int64 b -> int64 (int64 a - int64 b) = int64 a - int64 b.
Proof.
  intros Ha Hb. apply int64_small.
  pose proof (int64_range a) as Ra. pose proof (int64_range b) as Rb.
  unfold in_int64 in *. lia.
Qed.

Lemma computeNonPauseDiscards_skips now last cur s :
  derivation_runs last cur = false ->
  computeNonPauseDiscards now last cur s = (Returns cur, s).
Proof.
  unfold derivation_runs, computeNonPauseDiscards, deltaSincePrev.
  destruct isMmuLossy; [|reflexivity]. cbn [andb].
  destruct (negb (counter last inDiscards_ =? kUninit)); [|reflexivity]. cbn [andb].
  destruct (negb (counter last inPause_ =? kUninit)); [|reflexivity]. cbn [andb].
  intros ->. reflexivity.
Qed.

Lemma computeNonPauseDiscards_runs now last cur s c :
  derivation_runs last cur = true ->
  portCounters_ s kInNonPauseDiscards = Some c ->
  exists cur' s',
    computeNonPauseDiscards now last cur s = (Returns cur', s') /\
    lastPortStats_ s' = lastPortStats_ s /\
    counter cur' inNonPauseDiscards_
    = int64 (seedNonPauseDiscards last
             + Z.max 0 (deltaSincePrev inDiscards_ last cur
                        - deltaSincePrev inPause_ last cur)) /\
    (forall f, f <> inNonPauseDiscards_ -> counter cur' f = counter cur f) /\
    portCounters_ s' kInNonPauseDiscards
    = Some (c ++ [(now, counter cur' inNonPauseDiscards_)]).
Proof.
  unfold derivation_runs, deltaSincePrev. intros Hruns Hreg.
  apply andb_prop in Hruns as [Hruns HdD]. apply andb_prop in Hruns as [Hruns HdP].
  apply andb_prop in Hruns as [Hruns HiP]. apply andb_prop in Hruns as [Hlossy HiD].
  unfold computeNonPauseDiscards. cbv zeta.
  rewrite Hlossy, HiD, HiP, HdP, HdD. cbn [andb].
  cbv [bindM updateValue getM modifyM retM]. rewrite Hreg.
  eexists _, _. split; [reflexivity|]. split; [reflexivity|]. split; [|split].
  - rewrite !counter_set_same. unfold seedNonPauseDiscards.
    rewrite delta_difference_fits by lia. reflexivity.
  - intros f Hf. by rewrite !counter_set_other.
  - cbn. by rewrite decide_True.
Qed.

Lemma updateStat_returns_inv hw now k t f c s c' s' :
  updateStat hw now k t f c s = (Returns c', s') ->
  lastPortStats_ s' = lastPortStats_ s /\
  (forall k', is_Some (portCounters_ s k') -> is_Some (portCounters_ s' k')).
Proof.
  unfold updateStat. destruct (opennsl_stat_get hw t) as [value|].
  - cbv [bindM updateValue getM modifyM retM].
    destruct (portCounters_ s k) as [old|] eqn:Hk; intros H; inversion H; subst.
    split; [reflexivity|]. intros k' Hk'. cbn. case_decide; eauto.
  - intros H; inversion H; subst. auto.
Qed.

Lemma gatherStats_returns_inv hw now s g s' :
  gatherStats hw now s = (Returns g, s') ->
  lastPortStats_ s' = lastPortStats_ s /\
  (forall k', is_Some (portCounters_ s k') -> is_Some (portCounters_ s' k')).
Proof.
  unfold gatherStats. intros H.
  repeat
    (apply bind_returns_inversion in H as (? & ? & Hstep & H);
     apply updateStat_returns_inv in Hstep as [<- Hreg];
     assert (Hreg' := fun k' Hk' => Hreg k' Hk'); clear Hreg; revert Hreg').
  inversion H; subst. intros. split; [reflexivity|]. eauto 20.
Qed.

Lemma updateStats_publishes hw now s g s1 :
  shouldReportStats = true ->
  gatherStats hw now s = (Returns g, s1) ->
  is_Some (portCounters_ s1 kInNonPauseDiscards) ->
  exists s',
    updateStats hw now s = (Returns tt, s') /\
    getTimeRetrieved s' = now /\
    (forall f, f <> inNonPauseDiscards_ -> counter (getPortStats s') f = counter g f) /\
    (derivation_runs (getPortStats s) g = true ->
     counter (getPortStats s') inNonPauseDiscards_
     = int64 (seedNonPauseDiscards (getPortStats s)
              + Z.max 0 (deltaSincePrev inDiscards_ (getPortStats s) g
                         - deltaSincePrev inPause_ (getPortStats s) g))) /\
    (derivation_runs (getPortStats s) g = false ->
     counter (getPortStats s') inNonPauseDiscards_ = counter g inNonPauseDiscards_).
Proof.
  intros Hreport Hgather [c Hreg].
  destruct (gatherStats_returns_inv hw now s g s1 Hgather) as [Hlast _].
  unfold updateStats. rewrite Hreport. cbn [negb].
  unfold bindM at 1. rewrite Hgather.
  unfold bindM at 1. unfold getM at 1. cbv beta iota.
  unfold getPortStats. rewrite <- Hlast.
  destruct (derivation_runs (portStats (lastPortStats_ s1)) g) eqn:Hruns.
  - destruct (computeNonPauseDiscards_runs now _ g s1 c Hruns Hreg)
      as (cur' & s2 & Hrun & _ & Hval & Hothers & _).
    unfold bindM at 1. rewrite Hrun.
    cbv [bindM modifyM].
    destruct (opennsl_port_queued_count_get hw);
      destruct (updatePktLenHist hw now kInPktLengthStats);
      destruct (updatePktLenHist hw now kOutPktLengthStats);
      (eexists; split; [reflexivity|]); cbn;
      (split; [reflexivity|]); (split; [exact Hothers|]);
      (split; [intros _; exact Hval | discriminate]).
  - unfold bindM at 1.
    rewrite (computeNonPauseDiscards_skips now _ g s1 Hruns).
    cbv [bindM modifyM].
    destruct (opennsl_port_queued_count_get hw);
      destruct (updatePktLenHist hw now kInPktLengthStats);
      destruct (updatePktLenHist hw now kOutPktLengthStats);
      (eexists; split; [reflexivity|]); cbn;
      (split; [reflexivity|]); (split; [reflexivity|]);
      (split; [discriminate | reflexivity]).
Qed.

Lemma derivation_runs_true_iff last cur :
  derivation_runs last cur = true <->
  isMmuLossy = true /\ counter last inDiscards_ <> kUninit /\
  counter last inPause_ <> kUninit /\
  0 <= deltaSincePrev inPause_ last cur /\ 0 <= deltaSincePrev inDiscards_ last cur.
Proof.
  unfold derivation_runs.
  rewrite !andb_true_iff, !negb_true_iff, !Z.eqb_neq, !Z.leb_le.
  split.
  - intros [[[[Hl Hd] Hp] HdP] HdD]. auto.
  - intros (Hl & Hd & Hp & HdP & HdD). auto.
Qed.

Lemma updateStat_returns hw now k t f c s :
  (forall k', is_Some (portCounters_ s k')) ->
  exists c' s',
    updateStat hw now k t f c s = (Returns c', s') /\
    (forall k', is_Some (portCounters_ s' k')).
Proof.
  intros Hreg. unfold updateStat.
  destruct (opennsl_stat_get hw t) as [value|]; [|by eexists _, _].
  cbv [bindM updateValue getM modifyM retM].
  destruct (Hreg k) as [old Hold]. rewrite Hold.
  eexists _, _. split; [reflexivity|].
  intros k'. cbn. case_decide; eauto.
Qed.

Lemma gatherStats_returns hw now s :
  (forall k, is_Some (portCounters_ s k)) ->
  exists g s1, gatherStats hw now s = (Returns g, s1) /\
               (forall k, is_Some (portCounters_ s1 k)).
Proof.
  intros Hreg. unfold gatherStats.
  repeat
    (match goal with
     | |- exists g s1, bindM (updateStat ?hw ?now ?k ?t ?f ?c) _ ?s = _ /\ _ =>
         let c' := fresh "c" in
         let s' := fresh "s" in
         let Hstep := fresh "Hstep" in
         let Hreg' := fresh "Hreg" in
         destruct (updateStat_returns hw now k t f c s ltac:(assumption))
           as (c' & s' & Hstep & Hreg');
         unfold bindM at 1; rewrite Hstep
     end).
  eexists _, _. split; [reflexivity | assumption].
Qed.

(** *** Registration of the exported counters *)

(** Every exported counter has been registered, so no counter pointer of
    [updateStat] is null. *)
Definition registered (s : PortStats) : Prop :=
  forall k, is_Some (portCounters_ s k).

Lemma forM_reinitPortStat (ks : list StatKey) (s : PortStats) :
  exists s',
    forM ks reinitPortStat s = (Returns tt, s') /\
    lastPortStats_ s' = lastPortStats_ s /\
    (forall k, k ∈ ks -> portCounters_ s' k = Some []) /\
    (forall k, k ∉ ks -> portCounters_ s' k = portCounters_ s k).
Proof.
  revert s. induction ks as [|k0 ks IH]; intros s; cbn [forM].
  - exists s. split; [reflexivity|]. split; [reflexivity|]. split; [|done].
    intros k Hk. by apply not_elem_of_nil in Hk.
  - unfold bindM at 1, reinitPortStat at 1, modifyM at 1.
    destruct (IH (set_portCounter k0 [] s)) as (s' & Hrun & Hlast & Hin & Hout).
    exists s'. split; [exact Hrun|]. split; [exact Hlast|]. split.
    + intros k Hk. destruct (decide (k ∈ ks)) as [Hks|Hks]; [by apply Hin|].
      apply elem_of_cons in Hk as [->|Hk]; [|contradiction].
      rewrite (Hout k0 Hks). cbn. by rewrite decide_True.
    + intros k Hk. apply not_elem_of_cons in Hk as [Hne Hk].
      rewrite (Hout k Hk). cbn. by rewrite decide_False.
Qed.

Lemma reinitPortStats_reporting (s : PortStats) :
  shouldReportStats = true ->
  exists s',
    reinitPortStats s = (Returns tt, s') /\
    registered s' /\
    (forall k, portCounters_ s' k = Some []) /\
    lastPortStats_ s' = BcmPortStats_init.
Proof.
  intros Hreport. unfold reinitPortStats. rewrite Hreport. cbn [negb].
  match goal with
  | |- context [forM ?ks reinitPortStat] =>
      destruct (forM_reinitPortStat ks s) as (s1 & Hrun & _ & Hin & _)
  end.
  unfold bindM at 1. rewrite Hrun. cbv [bindM modifyM set_lastPortStats].
  eexists. split; [reflexivity|]. unfold registered. cbn [portCounters_ lastPortStats_].
  assert (Hall : forall k, portCounters_ s1 k = Some []).
  { intros k. apply Hin. destruct k; repeat constructor. }
  split; [|split; [exact Hall | reflexivity]].
  intros k. rewrite Hall. eauto.
Qed.

Lemma updateStats_registered (hw : HwCounters) (now : Z) (s : PortStats) :
  shouldReportStats = true ->
  registered s ->
  exists s', updateStats hw now s = (Returns tt, s') /\
             registered s' /\ getTimeRetrieved s' = now.
Proof.
  intros Hreport Hreg.
  destruct (gatherStats_returns hw now s Hreg) as (g & s1 & Hgather & Hreg1).
  unfold updateStats. rewrite Hreport. cbn [negb].
  unfold bindM at 1. rewrite Hgather.
  unfold bindM at 1. unfold getM at 1. cbv beta iota.
  assert (Hcompute : exists cur s2,
            computeNonPauseDiscards now (portStats (lastPortStats_ s1)) g s1
            = (Returns cur, s2) /\ registered s2).
  { destruct (derivation_runs (portStats (lastPortStats_ s1)) g) eqn:Hruns.
    - destruct (Hreg1 kInNonPauseDiscards) as [c Hc].
      destruct (computeNonPauseDiscards_runs now _ g s1 c Hruns Hc)
        as (cur & s2 & Hrun & _ & _ & _ & Hcounter).
      exists cur, s2. split; [exact Hrun|].
      revert Hrun. unfold computeNonPauseDiscards.
      apply derivation_runs_true_iff in Hruns as (Hl & HiD & HiP & HdP & HdD).
      unfold deltaSincePrev in HdP, HdD.
      rewrite Hl. apply Z.eqb_neq in HiD, HiP. rewrite HiD, HiP. cbn [negb andb].
      apply Z.leb_le in HdP, HdD. cbv zeta. rewrite HdP, HdD. cbn [andb].
      cbv [bindM updateValue getM modifyM retM]. rewrite Hc.
      intros Hrun. inversion Hrun; subst. intros k. cbn. case_decide; eauto.
    - rewrite (computeNonPauseDiscards_skips now _ g s1 Hruns). eauto. }
  destruct Hcompute as (cur & s2 & Hrun & Hreg2).
  unfold bindM at 1. rewrite Hrun. cbv [bindM modifyM].
  destruct (opennsl_port_queued_count_get hw);
    destruct (updatePktLenHist hw now kInPktLengthStats);
    destruct (updatePktLenHist hw now kOutPktLengthStats);
    (eexists; split; [reflexivity|]); split; try reflexivity; exact Hreg2.
Qed.

(** The statistics thread: one [updateStats] per poll. *)
Definition pollAll (polls : list (HwCounters * Z)) : Op unit :=
  forM polls (fun poll => updateStats (fst poll) (snd poll)).

Lemma pollAll_registered (polls : list (HwCounters * Z)) (s : PortStats) :
  shouldReportStats = true ->
  registered s ->
  exists s', pollAll polls s = (Returns tt, s') /\ registered s' /\
             getTimeRetrieved s' = default (getTimeRetrieved s) (last (map snd polls)).
Proof.
  intros Hreport. revert s.
  induction polls as [|[hw now] polls IH]; intros s Hreg; cbn [pollAll forM].
  - exists s. split; [reflexivity|]. split; [exact Hreg | reflexivity].
  - destruct (updateStats_registered hw now s Hreport Hreg) as (s1 & Hrun & Hreg1 & Htime).
    unfold bindM. cbn [fst snd]. rewrite Hrun.
    destruct (IH s1 Hreg1) as (s' & Hrest & Hreg' & Htime').
    exists s'. split; [exact Hrest|]. split; [exact Hreg'|].
    rewrite Htime', Htime. cbn [map snd]. rewrite last_cons.
    by destruct (last (map snd polls)).
Qed.

(** *** What one poll gathers *)

(** The counters [updateStats] reads, in the order of the source: the
    exported counter, the SDK statistic and the field of the snapshot. *)
Definition statTable : list (StatKey * opennsl_stat_val_t * StatField) :=
  [ (kInBytes, opennsl_spl_snmpIfHCInOctets, inBytes_);
    (kInUnicastPkts, opennsl_spl_snmpIfHCInUcastPkts, inUnicastPkts_);
    (kInMulticastPkts, opennsl_spl_snmpIfHCInMulticastPkts, inMulticastPkts_);
    (kInBroadcastPkts, opennsl_spl_snmpIfHCInBroadcastPkts, inBroadcastPkts_);
    (kInDiscards, opennsl_spl_snmpIfInDiscards, inDiscards_);
    (kInErrors, opennsl_spl_snmpIfInErrors, inErrors_);
    (kInIpv4HdrErrors, opennsl_spl_snmpIpInHdrErrors, inIpv4HdrErrors_);
    (kInIpv6HdrErrors, opennsl_spl_snmpIpv6IfStatsInHdrErrors, inIpv6HdrErrors_);
    (kInPause, opennsl_spl_snmpDot3InPauseFrames, inPause_);
    (kOutBytes, opennsl_spl_snmpIfHCOutOctets, outBytes_);
    (kOutUnicastPkts, opennsl_spl_snmpIfHCOutUcastPkts, outUnicastPkts_);
    (kOutMulticastPkts, opennsl_spl_snmpIfHCOutMulticastPkts, outMulticastPkts_);
    (kOutBroadcastPkts, opennsl_spl_snmpIfHCOutBroadcastPckts, outBroadcastPkts_);
    (kOutDiscards, opennsl_spl_snmpIfOutDiscards, outDiscards_);
    (kOutErrors, opennsl_spl_snmpIfOutErrors, outErrors_);
    (kOutPause, opennsl_spl_snmpDot3OutPauseFrames, outPause_) ].

Definition keyOf (e : StatKey * opennsl_stat_val_t * StatField) : StatKey := fst (fst e).
Definition typeOf (e : StatKey * opennsl_stat_val_t * StatField) : opennsl_stat_val_t :=
  snd (fst e).
Definition fieldOf (e : StatKey * opennsl_stat_val_t * StatField) : StatField := snd e.

(** One [updateStat], on the snapshot under construction and on the
    exported counters. *)
Definition readInto (hw : HwCounters) (c : HwPortStats)
    (e : StatKey * opennsl_stat_val_t * StatField) : HwPortStats :=
  match opennsl_stat_get hw (typeOf e) with
  | Some value => set_counter (fieldOf e) (int64 value) c
  | None => c
  end.

Definition sampleInto (hw : HwCounters) (now : Z) (s : PortStats)
    (e : StatKey * opennsl_stat_val_t * StatField) : PortStats :=
  match opennsl_stat_get hw (typeOf e), portCounters_ s (keyOf e) with
  | Some value, Some old => set_portCounter (keyOf e) (old ++ [(now, int64 value)]) s
  | _, _ => s
  end.

Lemma sampleInto_registered hw now s e : registered s -> registered (sampleInto hw now s e).
Proof.
  intros Hreg k. unfold sampleInto.
  destruct (opennsl_stat_get hw (typeOf e)); [|apply Hreg].
  destruct (portCounters_ s (keyOf e)); [|apply Hreg].
  cbn. case_decide; [eauto | apply Hreg].
Qed.

Lemma updateStat_step hw now k t f c s :
  registered s ->
  updateStat hw now k t f c s
  = (Returns (readInto hw c (k, t, f)), sampleInto hw now s (k, t, f)).
Proof.
  intros Hreg. unfold updateStat, readInto, sampleInto. cbn [typeOf keyOf fieldOf fst snd].
  destruct (opennsl_stat_get hw t) as [value|]; [|reflexivity].
  cbv [bindM updateValue getM modifyM retM].
  destruct (Hreg k) as [old Hold]. rewrite Hold. reflexivity.
Qed.

Lemma gatherStats_by_table hw now s :
  registered s ->
  gatherStats hw now s
  = (Returns (setAdditionalStats now
                (updateBcmStats now (fold_left (readInto hw) statTable HwPortStats_default))),
     fold_left (sampleInto hw now) statTable s).
Proof.
  intros Hreg. unfold gatherStats, statTable. cbn [fold_left].
  repeat (unfold bindM at 1; rewrite updateStat_step by (repeat apply sampleInto_registered; exact Hreg)).
  reflexivity.
Qed.

Lemma readInto_other hw l c f :
  f ∉ fieldOf <$> l -> counter (fold_left (readInto hw) l c) f = counter c f.
Proof.
  revert c. induction l as [|e l IH]; intros c Hf; [reflexivity|].
  rewrite fmap_cons in Hf. apply not_elem_of_cons in Hf as [Hne Hf].
  cbn [fold_left]. rewrite (IH _ Hf). unfold readInto.
  destruct (opennsl_stat_get hw (typeOf e)); [|reflexivity].
  by apply counter_set_other.
Qed.

Lemma readInto_entry hw l c e :
  NoDup (fieldOf <$> l) -> e ∈ l ->
  counter (fold_left (readInto hw) l c) (fieldOf e)
  = match opennsl_stat_get hw (typeOf e) with
    | Some value => int64 value
    | None => counter c (fieldOf e)
    end.
Proof.
  revert c. induction l as [|e0 l IH]; intros c Hnd He; [by apply not_elem_of_nil in He|].
  rewrite fmap_cons in Hnd. apply NoDup_cons in Hnd as [Hfresh Hnd].
  cbn [fold_left]. apply elem_of_cons in He as [->|He].
  - rewrite (readInto_other hw l _ _ Hfresh). unfold readInto.
    destruct (opennsl_stat_get hw (typeOf e0)); [apply counter_set_same | reflexivity].
  - rewrite (IH _ Hnd He).
    assert (Hne : fieldOf e <> fieldOf e0).
    { intros Heq. apply Hfresh. rewrite <- Heq. by apply list_elem_of_fmap_2. }
    destruct (opennsl_stat_get hw (typeOf e)); [reflexivity|].
    unfold readInto. destruct (opennsl_stat_get hw (typeOf e0)); [|reflexivity].
    by apply counter_set_other.
Qed.

Lemma readInto_queues hw l c :
  queueOutDiscardBytes_ (fold_left (readInto hw) l c) = queueOutDiscardBytes_ c /\
  queueOutBytes_ (fold_left (readInto hw) l c) = queueOutBytes_ c.
Proof.
  revert c. induction l as [|e l IH]; intros c; [done|].
  cbn [fold_left]. destruct (IH (readInto hw c e)) as [-> ->].
  unfold readInto. by destruct (opennsl_stat_get hw (typeOf e)).
Qed.

Lemma sampleInto_last hw now l s :
  lastPortStats_ (fold_left (sampleInto hw now) l s) = lastPortStats_ s.
Proof.
  revert s. induction l as [|e l IH]; intros s; [reflexivity|].
  cbn [fold_left]. rewrite IH. unfold sampleInto.
  destruct (opennsl_stat_get hw (typeOf e)); [|reflexivity].
  by destruct (portCounters_ s (keyOf e)).
Qed.

Lemma sampleInto_other hw now l s k :
  k ∉ keyOf <$> l ->
  portCounters_ (fold_left (sampleInto hw now) l s) k = portCounters_ s k.
Proof.
  revert s. induction l as [|e l IH]; intros s Hk; [reflexivity|].
  rewrite fmap_cons in Hk. apply not_elem_of_cons in Hk as [Hne Hk].
  cbn [fold_left]. rewrite (IH _ Hk). unfold sampleInto.
  destruct (opennsl_stat_get hw (typeOf e)); [|reflexivity].
  destruct (portCounters_ s (keyOf e)); [|reflexivity].
  cbn. by rewrite decide_False.
Qed.

Lemma sampleInto_entry hw now l s e old :
  NoDup (keyOf <$> l) -> e ∈ l -> portCounters_ s (keyOf e) = Some old ->
  portCounters_ (fold_left (sampleInto hw now) l s) (keyOf e)
  = Some (old ++ match opennsl_stat_get hw (typeOf e) with
                 | Some value => [(now, int64 value)]
                 | None => []
                 end).
Proof.
  revert s. induction l as [|e0 l IH]; intros s Hnd He Hold; [by apply not_elem_of_nil in He|].
  rewrite fmap_cons in Hnd. apply NoDup_cons in Hnd as [Hfresh Hnd].
  cbn [fold_left]. apply elem_of_cons in He as [->|He].
  - rewrite (sampleInto_other hw now l _ _ Hfresh). unfold sampleInto. rewrite Hold.
    destruct (opennsl_stat_get hw (typeOf e0)).
    + cbn. by rewrite decide_True.
    + by rewrite app_nil_r.
  - apply (IH _ Hnd He).
    assert (Hne : keyOf e <> keyOf e0).
    { intros Heq. apply Hfresh. rewrite <- Heq. by apply list_elem_of_fmap_2. }
    unfold sampleInto.
    destruct (opennsl_stat_get hw (typeOf e0)); [|exact Hold].
    destruct (portCounters_ s (keyOf e0)); [|exact Hold].
    cbn. by rewrite decide_False.
Qed.

Lemma statTable_fields_NoDup : NoDup (fieldOf <$> statTable).
Proof. apply (bool_decide_unpack _). vm_compute. exact I. Qed.

Lemma statTable_keys_NoDup : NoDup (keyOf <$> statTable).
Proof. apply (bool_decide_unpack _). vm_compute. exact I. Qed.

Lemma pollAll_not_reporting (polls : list (HwCounters * Z)) (s : PortStats) :
  shouldReportStats = false -> pollAll polls s = (Returns tt, s).
Proof.
  intros Hreport. induction polls as [|[hw now] polls IH]; cbn [pollAll forM]; [reflexivity|].
  unfold bindM, updateStats at 1. rewrite Hreport. exact IH.
Qed.

Lemma updateStats_skipping hw now s g s1 :
  shouldReportStats = true ->
  gatherStats hw now s = (Returns g, s1) ->
  derivation_runs (portStats (lastPortStats_ s1)) g = false ->
  exists s',
    updateStats hw now s = (Returns tt, s') /\
    getPortStats s' = g /\
    portCounters_ s' = portCounters_ s1.
Proof.
  intros Hreport Hgather Hruns.
  unfold updateStats. rewrite Hreport. cbn [negb].
  unfold bindM at 1. rewrite Hgather.
  unfold bindM at 1. unfold getM at 1. cbv beta iota.
  unfold bindM at 1. rewrite (computeNonPauseDiscards_skips now _ g s1 Hruns).
  cbv [bindM modifyM].
  destruct (opennsl_port_queued_count_get hw);
    destruct (updatePktLenHist hw now kInPktLengthStats);
    destruct (updatePktLenHist hw now kOutPktLengthStats);
    (eexists; split; [reflexivity|]); split; reflexivity.
Qed.

(** X18. Once [reinitPortStats] has run, polling never fails.  On a port
    that reports statistics it registers every exported counter afresh
    and resets the last snapshot to the initial one; every [updateStats]
    after it then returns (no counter pointer is null, and no SDK failure
    is raised as an error), keeps all counters registered and stamps the
    snapshot with the time of the poll.  On a port that does not report
    statistics neither [reinitPortStats] nor any number of polls changes
    anything. *)
Theorem polls_after_reinit_always_return :
  forall (s : PortStats) (polls : list (HwCounters * Z)),
    (shouldReportStats = false ->
     reinitPortStats s = (Returns tt, s) /\ pollAll polls s = (Returns tt, s)) /\
    (shouldReportStats = true ->
     exists s0 s',
       reinitPortStats s = (Returns tt, s0) /\
       (forall k, portCounters_ s0 k = Some []) /\
       lastPortStats_ s0 = BcmPortStats_init /\
       pollAll polls s0 = (Returns tt, s') /\
       (forall k, is_Some (portCounters_ s' k)) /\
       (forall rest hw now, polls = rest ++ [(hw, now)] -> getTimeRetrieved s' = now)).
Proof.
  intros s polls. split.
  - intros Hreport. split; [|by apply pollAll_not_reporting].
    unfold reinitPortStats. by rewrite Hreport.
  - intros Hreport.
    destruct (reinitPortStats_reporting s Hreport) as (s0 & Hinit & Hreg0 & Hempty & Hlast).
    destruct (pollAll_registered polls s0 Hreport Hreg0) as (s' & Hrun & Hreg' & Htime).
    exists s0, s'. repeat (split; [assumption|]).
    intros rest hw now ->. rewrite Htime, map_app. cbn [map snd].
    rewrite last_snoc. reflexivity.
Qed.

(** X19. What one poll gathers.  With every exported counter registered,
    the gathering part of [updateStats] returns.  For each of the sixteen
    counters it reads, the field of the snapshot under construction holds
    the value just read, converted to a signed 64-bit integer, or stays
    uninitialized if that read failed, never a value of an earlier poll;
    and the exported counter gets exactly one sample for a read that
    succeeded, stamped with the time of the poll and carrying the same
    converted value as the field, and none for a read that failed.  A
    value below 2^63 is kept as it is, in the field and in the sample; a
    larger one wraps around to a negative number in both.  The derived
    non-pause discards and the ECN counter are not gathered and are
    uninitialized at this point; the other exported counters and the last
    snapshot are untouched.  The snapshot under construction is then
    handed to [updateBcmStats] and [setAdditionalStats]. *)
Theorem gatherStats_reads_each_counter_once :
  forall (hw : HwCounters) (now : Z) (s : PortStats),
    (forall k, is_Some (portCounters_ s k)) ->
    exists c s1,
      gatherStats hw now s
      = (Returns (setAdditionalStats now (updateBcmStats now c)), s1) /\
      (forall k t f, (k, t, f) ∈ statTable ->
         counter c f = match opennsl_stat_get hw t with
                       | Some value => int64 value
                       | None => kUninit
                       end /\
         (exists old,
           portCounters_ s k = Some old /\
           portCounters_ s1 k = Some (old ++ match opennsl_stat_get hw t with
                                             | Some value => [(now, int64 value)]
                                             | None => []
                                             end)) /\
         (forall value, opennsl_stat_get hw t = Some value ->
            (0 <= value < 2 ^ 63 -> int64 value = value) /\
            (2 ^ 63 <= value < 2 ^ 64 -> int64 value = value - 2 ^ 64))) /\
      counter c inNonPauseDiscards_ = kUninit /\
      counter c outEcnCounter_ = kUninit /\
      portCounters_ s1 kInNonPauseDiscards = portCounters_ s kInNonPauseDiscards /\
      portCounters_ s1 kOutEcnCounter = portCounters_ s kOutEcnCounter /\
      lastPortStats_ s1 = lastPortStats_ s.
Proof.
  intros hw now s Hreg.
  eexists _, _. split; [by apply gatherStats_by_table|].
  split; [|split; [|split; [|split; [|split]]]].
  - intros k t f He.
    pose proof (readInto_entry hw statTable HwPortStats_default (k, t, f)
                  statTable_fields_NoDup He) as Hread.
    cbn [fieldOf typeOf fst snd HwPortStats_default counter] in Hread.
    split; [exact Hread|]. split.
    + destruct (Hreg k) as [old Hold]. exists old. split; [exact Hold|].
      apply (sampleInto_entry hw now statTable s (k, t, f) old
               statTable_keys_NoDup He Hold).
    + intros value _. split; intros Hrange.
      * apply int64_small. unfold in_int64. lia.
      * unfold int64.
        replace (value + 2 ^ 63) with (value - 2 ^ 63 + 1 * 2 ^ 64) by lia.
        rewrite Z.mod_add by lia. rewrite Z.mod_small by lia. lia.
  - apply readInto_other. apply (bool_decide_unpack _). vm_compute. exact I.
  - apply readInto_other. apply (bool_decide_unpack _). vm_compute. exact I.
  - apply sampleInto_other. apply (bool_decide_unpack _). vm_compute. exact I.
  - apply sampleInto_other. apply (bool_decide_unpack _). vm_compute. exact I.
  - apply sampleInto_last.
Qed.

(** X20. The first poll after [reinitPortStats] never derives non-pause
    discards.  The snapshot [reinitPortStats] leaves has in-discards and
    in-pause uninitialized, so the next [updateStats] skips the
    derivation whatever the MMU mode and the counters read: the published
    snapshot is what gathering produced, its non-pause discards are what
    [updateBcmStats] and [setAdditionalStats] left of an uninitialized
    field, and the exported in-non-pause-discards counter receives no
    sample. *)
Theorem first_poll_after_reinit_skips_derivation :
  forall (hw : HwCounters) (now : Z) (s : PortStats),
    shouldReportStats = true ->
    exists s0 c s',
      reinitPortStats s = (Returns tt, s0) /\
      counter (getPortStats s0) inDiscards_ = kUninit /\
      counter (getPortStats s0) inPause_ = kUninit /\
      counter c inNonPauseDiscards_ = kUninit /\
      updateStats hw now s0 = (Returns tt, s') /\
      getPortStats s' = setAdditionalStats now (updateBcmStats now c) /\
      getTimeRetrieved s' = now /\
      portCounters_ s' kInNonPauseDiscards = Some [].
Proof.
  intros hw now s Hreport.
  destruct (reinitPortStats_reporting s Hreport) as (s0 & Hinit & Hreg0 & Hempty & Hlast).
  pose proof (gatherStats_by_table hw now s0 Hreg0) as Hgather.
  set (c := fold_left (readInto hw) statTable HwPortStats_default) in Hgather.
  set (s1 := fold_left (sampleInto hw now) statTable s0) in Hgather.
  assert (Hlast1 : lastPortStats_ s1 = BcmPortStats_init)
    by (unfold s1; by rewrite sampleInto_last).
  assert (Hruns : derivation_runs (portStats (lastPortStats_ s1))
                    (setAdditionalStats now (updateBcmStats now c)) = false).
  { rewrite Hlast1. unfold derivation_runs, BcmPortStats_init. cbn [portStats counter].
    rewrite Z.eqb_refl. cbn [negb]. by rewrite andb_false_r. }
  destruct (updateStats_skipping hw now s0 _ s1 Hreport Hgather Hruns)
    as (s' & Hrun & Hpub & Hcounters).
  destruct (updateStats_registered hw now s0 Hreport Hreg0) as (s'' & Hrun' & _ & Htime).
  rewrite Hrun in Hrun'. inversion Hrun'; subst s''.
  exists s0, c, s'. split; [exact Hinit|].
  unfold getPortStats at 1 2. rewrite Hlast. unfold BcmPortStats_init. cbn [portStats counter].
  split; [reflexivity|]. split; [reflexivity|]. split.
  { unfold c. apply readInto_other. apply (bool_decide_unpack _). vm_compute. exact I. }
  split; [exact Hrun|]. split; [exact Hpub|]. split; [exact Htime|].
  rewrite Hcounters. unfold s1. rewrite sampleInto_other; [apply Hempty|].
  apply (bool_decide_unpack _). vm_compute. exact I.
Qed.

(** *** Queue length and packet-length histograms *)

Lemma sampleInto_exports hw now l s :
  outQueueLen_ (fold_left (sampleInto hw now) l s) = outQueueLen_ s /\
  inPktLengths_ (fold_left (sampleInto hw now) l s) = inPktLengths_ s /\
  outPktLengths_ (fold_left (sampleInto hw now) l s) = outPktLengths_ s.
Proof.
  revert s. induction l as [|e l IH]; intros s; [done|].
  cbn [fold_left]. destruct (IH (sampleInto hw now s e)) as (-> & -> & ->).
  unfold sampleInto. destruct (opennsl_stat_get hw (typeOf e)); [|done].
  by destruct (portCounters_ s (keyOf e)).
Qed.

Lemma sampleInto_all_registered hw now l s :
  registered s -> registered (fold_left (sampleInto hw now) l s).
Proof.
  revert s. induction l as [|e l IH]; intros s Hreg; [exact Hreg|].
  cbn [fold_left]. apply IH. by apply sampleInto_registered.
Qed.

Lemma computeNonPauseDiscards_registered now last cur s :
  registered s ->
  exists cur' s',
    computeNonPauseDiscards now last cur s = (Returns cur', s') /\
    outQueueLen_ s' = outQueueLen_ s /\
    inPktLengths_ s' = inPktLengths_ s /\
    outPktLengths_ s' = outPktLengths_ s.
Proof.
  intros Hreg. unfold computeNonPauseDiscards.
  destruct (isMmuLossy && _ && _); [|by eexists _, _].
  cbv zeta. destruct (_ && _); [|by eexists _, _].
  cbv [bindM updateValue getM modifyM retM].
  destruct (Hreg kInNonPauseDiscards) as [c ->]. by eexists _, _.
Qed.

(** The samples one successful [opennsl_stat_multi_get] adds to a
    histogram: bucket [idx] gets the [idx]-th counter. *)
Definition histogramSamples (now : Z) (stats : list opennsl_stat_val_t) (counters : list Z)
  : list (Z * nat * Z) :=
  imap (fun idx v => (now, idx, v)) (take (length stats) counters).

(** X21. The last part of [updateStats] exports the queue length and the
    two packet-length histograms, each on its own: with every counter
    registered, [updateStats] returns, the queue-length statistic gets one
    sample stamped with the poll time if the SDK delivered the queue
    length and none if it failed, and each histogram gets one sample per
    length bucket (ten, bucket [idx] receiving the [idx]-th counter) if
    its multi-counter read succeeded and none if it failed.  A failure of
    one of the three reads does not affect the other two and is not
    raised. *)
Theorem updateStats_exports_queue_length_and_histograms :
  forall (hw : HwCounters) (now : Z) (s : PortStats),
    shouldReportStats = true ->
    (forall k, is_Some (portCounters_ s k)) ->
    exists s',
      updateStats hw now s = (Returns tt, s') /\
      outQueueLen_ s' = outQueueLen_ s ++
        match opennsl_port_queued_count_get hw with
        | Some qlength => [(now, qlength)]
        | None => []
        end /\
      inPktLengths_ s' = inPktLengths_ s ++
        match opennsl_stat_multi_get hw kInPktLengthStats with
        | Some counters => histogramSamples now kInPktLengthStats counters
        | None => []
        end /\
      outPktLengths_ s' = outPktLengths_ s ++
        match opennsl_stat_multi_get hw kOutPktLengthStats with
        | Some counters => histogramSamples now kOutPktLengthStats counters
        | None => []
        end /\
      (forall counters, (10 <= length counters)%nat ->
         map (fun x => snd (fst x)) (histogramSamples now kInPktLengthStats counters)
         = seq 0 10 /\
         map (fun x => snd (fst x)) (histogramSamples now kOutPktLengthStats counters)
         = seq 0 10).
Proof.
  intros hw now s Hreport Hreg.
  pose proof (gatherStats_by_table hw now s Hreg) as Hgather.
  set (g := setAdditionalStats now _) in Hgather.
  set (s1 := fold_left (sampleInto hw now) statTable s) in Hgather.
  assert (Hreg1 : registered s1) by (by apply sampleInto_all_registered).
  destruct (sampleInto_exports hw now statTable s) as (Hq1 & Hi1 & Ho1). fold s1 in Hq1, Hi1, Ho1.
  destruct (computeNonPauseDiscards_registered now (portStats (lastPortStats_ s1)) g s1 Hreg1)
    as (cur & s2 & Hrun & Hq2 & Hi2 & Ho2).
  unfold updateStats. rewrite Hreport. cbn [negb].
  unfold bindM at 1. rewrite Hgather.
  unfold bindM at 1. unfold getM at 1. cbv beta iota.
  unfold bindM at 1. rewrite Hrun. cbv [bindM modifyM updatePktLenHist].
  eexists. split; [reflexivity|].
  split; [|split; [|split]].
  - destruct (opennsl_port_queued_count_get hw);
      destruct (opennsl_stat_multi_get hw kInPktLengthStats);
      destruct (opennsl_stat_multi_get hw kOutPktLengthStats);
      cbn; rewrite ?app_nil_r; congruence.
  - destruct (opennsl_port_queued_count_get hw);
      destruct (opennsl_stat_multi_get hw kInPktLengthStats);
      destruct (opennsl_stat_multi_get hw kOutPktLengthStats);
      cbn [inPktLengths_ set_lastPortStats]; rewrite ?app_nil_r; unfold histogramSamples; congruence.
  - destruct (opennsl_port_queued_count_get hw);
      destruct (opennsl_stat_multi_get hw kInPktLengthStats);
      destruct (opennsl_stat_multi_get hw kOutPktLengthStats);
      cbn [outPktLengths_ set_lastPortStats]; rewrite ?app_nil_r; unfold histogramSamples; congruence.
  - intros counters Hlen.
    do 10 (destruct counters as [|? counters]; [cbn in Hlen; lia|]).
    split; reflexivity.
Qed.

End Stats.

(** *** The two-poll example *)

(** The value of the thrift constant [STAT_UNINITIALIZED]
    (hardware_stats.thrift). *)
Definition STAT_UNINITIALIZED : Z := -1.

Definition noExtraStats (now : Z) (c : HwPortStats) : HwPortStats := c.

(** A poll in which the SDK reports the given in-discards and in-pause
    counts, and zero for everything else. *)
Definition hwPoll (discards pause : Z) : HwCounters :=
  mkHwCounters
    (fun t => match t with
              | opennsl_spl_snmpIfInDiscards => Some discards
              | opennsl_spl_snmpDot3InPauseFrames => Some pause
              | _ => Some 0
              end)
    (Some 0) (fun stats => Some (repeat 0 10)).

Definition unregistered : PortStats :=
  mkPortStats (fun _ => None) (BcmPortStats_init STAT_UNINITIALIZED 8) [] [] [].

(** Stats and histograms under names that are new. *)
Definition newStat (name : string) (s : PortStats) : list (Z * Z) := [].
Definition newHistogram (name : string) (s : PortStats) : list (Z * nat * Z) := [].

Definition freshStats : PortStats :=
  snd (reinitPortStats STAT_UNINITIALIZED true 8 newStat newHistogram unregistered).

(** One poll with the MMU in lossy mode. *)
Definition poll (hw : HwCounters) (now : Z) : M PortStats Exception unit :=
  updateStats STAT_UNINITIALIZED true true noExtraStats noExtraStats hw now.

Definition afterPoll1 : PortStats := snd (poll (hwPoll 100 100) 1000 freshStats).
Definition afterPoll2 : PortStats := snd (poll (hwPoll 130 110) 1001 afterPoll1).

(** Stats and histograms under the names the port already uses. *)
Definition sameStat (name : string) (s : PortStats) : list (Z * Z) := outQueueLen_ s.
Definition sameHistogram (name : string) (s : PortStats) : list (Z * nat * Z) :=
  if String.eqb name "in_pkt_lengths" then inPktLengths_ s else outPktLengths_ s.

(** Re-initialising under the same names starts the counters and the
    snapshot afresh, and keeps the samples of the queue length and of the
    histograms. *)
Example reinit_under_names_in_use :
  let s := snd (reinitPortStats STAT_UNINITIALIZED true 8 sameStat sameHistogram afterPoll1) in
  portCounters_ s kInDiscards = Some [] /\
  counter (getPortStats s) inDiscards_ = STAT_UNINITIALIZED /\
  outQueueLen_ s = [(1000, 0)] /\
  length (inPktLengths_ s) = 10%nat /\
  length (outPktLengths_ s) = 10%nat.
Proof. vm_compute. repeat split; reflexivity. Qed.

Example two_polls_snapshots :
  fst (poll (hwPoll 100 100) 1000 freshStats) = Returns tt /\
  counter (getPortStats afterPoll1) inDiscards_ = 100 /\
  counter (getPortStats afterPoll1) inPause_ = 100 /\
  portCounters_ afterPoll1 kInNonPauseDiscards = Some [] /\
  fst (poll (hwPoll 130 110) 1001 afterPoll1) = Returns tt /\
  counter (getPortStats afterPoll2) inDiscards_ = 130 /\
  counter (getPortStats afterPoll2) inPause_ = 110 /\
  counter (getPortStats afterPoll2) inNonPauseDiscards_ = 20 /\
  portCounters_ afterPoll2 kInNonPauseDiscards = Some [(1001, 20)].
Proof. vm_compute. repeat split; reflexivity. Qed.

Lemma afterPoll1_registered : forall k, is_Some (portCounters_ afterPoll1 k).
Proof. intros k. destruct k; vm_compute; eauto. Qed.

Lemma gatherStats_reads_each_counter_once_witness :
  exists c s1,
    gatherStats STAT_UNINITIALIZED noExtraStats noExtraStats (hwPoll 130 110) 1001 afterPoll1
    = (Returns (noExtraStats 1001 (noExtraStats 1001 c)), s1) /\
    counter c inDiscards_ = int64 130 /\
    counter c inNonPauseDiscards_ = STAT_UNINITIALIZED.
Proof.
  destruct (gatherStats_reads_each_counter_once STAT_UNINITIALIZED noExtraStats noExtraStats
              (hwPoll 130 110) 1001 afterPoll1 afterPoll1_registered)
    as (c & s1 & Hgather & Htable & Hderived & _).
  exists c, s1. split; [exact Hgather|]. split; [|exact Hderived].
  refine (proj1 (Htable kInDiscards opennsl_spl_snmpIfInDiscards inDiscards_ _)).
  unfold statTable. do 4 apply list_elem_of_further. apply list_elem_of_here.
Defined.

Lemma updateStats_exports_queue_length_and_histograms_witness :
  exists s',
    poll (hwPoll 130 110) 1001 afterPoll1 = (Returns tt, s') /\
    outQueueLen_ s' = outQueueLen_ afterPoll1 ++ [(1001, 0)] /\
    length (inPktLengths_ s') = (length (inPktLengths_ afterPoll1) + 10)%nat.
Proof.
  destruct (updateStats_exports_queue_length_and_histograms STAT_UNINITIALIZED true true
              noExtraStats noExtraStats (hwPoll 130 110) 1001 afterPoll1
              eq_refl afterPoll1_registered)
    as (s' & Hrun & Hqueue & Hin & _).
  exists s'. split; [exact Hrun|]. split; [exact Hqueue|].
  rewrite Hin, length_app. reflexivity.
Defined.

Lemma first_poll_after_reinit_skips_derivation_witness :
  exists s0 c s',
    reinitPortStats STAT_UNINITIALIZED true 8 newStat newHistogram unregistered
    = (Returns tt, s0) /\
    counter (getPortStats s0) inDiscards_ = STAT_UNINITIALIZED /\
    counter (getPortStats s0) inPause_ = STAT_UNINITIALIZED /\
    counter c inNonPauseDiscards_ = STAT_UNINITIALIZED /\
    updateStats STAT_UNINITIALIZED true true noExtraStats noExtraStats (hwPoll 100 100) 1000 s0
    = (Returns tt, s') /\
    getPortStats s' = noExtraStats 1000 (noExtraStats 1000 c) /\
    getTimeRetrieved s' = 1000 /\
    portCounters_ s' kInNonPauseDiscards = Some [].
Proof.
  apply (first_poll_after_reinit_skips_derivation STAT_UNINITIALIZED true true 8
           noExtraStats noExtraStats newStat newHistogram (hwPoll 100 100) 1000 unregistered).
  reflexivity.
Defined.

(** C1, the claim as stated fails at poll 1: with no previous snapshot
    the derivation is skipped, and the cumulative counter of the snapshot
    keeps the uninitialized marker (-1); it is not 0. *)
Lemma nonPauseDiscards_uninitialized_after_first_poll :
  fst (poll (hwPoll 100 100) 1000 freshStats) = Returns tt /\
  counter (getPortStats afterPoll1) inNonPauseDiscards_ = STAT_UNINITIALIZED /\
  (counter (getPortStats afterPoll1) inNonPauseDiscards_ =? 0) = false.
Proof. vm_compute. repeat split; reflexivity. Qed.

(** C1 (as the code has it). In a poll with every exported counter
    registered, [updateStats] returns and publishes a snapshot stamped
    with the poll time.  When the MMU is lossy, the previous snapshot's
    in-discards and in-pause are initialized and both 64-bit deltas are
    non-negative, the snapshot's cumulative non-pause discards are the
    previous cumulative value (0 if that is uninitialized) plus
    [max 0 (deltaDiscards - deltaPause)], in 64-bit arithmetic (and exactly
    that sum when it fits).  Otherwise the derivation is skipped and the
    field keeps what gathering left in it.  For in-discards 100, 130 and
    in-pause 100, 110 over two polls in lossy mode, the cumulative value
    is still uninitialized after poll 1, counts as 0 when poll 2 starts
    from it, and is 20 after poll 2. *)
Theorem nonPauseDiscards_accumulates :
  (forall (kUninit : Z) (isMmuLossy : bool)
          (updateBcmStats setAdditionalStats : Z -> HwPortStats -> HwPortStats)
          (hw : HwCounters) (now : Z) (s : PortStats),
     (forall k, is_Some (portCounters_ s k)) ->
     exists g s1 s',
       gatherStats kUninit updateBcmStats setAdditionalStats hw now s = (Returns g, s1) /\
       updateStats kUninit true isMmuLossy updateBcmStats setAdditionalStats hw now s
       = (Returns tt, s') /\
       getTimeRetrieved s' = now /\
       let prev := getPortStats s in
       let cur := getPortStats s' in
       let deltaPause := int64 (counter cur inPause_ - counter prev inPause_) in
       let deltaDiscards := int64 (counter cur inDiscards_ - counter prev inDiscards_) in
       let seed := if counter prev inNonPauseDiscards_ =? kUninit
                   then 0 else counter prev inNonPauseDiscards_ in
       (isMmuLossy = true ->
        counter prev inDiscards_ <> kUninit -> counter prev inPause_ <> kUninit ->
        0 <= deltaDiscards -> 0 <= deltaPause ->
        counter cur inNonPauseDiscards_
        = int64 (seed + Z.max 0 (deltaDiscards - deltaPause)) /\
        (in_int64 (seed + Z.max 0 (deltaDiscards - deltaPause)) ->
         counter cur inNonPauseDiscards_ = seed + Z.max 0 (deltaDiscards - deltaPause))) /\
       (isMmuLossy = false \/ counter prev inDiscards_ = kUninit \/
        counter prev inPause_ = kUninit \/ deltaDiscards < 0 \/ deltaPause < 0 ->
        counter cur inNonPauseDiscards_ = counter g inNonPauseDiscards_)) /\
  (counter (getPortStats afterPoll1) inNonPauseDiscards_ = STAT_UNINITIALIZED /\
   seedNonPauseDiscards STAT_UNINITIALIZED (getPortStats afterPoll1) = 0 /\
   counter (getPortStats afterPoll2) inNonPauseDiscards_ = 20).
Proof.
  split; [|vm_compute; repeat split; reflexivity].
  intros kUninit lossy ubs sas hw now s Hreg.
  destruct (gatherStats_returns kUninit ubs sas hw now s Hreg) as (g & s1 & Hgather & Hreg1).
  destruct (updateStats_publishes kUninit true lossy ubs sas hw now s g s1
              eq_refl Hgather (Hreg1 kInNonPauseDiscards))
    as (s' & Hrun & Htime & Hothers & Hruns & Hskips).
  exists g, s1, s'. split; [exact Hgather|]. split; [exact Hrun|]. split; [exact Htime|].
  cbv zeta.
  rewrite (Hothers inPause_) by discriminate.
  rewrite (Hothers inDiscards_) by discriminate.
  split.
  - intros Hlossy HiD HiP HdD HdP.
    assert (Hr : derivation_runs kUninit lossy (getPortStats s) g = true).
    { apply derivation_runs_true_iff. auto. }
    specialize (Hruns Hr). unfold seedNonPauseDiscards, deltaSincePrev in Hruns.
    split; [exact Hruns|]. intros Hfits. rewrite Hruns. by apply int64_small.
  - intros Hcase. apply Hskips.
    destruct (derivation_runs kUninit lossy (getPortStats s) g) eqn:Hr; [|reflexivity].
    apply derivation_runs_true_iff in Hr as (Hl & HiD & HiP & HdP & HdD).
    unfold deltaSincePrev in HdP, HdD.
    destruct Hcase as [Hc|[Hc|[Hc|[Hc|Hc]]]]; try congruence; lia.
Qed.

Lemma nonPauseDiscards_accumulates_witness :
  exists g s1 s',
    gatherStats STAT_UNINITIALIZED noExtraStats noExtraStats (hwPoll 130 110) 1001 afterPoll1
    = (Returns g, s1) /\
    updateStats STAT_UNINITIALIZED true true noExtraStats noExtraStats
      (hwPoll 130 110) 1001 afterPoll1
    = (Returns tt, s') /\
    getTimeRetrieved s' = 1001 /\
    (true = true ->
     counter (getPortStats afterPoll1) inDiscards_ <> STAT_UNINITIALIZED ->
     counter (getPortStats afterPoll1) inPause_ <> STAT_UNINITIALIZED ->
     0 <= int64 (counter (getPortStats s') inDiscards_
                 - counter (getPortStats afterPoll1) inDiscards_) ->
     0 <= int64 (counter (getPortStats s') inPause_
                 - counter (getPortStats afterPoll1) inPause_) ->
     counter (getPortStats s') inNonPauseDiscards_
     = int64 ((if counter (getPortStats afterPoll1) inNonPauseDiscards_ =? STAT_UNINITIALIZED
               then 0 else counter (getPortStats afterPoll1) inNonPauseDiscards_)
              + Z.max 0 (int64 (counter (getPortStats s') inDiscards_
                                - counter (getPortStats afterPoll1) inDiscards_)
                         - int64 (counter (getPortStats s') inPause_
                                  - counter (getPortStats afterPoll1) inPause_)))).
Proof.
  destruct (proj1 nonPauseDiscards_accumulates STAT_UNINITIALIZED true
              noExtraStats noExtraStats (hwPoll 130 110) 1001 afterPoll1)
    as (g & s1 & s' & Hgather & Hrun & Htime & Hderived & _).
  - intros k. destruct k; vm_compute; eauto.
  - exists g, s1, s'. split; [exact Hgather|]. split; [exact Hrun|]. split; [exact Htime|].
    intros Hl HiD HiP HdD HdP. exact (proj1 (Hderived Hl HiD HiP HdD HdP)).
Defined.

End BcmStats.

(** ** Publication of the statistics snapshot

    [lastPortStats_] is a [folly::Synchronized<BcmPortStats>].  In
    [updateStats] the poller gathers [curPortStats] in a local, takes the
    read lock to copy the last snapshot, derives the non-pause discards,
    then takes the write lock, assigns the new snapshot and releases the
    lock.  [getPortStats] takes the read lock, copies the counters and
    releases it; [getTimeRetrieved] does the same for the time.  The
    assignment and the copies are modelled word by word, and the poller
    and any number of readers are interleaved by an arbitrary schedule,
    one step at a time.  What the poller computes in its steps is what
    [BcmStats.updateStats] computes. *)

Module StatsSync.

Import BcmStats.
Local Open Scope Z_scope.
Local Open Scope cpp_scope.

(** *** The data behind the lock, word by word *)

(** The words of an [HwPortStats]; a copy moves them one at a time. *)
Inductive SnapWord : Type :=
| W_counter (f : StatField)
| W_queueOutDiscardBytes
| W_queueOutBytes.

#[export] Instance SnapWord_eq_dec : EqDecision SnapWord.
Proof. solve_decision. Defined.

(** The words of a [BcmPortStats]: those of [portStats_], then
    [timeRetrieved_]. *)
Inductive PubWord : Type :=
| P_portStats (w : SnapWord)
| P_timeRetrieved.

#[export] Instance PubWord_eq_dec : EqDecision PubWord.
Proof. solve_decision. Defined.

Inductive Val : Type :=
| VInt (z : Z)
| VVec (v : list Z).

Definition word_of (w : SnapWord) (s : HwPortStats) : Val :=
  match w with
  | W_counter f => VInt (counter s f)
  | W_queueOutDiscardBytes => VVec (queueOutDiscardBytes_ s)
  | W_queueOutBytes => VVec (queueOutBytes_ s)
  end.

Definition pub_word_of (w : PubWord) (b : BcmPortStats) : Val :=
  match w with
  | P_portStats w => word_of w (portStats b)
  | P_timeRetrieved => VInt (timeRetrieved b)
  end.

Definition stats_words : list SnapWord :=
  map W_counter
    [inBytes_; inUnicastPkts_; inMulticastPkts_; inBroadcastPkts_; inDiscards_;
     inErrors_; inPause_; inIpv4HdrErrors_; inIpv6HdrErrors_; inNonPauseDiscards_;
     outBytes_; outUnicastPkts_; outMulticastPkts_; outBroadcastPkts_;
     outDiscards_; outErrors_; outPause_; outEcnCounter_]
  ++ [W_queueOutDiscardBytes; W_queueOutBytes].

Definition snapshot_words : list PubWord :=
  map P_portStats stats_words ++ [P_timeRetrieved].

(** The copy of an [HwPortStats], one word: word [w] of [to] becomes that
    of [from]. *)
Definition copy_word (w : SnapWord) (from to : HwPortStats) : HwPortStats :=
  match w with
  | W_counter f => set_counter f (counter from f) to
  | W_queueOutDiscardBytes =>
      mkHwPortStats (counter to) (queueOutDiscardBytes_ from) (queueOutBytes_ to)
  | W_queueOutBytes =>
      mkHwPortStats (counter to) (queueOutDiscardBytes_ to) (queueOutBytes_ from)
  end.

(** The assignment of a [BcmPortStats], one word. *)
Definition assign_word (w : PubWord) (from to : BcmPortStats) : BcmPortStats :=
  match w with
  | P_portStats w =>
      mkBcmPortStats (copy_word w (portStats from) (portStats to)) (timeRetrieved to)
  | P_timeRetrieved => mkBcmPortStats (portStats to) (timeRetrieved from)
  end.

(** Two values of [HwPortStats], or of [BcmPortStats], are the same when
    they agree on every word. *)
Definition same_stats (a b : HwPortStats) : Prop := forall w, word_of w a = word_of w b.

Definition same_snapshot (a b : BcmPortStats) : Prop :=
  forall w, pub_word_of w a = pub_word_of w b.

(** The memory of a local [HwPortStats] before the copy constructor has
    filled it. *)
Definition raw : HwPortStats := mkHwPortStats (fun _ => 0) [] [].

(** *** Threads and the lock *)

(** The poller thread, and any number of reader threads. *)
Inductive Thread : Type := Poller | Reader (i : nat).

(** The lock of [folly::Synchronized]: free, held by a number of readers,
    or held by the writer. *)
Inductive Lock : Type := Unlocked | ReadLocked (holders : nat) | WriteLocked.

(** [rlock()]: [None] when the caller has to wait. *)
Definition rlock (l : Lock) : option Lock :=
  match l with
  | Unlocked => Some (ReadLocked 1)
  | ReadLocked k => Some (ReadLocked (S k))
  | WriteLocked => None
  end.

(** Release of a read lock. *)
Definition runlock (l : Lock) : Lock :=
  match l with
  | ReadLocked (S (S k)) => ReadLocked (S k)
  | _ => Unlocked
  end.

(** [wlock()]: [None] when the caller has to wait. *)
Definition wlock (l : Lock) : option Lock :=
  match l with
  | Unlocked => Some WriteLocked
  | _ => None
  end.

(** What a reader thread calls. *)
Inductive Call : Type := GetPortStats | GetTimeRetrieved.

Inductive Result : Type :=
| StatsResult (s : HwPortStats)
| TimeResult (t : Z).


(** Where the poller is in [updateStats]; [todo] lists the polls still to
    come, each with what the SDK answers and the time it starts at. *)
Inductive PollerPc : Type :=
| Idle (todo : list (HwCounters * Z))
  (* curPortStats is gathered; next: lastPortStats_.rlock() *)
| WantRead (hw : HwCounters) (now : Z) (cur : HwPortStats) (todo : list (HwCounters * Z))
  (* ->portStats() copies into the local lastPortStats *)
| ReadingLast (hw : HwCounters) (now : Z) (cur : HwPortStats)
    (rest : list SnapWord) (last : HwPortStats) (todo : list (HwCounters * Z))
  (* the read lock is released; next: the non pause discards *)
| Deriving (hw : HwCounters) (now : Z) (cur last : HwPortStats)
    (todo : list (HwCounters * Z))
  (* next: lastPortStats_.wlock() *)
| WantWrite (hw : HwCounters) (now : Z) (new : BcmPortStats) (todo : list (HwCounters * Z))
  (* *lockedLastPortStatsPtr = BcmPortStats(curPortStats, now) *)
| Publishing (hw : HwCounters) (now : Z) (new : BcmPortStats)
    (rest : list PubWord) (todo : list (HwCounters * Z))
  (* the write lock is released; next: queue length and histograms *)
| Exporting (hw : HwCounters) (now : Z) (todo : list (HwCounters * Z))
  (* a failed check has ended the process *)
| Aborted (msg : string).

(** Where a reader is: between calls, with the calls still to make, or
    inside [getPortStats] or [getTimeRetrieved] with the read lock held. *)
Inductive ReaderPc : Type :=
| Outside (calls : list Call)
| CopyingStats (rest : list SnapWord) (copy : HwPortStats) (calls : list Call)
| ReadingTime (copy : option Z) (calls : list Call).

(** The port object with its lock, the threads, and what the readers'
    calls have returned so far, each with the reader it returned to. *)
Record Machine := mkMachine {
  lock : Lock;
  port : PortStats;
  poller : PollerPc;
  readers : list ReaderPc;
  results : list (nat * Result)
}.

Section Sync.

Variable kUninit : Z.
Variable shouldReportStats : bool.
Variable isMmuLossy : bool.
Variable updateBcmStats : Z -> HwPortStats -> HwPortStats.
Variable setAdditionalStats : Z -> HwPortStats -> HwPortStats.

Local Abbreviation gatherStats :=
  (BcmStats.gatherStats kUninit updateBcmStats setAdditionalStats).
Local Abbreviation computeNonPauseDiscards :=
  (BcmStats.computeNonPauseDiscards kUninit isMmuLossy).
Local Abbreviation updateStats :=
  (BcmStats.updateStats kUninit shouldReportStats isMmuLossy updateBcmStats setAdditionalStats).
Local Abbreviation pollAll :=
  (BcmStats.pollAll kUninit shouldReportStats isMmuLossy updateBcmStats setAdditionalStats).

(** The end of [BcmPort::updateStats], after the snapshot is published:
    the queue length and the two histograms. *)
Definition exportQueueLenAndHistograms (hw : HwCounters) (now : Z) : Op unit :=
  run modifyM (fun s =>
        match opennsl_port_queued_count_get hw with
        | None => s
        | Some qlength =>
            mkPortStats (portCounters_ s) (lastPortStats_ s)
              (outQueueLen_ s ++ [(now, qlength)]) (inPktLengths_ s) (outPktLengths_ s)
        end);
  run modifyM (fun s =>
        match updatePktLenHist hw now kInPktLengthStats with
        | None => s
        | Some h =>
            mkPortStats (portCounters_ s) (lastPortStats_ s) (outQueueLen_ s)
              (inPktLengths_ s ++ h) (outPktLengths_ s)
        end);
  modifyM (fun s =>
        match updatePktLenHist hw now kOutPktLengthStats with
        | None => s
        | Some h =>
            mkPortStats (portCounters_ s) (lastPortStats_ s) (outQueueLen_ s)
              (inPktLengths_ s) (outPktLengths_ s ++ h)
        end).



Definition is_aborted (pc : PollerPc) : bool :=
  match pc with Aborted _ => true | _ => false end.

(** One step of the poller. *)
Definition poller_step (m : Machine) : Machine :=
  match poller m with
  | Idle [] => m
  | Idle ((hw, now) :: todo) =>
      if negb shouldReportStats
      then mkMachine (lock m) (port m) (Idle todo) (readers m) (results m)
      else
        (* the sixteen updateStat, updateBcmStats, setAdditionalStats *)
        match gatherStats hw now (port m) with
        | (Returns cur, p) =>
            mkMachine (lock m) p (WantRead hw now cur todo) (readers m) (results m)
        | (Throws _, p) =>
            mkMachine (lock m) p (Aborted "uncaught exception") (readers m) (results m)
        | (Fatal msg, p) =>
            mkMachine (lock m) p (Aborted msg) (readers m) (results m)
        end
  | WantRead hw now cur todo =>
      (* lastPortStats_.rlock() *)
      match rlock (lock m) with
      | None => m
      | Some l =>
          mkMachine l (port m) (ReadingLast hw now cur stats_words raw todo)
            (readers m) (results m)
      end
  | ReadingLast hw now cur (w :: rest) last todo =>
      (* ->portStats(), one word *)
      mkMachine (lock m) (port m)
        (ReadingLast hw now cur rest
           (copy_word w (portStats (lastPortStats_ (port m))) last) todo)
        (readers m) (results m)
  | ReadingLast hw now cur [] last todo =>
      (* the temporary lock is released *)
      mkMachine (runlock (lock m)) (port m) (Deriving hw now cur last todo)
        (readers m) (results m)
  | Deriving hw now cur last todo =>
      (* compute non pause discards *)
      match computeNonPauseDiscards now last cur (port m) with
      | (Returns cur', p) =>
          mkMachine (lock m) p (WantWrite hw now (mkBcmPortStats cur' now) todo)
            (readers m) (results m)
      | (Throws _, p) =>
          mkMachine (lock m) p (Aborted "uncaught exception") (readers m) (results m)
      | (Fatal msg, p) =>
          mkMachine (lock m) p (Aborted msg) (readers m) (results m)
      end
  | WantWrite hw now new todo =>
      (* lastPortStats_.wlock() *)
      match wlock (lock m) with
      | None => m
      | Some l =>
          mkMachine l (port m) (Publishing hw now new snapshot_words todo)
            (readers m) (results m)
      end
  | Publishing hw now new (w :: rest) todo =>
      (* *lockedLastPortStatsPtr = BcmPortStats(curPortStats, now), one word *)
      mkMachine (lock m)
        (set_lastPortStats (assign_word w new (lastPortStats_ (port m))) (port m))
        (Publishing hw now new rest todo) (readers m) (results m)
  | Publishing hw now new [] todo =>
      (* end of the scope of the locked pointer *)
      mkMachine Unlocked (port m) (Exporting hw now todo) (readers m) (results m)
  | Exporting hw now todo =>
      (* queue length, packet length histograms; updateStats returns *)
      mkMachine (lock m) (snd (exportQueueLenAndHistograms hw now (port m)))
        (Idle todo) (readers m) (results m)
  | Aborted _ => m
  end.

(** One step of reader [i]. *)
Definition reader_step (i : nat) (m : Machine) : Machine :=
  match readers m !! i with
  | None => m
  | Some (Outside []) => m
  | Some (Outside (c :: calls)) =>
      (* lastPortStats_.rlock() *)
      match rlock (lock m) with
      | None => m
      | Some l =>
          mkMachine l (port m) (poller m)
            (<[i := match c with
                    | GetPortStats => CopyingStats stats_words raw calls
                    | GetTimeRetrieved => ReadingTime None calls
                    end]> (readers m))
            (results m)
      end
  | Some (CopyingStats (w :: rest) copy calls) =>
      (* ->portStats(), one word *)
      mkMachine (lock m) (port m) (poller m)
        (<[i := CopyingStats rest
                  (copy_word w (portStats (lastPortStats_ (port m))) copy) calls]>
           (readers m))
        (results m)
  | Some (CopyingStats [] copy calls) =>
      (* the temporary lock is released, getPortStats returns the copy *)
      mkMachine (runlock (lock m)) (port m) (poller m)
        (<[i := Outside calls]> (readers m)) (results m ++ [(i, StatsResult copy)])
  | Some (ReadingTime None calls) =>
      (* ->timeRetrieved() *)
      mkMachine (lock m) (port m) (poller m)
        (<[i := ReadingTime (Some (timeRetrieved (lastPortStats_ (port m)))) calls]>
           (readers m))
        (results m)
  | Some (ReadingTime (Some t) calls) =>
      (* the temporary lock is released, getTimeRetrieved returns *)
      mkMachine (runlock (lock m)) (port m) (poller m)
        (<[i := Outside calls]> (readers m)) (results m ++ [(i, TimeResult t)])
  end.

(** One step of the chosen thread.  A thread that cannot move (blocked on
    the lock, finished, or not there) leaves the machine as it is, and
    nothing moves once a failed check has ended the process. *)
Definition step (t : Thread) (m : Machine) : Machine :=
  if is_aborted (poller m) then m
  else match t with
       | Poller => poller_step m
       | Reader i => reader_step i m
       end.

Definition execute (schedule : list Thread) (m : Machine) : Machine :=
  fold_left (fun m t => step t m) schedule m.

(** The port as it is, the polls to come, and one reader thread for each
    list of calls. *)
Definition initial (s0 : PortStats) (polls : list (HwCounters * Z))
    (programs : list (list Call)) : Machine :=
  mkMachine Unlocked s0 (Idle polls) (map Outside programs) [].


(** Whether every thread has come to its end. *)
Definition is_outside_done (r : ReaderPc) : bool :=
  match r with Outside [] => true | _ => false end.

Definition finished (m : Machine) : bool :=
  match poller m with
  | Aborted _ => true
  | Idle [] => forallb is_outside_done (readers m)
  | _ => false
  end.


(** *** Words *)








Lemma same_stats_refl a : same_stats a a.
Proof. done. Qed.


Lemma same_snapshot_refl a : same_snapshot a a.
Proof. done. Qed.

Lemma same_snapshot_trans a b c :
  same_snapshot a b -> same_snapshot b c -> same_snapshot a c.
Proof. intros H1 H2 w. by rewrite H1. Qed.




(** *** The poller's statements do not tell apart ports that hold the
    same words *)














(** *** The polls run one after the other *)













(** *** Counting over the readers *)







(** *** The invariant *)

Section Invariant.

Variable s0 : PortStats.
Variable polls : list (HwCounters * Z).
Variable ncalls : nat.























(** *** What a single step does *)








(** *** Every thread can come to its end *)











End Invariant.



End Sync.

(** *** Runs of a port with one poll to come *)

(** The port after its first poll, with the second still to come. *)
Definition onePollToCome (programs : list (list Call)) : Machine :=
  initial afterPoll1 [(hwPoll 130 110, 1001)] programs.

Definition lossy_execute : list Thread -> Machine -> Machine :=
  execute STAT_UNINITIALIZED true true noExtraStats noExtraStats.

Definition words_of (s : HwPortStats) : list Val := map (fun w => word_of w s) stats_words.

(** What the readers' calls returned, in the order they returned. *)
Definition observed (m : Machine) : list (nat * list Val) :=
  map (fun ir => (fst ir,
                  match snd ir with
                  | StatsResult s => words_of s
                  | TimeResult t => [VInt t]
                  end))
    (results m).

(** A reader enters first: the poller gathers, reads the last snapshot
    beside the reader and then waits for the write lock; the reader gets
    the old snapshot. *)
Example reader_first_sees_old :
  observed (lossy_execute ([Reader 0] ++ repeat Poller 30 ++ repeat (Reader 0) 21
                           ++ repeat Poller 30)
              (onePollToCome [[GetPortStats]]))
  = [(0%nat, words_of (getPortStats afterPoll1))].
Proof. vm_compute. reflexivity. Qed.

(** The poller is first into its critical section: the reader waits while
    the words are being assigned, and gets the new snapshot. *)
Example poller_first_reader_sees_new :
  observed (lossy_execute (repeat Poller 30 ++ repeat (Reader 0) 5 ++ repeat Poller 30
                           ++ repeat (Reader 0) 22)
              (onePollToCome [[GetPortStats]]))
  = [(0%nat, words_of (getPortStats afterPoll2))].
Proof. vm_compute. reflexivity. Qed.

(** Two readers share the lock while the poller waits; once both have
    left, the poller publishes, and their next calls see the new
    snapshot. *)
Example two_readers_around_a_poll :
  observed (lossy_execute ([Reader 0; Reader 1] ++ repeat Poller 30
                           ++ concat (repeat [Reader 0; Reader 1] 21)
                           ++ repeat Poller 30
                           ++ concat (repeat [Reader 0; Reader 1] 22))
              (onePollToCome [[GetPortStats; GetPortStats]; [GetPortStats; GetPortStats]]))
  = [(0%nat, words_of (getPortStats afterPoll1)); (1%nat, words_of (getPortStats afterPoll1));
     (0%nat, words_of (getPortStats afterPoll2)); (1%nat, words_of (getPortStats afterPoll2))].
Proof. vm_compute. reflexivity. Qed.

(** [getPortStats] and [getTimeRetrieved] take the lock one after the
    other: with a poll in between, the counters are those of the old
    snapshot and the time is that of the new one. *)
Example stats_and_time_are_two_calls :
  observed (lossy_execute (repeat (Reader 0) 22 ++ repeat Poller 48 ++ repeat (Reader 0) 3)
              (onePollToCome [[GetPortStats; GetTimeRetrieved]]))
  = [(0%nat, words_of (getPortStats afterPoll1)); (0%nat, [VInt 1001])].
Proof. vm_compute. reflexivity. Qed.

(** Run with the poller alone, the steps leave the port as [updateStats]
    does. *)
Example poller_alone_is_updateStats :
  let m := lossy_execute (repeat Poller 48) (onePollToCome []) in
  finished m = true /\
  words_of (getPortStats (port m)) = words_of (getPortStats afterPoll2) /\
  getTimeRetrieved (port m) = getTimeRetrieved afterPoll2 /\
  outQueueLen_ (port m) = outQueueLen_ afterPoll2 /\
  portCounters_ (port m) kInDiscards = portCounters_ afterPoll2 kInDiscards.
Proof. vm_compute. repeat split; reflexivity. Qed.


End StatsSync.
